(** * BannerLord: layout planning, text compositing and metadata round trips

    A shallow embedding of the deterministic core of the BannerLord
    repository:

    - [controlnet_generator.py]: [create_control_image] (the layout planner);
    - [banner_compositor.py]: [_get_font], [add_text_to_banner],
      [export_with_metadata], [load_from_metadata];
    - [bannerlord.py]: [parse_design_response].

    Python integers are [Z] (floor division [//] is [Z.div]), Python strings
    are [string], Python objects that are shared and mutated (PIL images)
    live in a heap of image objects, and the file system is a finite map from
    paths to file contents.  Exceptions are values of [exn]; code that may
    raise returns a [result]. *)

From Stdlib Require Import ZArith String Ascii List Lia.
From stdpp Require Import base gmap strings list.

Set Warnings "-register-all".
Local Open Scope string_scope.
Local Open Scope Z_scope.
Local Open Scope list_scope.

(** ** Exceptions and results *)

(** The exceptions the modelled code and the library calls it makes can raise.
    The payload is the message or the offending key or path. *)
Inductive exn :=
  | ValueError (msg : string)
  | KeyError (key : string)
  | TypeError (msg : string)
  | AttributeError (msg : string)
  | FileNotFoundError (path : string)
  | OSError (msg : string)
  | SystemError (msg : string)
  | JSONDecodeError (msg : string)
  | UnidentifiedImageError (path : string).

Inductive result (A : Type) :=
  | Ok (a : A)
  | Raise (e : exn).
Arguments Ok {A} a.
Arguments Raise {A} e.

#[export] Instance result_ret : MRet result := λ A a, Ok a.
#[export] Instance result_bind : MBind result := λ A B f m,
  match m with
  | Ok a => f a
  | Raise e => Raise e
  end.

(** [try: m except: h] is Python's [try: m  except: h] with a bare [except]
    clause, which catches every exception. *)
Definition try_except {A} (m : result A) (h : result A) : result A :=
  match m with
  | Ok a => Ok a
  | Raise _ => h
  end.

Definition raises {A} (m : result A) : Prop :=
  match m with
  | Ok _ => False
  | Raise _ => True
  end.

Definition returns {A} (m : result A) : Prop :=
  match m with
  | Ok _ => True
  | Raise _ => False
  end.

(** ** The imaging library (PIL), as far as the code uses it *)

(** A box is the Python list [[x0, y0, x1, y1]]. *)
Definition box : Type := Z * Z * Z * Z.

(** Fonts: a FreeType font loaded from a file at a pixel size, or the
    library's built-in default font. *)
Inductive font :=
  | FreeTypeFont (path : string) (size : Z)
  | DefaultFont.

(** The drawing calls the code makes on an [ImageDraw.Draw] handle. *)
Inductive draw_op :=
  | Rectangle (xy : box) (outline : string) (width : Z)
  | Line (xy : box) (fill : string) (width : Z)
  | Text (xy : Z * Z) (text : string) (fnt : font) (fill : string)
         (stroke_width : Z) (stroke_fill : string).

(** An image object is described by how it was created and by the drawing
    calls applied to it since, in order: two images with the same description
    have the same pixels. *)
Record image := Image {
  im_mode : string;
  im_width : Z;
  im_height : Z;
  im_fill : string;
  im_ops : list draw_op
}.

Definition im_draw (img : image) (op : draw_op) : image :=
  Image (im_mode img) (im_width img) (im_height img) (im_fill img)
        (im_ops img ++ [op]).

(** [Image.new(mode, (width, height), color)]: the library checks the size
    ([Width and height must be >= 0]); a zero extent is accepted. *)
Definition Image_new (mode : string) (size : Z * Z) (color : string) : result image :=
  let '(width, height) := size in
  if (width <? 0) || (height <? 0)
  then Raise (ValueError "Width and height must be >= 0")
  else Ok (Image mode width height color []).

Section ImageDraw.
(** Whether the library validates the corner order of a rectangle.
    Pillow from 9.5 on does ([x1 must be greater than or equal to x0]);
    earlier versions draw an inverted box as it is given.  The development
    is parametric in this policy. *)
Variable strict_coords : bool.

Definition draw_rectangle (img : image) (xy : box) (outline : string) (width : Z)
  : result image :=
  let '(x0, y0, x1, y1) := xy in
  if strict_coords && (x1 <? x0)
  then Raise (ValueError "x1 must be greater than or equal to x0")
  else if strict_coords && (y1 <? y0)
  then Raise (ValueError "y1 must be greater than or equal to y0")
  else Ok (im_draw img (Rectangle xy outline width)).

Definition draw_line (img : image) (xy : box) (fill : string) (width : Z)
  : result image :=
  Ok (im_draw img (Line xy fill width)).

(** ** [controlnet_generator.ControlNetBannerGenerator.create_control_image] *)

(** The first chain of [create_control_image]: the guides drawn for the
    layout type.  A layout type outside the three known ones draws nothing. *)
Definition draw_layout (control_img : image) (width height : Z)
    (layout_type : string) : result image :=
  if (layout_type =? "minimal")%string then
    (* Simple edge detection style - just borders *)
    draw_rectangle control_img (0, 0, width - 1, height - 1) "black" 3
  else if (layout_type =? "geometric")%string then
    (* Geometric shapes for structure *)
    control_img ← draw_rectangle control_img (0, 0, width - 1, height - 1) "black" 3;
    (* Add some geometric elements *)
    control_img ← draw_line control_img (width / 3, 0, width / 3, height) "black" 2;
    draw_line control_img (2 * width / 3, 0, 2 * width / 3, height) "black" 2
  else if (layout_type =? "split")%string then
    (* Split layout with distinct regions *)
    control_img ← draw_rectangle control_img (0, 0, width - 1, height - 1) "black" 3;
    draw_line control_img (width / 2, 0, width / 2, height) "black" 4
  else Ok control_img.

(** The second chain: the value of the local variable [text_box]. *)
Definition text_box_for (width height : Z) (text_position : string) : box :=
  let padding := 50 in
  if (text_position =? "center")%string then
    (width / 4, height / 3, 3 * width / 4, 2 * height / 3)
  else if (text_position =? "left")%string then
    (padding, height / 4, width / 2 - padding, 3 * height / 4)
  else if (text_position =? "right")%string then
    (width / 2 + padding, height / 4, width - padding, 3 * height / 4)
  else if (text_position =? "top")%string then
    (padding, padding, width - padding, height / 3)
  else if (text_position =? "bottom")%string then
    (padding, 2 * height / 3, width - padding, height - padding)
  else
    (width / 4, height / 3, 3 * width / 4, 2 * height / 3).

Definition create_control_image
    (width height : Z) (text_position layout_type : string) : result image :=
  (* Create blank white image *)
  control_img ← Image_new "RGB" (width, height) "white";
  (* Define layout regions based on layout_type *)
  control_img ← draw_layout control_img width height layout_type;
  (* Mark text area based on position *)
  let text_box := text_box_for width height text_position in
  (* Draw text area box *)
  control_img ← draw_rectangle control_img text_box "black" 2;
  Ok control_img.
End ImageDraw.

(** ** Regions: the layout planner's reading of the guidance image

    The planner's regions are the shapes drawn on the guidance image.  The
    source draws the border as a rectangle of stroke 3, the dividers as lines
    and the text area as a rectangle of stroke 2. *)
Inductive role := guidance_border | guidance_divider | text_area.

#[export] Instance role_eq_dec : EqDecision role.
Proof. solve_decision. Defined.

Definition region : Type := role * box.

Definition region_of (op : draw_op) : option region :=
  match op with
  | Rectangle xy _ w => Some (if w =? 3 then guidance_border else text_area, xy)
  | Line xy _ _ => Some (guidance_divider, xy)
  | Text _ _ _ _ _ _ => None
  end.

Definition regions (img : image) : list region := omap region_of (im_ops img).

Definition text_areas (img : image) : list box :=
  snd <$> filter (λ r : region, r.1 = text_area) (regions img).

(** A box lies in the canvas when all four coordinates do. *)
Definition contained (width height : Z) (b : box) : Prop :=
  let '(x0, y0, x1, y1) := b in
  (0 ≤ x0 ≤ width ∧ 0 ≤ x1 ≤ width) ∧ (0 ≤ y0 ≤ height ∧ 0 ≤ y1 ≤ height).

(** The positions whose text box is laid out with the fixed padding. *)
Definition padded_position (text_position : string) : Prop :=
  text_position = "left" ∨ text_position = "right" ∨
  text_position = "top" ∨ text_position = "bottom".

Definition known_position (text_position : string) : Prop :=
  text_position = "center" ∨ padded_position text_position.

(** ** Python values and JSON documents *)

(** The Python values that occur in layer lists, metadata and design
    dictionaries.  A [dict] with string keys is a finite map, so that equality
    of [pyval] is Python's [==] on these values: in particular a tuple is
    never equal to a list. *)
Inductive pyval :=
  | PNone
  | PBool (b : bool)
  | PInt (n : Z)
  | PStr (s : string)
  | PList (items : list pyval)
  | PTuple (items : list pyval)
  | PDict (d : gmap string pyval).

(** A JSON document.  An object keeps its members in the order of the text. *)
Inductive json :=
  | JNull
  | JBool (b : bool)
  | JNum (n : Z)
  | JStr (s : string)
  | JArr (items : list json)
  | JObj (members : list (string * json)).

(** [json.dump]'s conversion table: [dict] to object, [list] and [tuple]
    both to array, [str] to string, [int] to number, [True], [False] and
    [None] to [true], [false] and [null]. *)
Fixpoint json_of_py (v : pyval) : json :=
  match v with
  | PNone => JNull
  | PBool b => JBool b
  | PInt n => JNum n
  | PStr s => JStr s
  | PList items => JArr (json_of_py <$> items)
  | PTuple items => JArr (json_of_py <$> items)
  | PDict d => JObj (map_to_list (json_of_py <$> d))
  end.

(** [json.load]'s conversion table: object to [dict] (a repeated name keeps
    its last value), array to [list], and so on. *)
Fixpoint py_of_json (j : json) : pyval :=
  match j with
  | JNull => PNone
  | JBool b => PBool b
  | JNum n => PInt n
  | JStr s => PStr s
  | JArr items => PList (py_of_json <$> items)
  | JObj members =>
      PDict (list_to_map (reverse (prod_map id py_of_json <$> members)))
  end.

(** What a value looks like after a trip through JSON: every tuple has
    become a list; nothing else changes. *)
Fixpoint listify (v : pyval) : pyval :=
  match v with
  | PTuple items => PList (listify <$> items)
  | PList items => PList (listify <$> items)
  | PDict d => PDict (listify <$> d)
  | _ => v
  end.

Fixpoint tuple_free (v : pyval) : bool :=
  match v with
  | PTuple _ => false
  | PList items => forallb tuple_free items
  | PDict d => forallb snd (map_to_list (tuple_free <$> d))
  | _ => true
  end.

(** A measure for induction over nested values. *)
Fixpoint pysize (v : pyval) : nat :=
  match v with
  | PList items => S (sum_list (pysize <$> items))
  | PTuple items => S (sum_list (pysize <$> items))
  | PDict d => S (sum_list (snd <$> map_to_list (pysize <$> d)))
  | _ => 1%nat
  end.

(** [v[key]] for a string key: a [dict] is looked up, and every other value
    of the model rejects a string subscript. *)
Definition py_getitem (v : pyval) (key : string) : result pyval :=
  match v with
  | PDict d =>
      match d !! key with
      | Some x => Ok x
      | None => Raise (KeyError key)
      end
  | PList _ => Raise (TypeError "list indices must be integers or slices, not str")
  | PTuple _ => Raise (TypeError "tuple indices must be integers or slices, not str")
  | PStr _ => Raise (TypeError "string indices must be integers, not 'str'")
  | _ => Raise (TypeError "object is not subscriptable")
  end.

(** ** Python string operations used by the code *)

(** Whether the character [c] occurs in [s]. *)
Fixpoint contains_char (c : ascii) (s : string) : bool :=
  match s with
  | EmptyString => false
  | String a s' => Ascii.eqb a c || contains_char c s'
  end.

Fixpoint find_from (c : ascii) (s : string) (i : Z) : Z :=
  match s with
  | EmptyString => -1
  | String a s' => if Ascii.eqb a c then i else find_from c s' (i + 1)
  end.

(** [s.find(c)] for a one-character needle: the lowest index, or [-1]. *)
Definition str_find (s : string) (c : ascii) : Z := find_from c s 0.

Fixpoint rfind_from (c : ascii) (s : string) (i last : Z) : Z :=
  match s with
  | EmptyString => last
  | String a s' => rfind_from c s' (i + 1) (if Ascii.eqb a c then i else last)
  end.

(** [s.rfind(c)] for a one-character needle: the highest index, or [-1]. *)
Definition str_rfind (s : string) (c : ascii) : Z := rfind_from c s 0 (-1).

(** [s[start:stop]]: a negative index counts from the end, both indices are
    clamped to the string, and an empty range gives the empty string. *)
Definition py_slice (s : string) (start stop : Z) : string :=
  let n := Z.of_nat (String.length s) in
  let clamp i := if i <? 0 then Z.max 0 (i + n) else Z.min i n in
  let a := clamp start in
  let b := clamp stop in
  substring (Z.to_nat a) (Z.to_nat (b - a)) s.

Definition is_lower (c : ascii) : bool :=
  let n := nat_of_ascii c in (97 <=? n)%nat && (n <=? 122)%nat.
Definition is_upper (c : ascii) : bool :=
  let n := nat_of_ascii c in (65 <=? n)%nat && (n <=? 90)%nat.
Definition to_upper (c : ascii) : ascii :=
  if is_lower c then ascii_of_nat (nat_of_ascii c - 32) else c.
Definition to_lower (c : ascii) : ascii :=
  if is_upper c then ascii_of_nat (nat_of_ascii c + 32) else c.

Fixpoint title_from (prev_cased : bool) (s : string) : string :=
  match s with
  | EmptyString => EmptyString
  | String c s' =>
      if is_lower c || is_upper c
      then String (if prev_cased then to_lower c else to_upper c) (title_from true s')
      else String c (title_from false s')
  end.

(** [s.title()] on ASCII text: a letter that follows a non-letter is made
    upper case, every other letter lower case. *)
Definition str_title (s : string) : string := title_from false s.

(** Python's ASCII white space, as [str.strip()] removes it. *)
Definition is_space (c : ascii) : bool :=
  let n := nat_of_ascii c in
  ((9 <=? n)%nat && (n <=? 13)%nat) || ((28 <=? n)%nat && (n <=? 32)%nat).

Fixpoint lstrip (s : string) : string :=
  match s with
  | String c s' => if is_space c then lstrip s' else s
  | EmptyString => EmptyString
  end.

Definition str_strip (s : string) : string :=
  String.rev (lstrip (String.rev (lstrip s))).

(** ** The heap of image objects and the file system *)

(** A PIL image is a mutable object: a variable holds a reference to it. *)
Definition loc : Type := positive.

Inductive file :=
  | PngFile (im : image)
  | JsonFile (doc : json)
  | OtherFile (data : string).

Record world := World {
  images : gmap loc image;
  files : gmap string file
}.

(** Code that reads and writes the world and may raise.  As in Python, what
    was written before an exception stays written. *)
Definition io (A : Type) : Type := world → result A * world.

#[export] Instance io_ret : MRet io := λ A a w, (Ok a, w).
#[export] Instance io_bind : MBind io := λ A B f m w,
  match m w with
  | (Ok a, w') => f a w'
  | (Raise e, w') => (Raise e, w')
  end.

Definition lift {A} (r : result A) : io A := λ w, (r, w).

(** Reading the image object a reference denotes. *)
Definition Image_get (l : loc) : io image := λ w,
  match images w !! l with
  | Some im => (Ok im, w)
  | None => (Raise (AttributeError "'NoneType' object has no attribute"), w)
  end.

(** A new image object. *)
Definition Image_alloc (im : image) : io loc := λ w,
  let l := fresh (dom (images w)) in
  (Ok l, World (<[l := im]> (images w)) (files w)).

(** Drawing on an image object changes it in place. *)
Definition Image_draw (l : loc) (op : draw_op) : io unit := λ w,
  match images w !! l with
  | Some im => (Ok (), World (<[l := im_draw im op]> (images w)) (files w))
  | None => (Raise (AttributeError "'NoneType' object has no attribute"), w)
  end.

Definition write_file (path : string) (f : file) : io unit := λ w,
  (Ok (), World (images w) (<[path := f]> (files w))).

(** [img.copy()]: a new image object with the same content. *)
Definition Image_copy (l : loc) : io loc :=
  im ← Image_get l;
  Image_alloc im.

(** [img.save(path, "PNG")]: the encoder refuses an image with an empty
    extent; otherwise the file holds the image. *)
Definition Image_save (l : loc) (path : string) : io unit :=
  im ← Image_get l;
  if (im_width im =? 0) || (im_height im =? 0)
  then lift (Raise (SystemError "tile cannot extend outside image"))
  else write_file path (PngFile im).

(** [Image.open(path)]. *)
Definition Image_open (path : pyval) : io loc := λ w,
  match path with
  | PStr p =>
      match files w !! p with
      | Some (PngFile im) => Image_alloc im w
      | Some _ => (Raise (UnidentifiedImageError p), w)
      | None => (Raise (FileNotFoundError p), w)
      end
  | _ => (Raise (AttributeError "object has no attribute 'read'"), w)
  end.

(** [with open(path, 'w') as f: json.dump(v, fp=f)]. *)
Definition json_dump (v : pyval) (path : string) : io unit :=
  write_file path (JsonFile (json_of_py v)).

(** [with open(path, 'r') as f: json.load(f)]. *)
Definition json_load (path : string) : io pyval := λ w,
  match files w !! path with
  | Some (JsonFile doc) => (Ok (py_of_json doc), w)
  | Some _ => (Raise (JSONDecodeError "Expecting value"), w)
  | None => (Raise (FileNotFoundError path), w)
  end.

(** ** [banner_compositor.BannerCompositor] *)

Section BannerCompositor.
(** The font files of the machine and the library's font loader, text
    metrics and color parser, which the code only calls:
    [path_exists] is [os.path.exists] on a font path;
    [truetype] is [ImageFont.truetype], which raises on a file it cannot
    load or a size it refuses;
    [getbbox font text] is the bounding box [(left, top, right, bottom)]
    of [text] drawn with [font] at the origin;
    [valid_color] says which color strings the library can parse. *)
Variable path_exists : string → bool.
Variable truetype : string → Z → result font.
Variable getbbox : font → string → box.
Variable valid_color : string → bool.

(** [ImageFont.load_default()]. *)
Definition load_default : font := DefaultFont.

(** [draw.textbbox(xy, text, font=font)]: the font's box moved to [xy]. *)
Definition textbbox (xy : Z * Z) (text : string) (fnt : font) : box :=
  let '(bx0, by0, bx1, by1) := getbbox fnt text in
  (bx0 + xy.1, by0 + xy.2, bx1 + xy.1, by1 + xy.2).

(** [draw.text(xy, text, font=, fill=, stroke_width=, stroke_fill=)] with
    [draw = ImageDraw.Draw(img)]: the library parses [fill], and
    [stroke_fill] when the stroke width is not zero, and draws on the image
    object in place. *)
Definition draw_text (img : loc) (xy : Z * Z) (text : string)
    (fnt : font) (fill : string) (stroke_width : Z) (stroke_fill : string)
  : io unit :=
  if negb (valid_color fill)
  then lift (Raise (ValueError "unknown color specifier"))
  else if negb (stroke_width =? 0) && negb (valid_color stroke_fill)
  then lift (Raise (ValueError "unknown color specifier"))
  else Image_draw img (Text xy text fnt fill stroke_width stroke_fill).

(** The loop of [_get_font] over [font_paths], followed by the fallback
    after the loop. *)
Fixpoint get_font_loop (font_paths : list string) (font_size : Z) : result font :=
  match font_paths with
  | [] =>
      (* Fallback to default *)
      Ok load_default
  | font_path :: rest =>
      if path_exists font_path
      then try_except (truetype font_path font_size) (get_font_loop rest font_size)
      else get_font_loop rest font_size
  end.

Definition _get_font (font_size : Z) (font_family : string) : result font :=
  (* Try to load specified font *)
  let font_paths :=
    [ "/usr/share/fonts/truetype/dejavu/DejaVu" +:+ str_title font_family +:+ ".ttf";
      "/usr/share/fonts/truetype/liberation/Liberation" +:+ str_title font_family +:+ ".ttf";
      "/usr/share/fonts/truetype/dejavu/DejaVuSans-Bold.ttf";
      "/usr/share/fonts/truetype/dejavu/DejaVuSans.ttf" ] in
  get_font_loop font_paths font_size.

Definition add_text_to_banner (background : loc) (text : string)
    (position : option (Z * Z)) (font_size : Z) (font_family color alignment : string)
    (stroke_width : Z) (stroke_color : string) (shadow : bool) : io loc :=
  (* Create a copy to avoid modifying original *)
  img ← Image_copy background;
  (* Get font *)
  fnt ← lift (_get_font font_size font_family);
  (* Calculate text position if not specified *)
  position ←
    match position with
    | None =>
        im ← Image_get img;
        (* Get text bounding box *)
        let '(bbox0, bbox1, bbox2, bbox3) := textbbox (0, 0) text fnt in
        let text_width := bbox2 - bbox0 in
        let text_height := bbox3 - bbox1 in
        (* Center the text *)
        let x := (im_width im - text_width) / 2 in
        let y := (im_height im - text_height) / 2 in
        mret (x, y)
    | Some p => mret p
    end;
  (* Add shadow if requested *)
  _ ←
    (if shadow then
       let shadow_offset := 3 in
       let shadow_pos := (position.1 + shadow_offset, position.2 + shadow_offset) in
       draw_text img shadow_pos text fnt "#00000080" stroke_width "#00000080"
     else mret ());
  (* Draw main text with stroke *)
  _ ← draw_text img position text fnt color stroke_width stroke_color;
  mret img.

(** The box the text of a drawing call occupies: the library's box of the
    text at the position it was drawn at. *)
Definition rendered_bbox (op : draw_op) : option box :=
  match op with
  | Text xy text fnt _ _ _ => Some (textbbox xy text fnt)
  | _ => None
  end.
End BannerCompositor.

(** [export_with_metadata] and [load_from_metadata] use no font. *)

Definition export_with_metadata (output_path : string) (background : loc)
    (text_layers : pyval) : io (string * string) :=
  (* Save background *)
  let bg_path := output_path +:+ "_background.png" in
  _ ← Image_save background bg_path;
  (* Save metadata *)
  im ← Image_get background;
  let metadata :=
    PDict {[ "width" := PInt (im_width im);
             "height" := PInt (im_height im);
             "background" := PStr bg_path;
             "text_layers" := text_layers ]} in
  let metadata_path := output_path +:+ "_metadata.json" in
  _ ← json_dump metadata metadata_path;
  mret (bg_path, metadata_path).

Definition load_from_metadata (metadata_path : string) : io (loc * pyval) :=
  metadata ← json_load metadata_path;
  path ← lift (py_getitem metadata "background");
  background ← Image_open path;
  text_layers ← lift (py_getitem metadata "text_layers");
  mret (background, text_layers).

(** ** [bannerlord.BannerLord.parse_design_response] *)

Section BannerLord.
(** [json.loads], the library's JSON reader, which the code only calls: it
    returns the value a text denotes or raises. *)
Variable json_loads : string → result pyval.

(** The dictionary returned when no JSON could be read. *)
Definition default_design (response : string) : pyval :=
  PDict {[ "raw_response" := PStr response;
           "concept" := PStr "See raw response";
           "colors" := PList [PStr "#3498db"; PStr "#2ecc71"; PStr "#f39c12";
                              PStr "#e74c3c"; PStr "#ffffff"];
           "typography" := PStr "Sans-serif, bold";
           "layout" := PStr "center";
           "image_prompt" := PStr "professional modern abstract background" ]}.

(** The body of the [try] block: [Ok (Some v)] when it returns [v],
    [Ok None] when control falls out of the block, [Raise e] when it raises. *)
Definition parse_design_try (response : string) : result (option pyval) :=
  (* Look for JSON in the response *)
  let start := str_find response "{" in
  let end_ := str_rfind response "}" + 1 in
  if negb (start =? -1) && negb (end_ =? 0) then
    let json_str := py_slice response start end_ in
    v ← json_loads json_str;
    Ok (Some v)
  else Ok None.

Definition parse_design_response (response : string) : result pyval :=
  (* Try to extract JSON if present *)
  returned ← try_except (parse_design_try response) (Ok None);
  match returned with
  | Some v => Ok v
  | None =>
      (* Return raw response if JSON parsing fails *)
      Ok (default_design response)
  end.
End BannerLord.

(** ** A reference JSON reader

    An executable reader for the fragment of JSON with integer numbers and
    the two-character escapes, used to run [parse_design_response] on concrete
    responses.  Numbers with a fraction or an exponent and [\u] escapes are
    outside the fragment and are reported as decoding errors. *)

Definition dquote : ascii := "034"%char.
Definition backslash : ascii := "092"%char.

Definition is_json_ws (c : ascii) : bool :=
  Ascii.eqb c " " || Ascii.eqb c "009" || Ascii.eqb c "010" || Ascii.eqb c "013".

Fixpoint skip_ws (s : string) : string :=
  match s with
  | String c s' => if is_json_ws c then skip_ws s' else s
  | EmptyString => EmptyString
  end.

Definition digit_of (c : ascii) : option Z :=
  let n := nat_of_ascii c in
  if (48 <=? n)%nat && (n <=? 57)%nat then Some (Z.of_nat n - 48) else None.

Fixpoint read_digits (s : string) (acc : Z) : Z * string :=
  match s with
  | String c s' =>
      match digit_of c with
      | Some d => read_digits s' (10 * acc + d)
      | None => (acc, s)
      end
  | EmptyString => (acc, s)
  end.

Definition starts_fraction (s : string) : bool :=
  match s with
  | String c _ => Ascii.eqb c "." || Ascii.eqb c "e" || Ascii.eqb c "E"
  | EmptyString => false
  end.

(** An unsigned integer: [0], or a non-zero digit followed by digits. *)
Definition read_nat (s : string) : option (Z * string) :=
  match s with
  | String c s' =>
      match digit_of c with
      | Some 0 => if starts_fraction s' then None else Some (0, s')
      | Some d =>
          let '(n, rest) := read_digits s' d in
          if starts_fraction rest then None else Some (n, rest)
      | None => None
      end
  | EmptyString => None
  end.

Definition read_int (s : string) : option (Z * string) :=
  match s with
  | String c s' =>
      if Ascii.eqb c "-"
      then '(n, rest) ← read_nat s'; Some (- n, rest)
      else read_nat s
  | EmptyString => None
  end.

Definition unescape (c : ascii) : option ascii :=
  if Ascii.eqb c dquote then Some dquote
  else if Ascii.eqb c backslash then Some backslash
  else if Ascii.eqb c "/" then Some "/"%char
  else if Ascii.eqb c "b" then Some "008"%char
  else if Ascii.eqb c "f" then Some "012"%char
  else if Ascii.eqb c "n" then Some "010"%char
  else if Ascii.eqb c "r" then Some "013"%char
  else if Ascii.eqb c "t" then Some "009"%char
  else None.

(** The characters of a string literal after its opening quote, up to the
    closing quote. *)
Fixpoint read_string_body (s : string) : option (string * string) :=
  match s with
  | EmptyString => None
  | String c rest =>
      if Ascii.eqb c dquote then Some (EmptyString, rest)
      else if Ascii.eqb c backslash then
        match rest with
        | String e rest' =>
            ch ← unescape e;
            '(body, tail) ← read_string_body rest';
            Some (String ch body, tail)
        | EmptyString => None
        end
      else if (nat_of_ascii c <? 32)%nat then None
      else '(body, tail) ← read_string_body rest; Some (String c body, tail)
  end.

Definition read_literal (lit : string) (j : json) (s : string) : option (json * string) :=
  if String.prefix lit s
  then Some (j, substring (String.length lit) (String.length s - String.length lit) s)
  else None.

Fixpoint read_value (fuel : nat) (s : string) {struct fuel} : option (json * string) :=
  match fuel with
  | O => None
  | S fuel =>
      match skip_ws s with
      | EmptyString => None
      | String c rest =>
          if Ascii.eqb c "{" then
            match skip_ws rest with
            | String c' rest' =>
                if Ascii.eqb c' "}" then Some (JObj [], rest')
                else '(members, tail) ← read_members fuel rest []; Some (JObj members, tail)
            | EmptyString => None
            end
          else if Ascii.eqb c "[" then
            match skip_ws rest with
            | String c' rest' =>
                if Ascii.eqb c' "]" then Some (JArr [], rest')
                else '(items, tail) ← read_elements fuel rest []; Some (JArr items, tail)
            | EmptyString => None
            end
          else if Ascii.eqb c dquote then
            '(body, tail) ← read_string_body rest; Some (JStr body, tail)
          else if Ascii.eqb c "n" then read_literal "null" JNull (String c rest)
          else if Ascii.eqb c "t" then read_literal "true" (JBool true) (String c rest)
          else if Ascii.eqb c "f" then read_literal "false" (JBool false) (String c rest)
          else '(n, tail) ← read_int (String c rest); Some (JNum n, tail)
      end
  end
with read_elements (fuel : nat) (s : string) (acc : list json) {struct fuel}
  : option (list json * string) :=
  match fuel with
  | O => None
  | S fuel =>
      '(v, rest) ← read_value fuel s;
      match skip_ws rest with
      | String c rest' =>
          if Ascii.eqb c "," then read_elements fuel rest' (v :: acc)
          else if Ascii.eqb c "]" then Some (reverse (v :: acc), rest')
          else None
      | EmptyString => None
      end
  end
with read_members (fuel : nat) (s : string) (acc : list (string * json)) {struct fuel}
  : option (list (string * json) * string) :=
  match fuel with
  | O => None
  | S fuel =>
      match skip_ws s with
      | String q rest =>
          if Ascii.eqb q dquote then
            '(key, rest) ← read_string_body rest;
            match skip_ws rest with
            | String c rest =>
                if Ascii.eqb c ":" then
                  '(v, rest) ← read_value fuel rest;
                  match skip_ws rest with
                  | String c' rest' =>
                      if Ascii.eqb c' "," then read_members fuel rest' ((key, v) :: acc)
                      else if Ascii.eqb c' "}" then Some (reverse ((key, v) :: acc), rest')
                      else None
                  | EmptyString => None
                  end
                else None
            | EmptyString => None
            end
          else None
      | EmptyString => None
      end
  end.

(** [json.loads] on the fragment: one value, white space around it, and
    nothing else. *)
Definition json_loads_ref (s : string) : result pyval :=
  match read_value (2 * String.length s + 2) s with
  | Some (j, rest) =>
      match skip_ws rest with
      | EmptyString => Ok (py_of_json j)
      | String _ _ => Raise (JSONDecodeError "Extra data")
      end
  | None => Raise (JSONDecodeError "Expecting value")
  end.

(** ** Descriptions used in the statements *)

(** A guide is a border or a divider that lies in the canvas. *)
Definition is_guide (w h : Z) (op : draw_op) : Prop :=
  ∃ r b, region_of op = Some (r, b) ∧ r ≠ text_area ∧ contained w h b.

(** The position [add_text_to_banner] draws the text at: the explicit one,
    or the one computed from the font's box of the text. *)
Definition resolved_position (getbbox : font → string → box) (bg : image)
    (text : string) (fnt : font) (position : option (Z * Z)) : Z * Z :=
  match position with
  | Some p => p
  | None =>
      let '(bx0, by0, bx1, by1) := getbbox fnt text in
      ((im_width bg - (bx1 - bx0)) / 2, (im_height bg - (by1 - by0)) / 2)
  end.

(** The drawing calls of one rendering, in order: the shadow pass, if any,
    then the main pass. *)
Definition text_passes (text : string) (fnt : font) (xy : Z * Z) (color : string)
    (stroke_width : Z) (stroke_color : string) (shadow : bool) : list draw_op :=
  (if shadow
   then [Text (xy.1 + 3, xy.2 + 3) text fnt "#00000080" stroke_width "#00000080"]
   else []) ++
  [Text xy text fnt color stroke_width stroke_color].

Definition im_draw_all (im : image) (ops : list draw_op) : image :=
  Image (im_mode im) (im_width im) (im_height im) (im_fill im) (im_ops im ++ ops).

(** ** A reference environment

    A machine with the two DejaVu fonts installed, a loader that accepts a
    positive size, hexadecimal colors, and font metrics of the shape DejaVu
    Sans has: at size 48 the capitals start 10 pixels below the drawing
    origin (the origin is on the ascender line) and end on the base line, 45
    pixels below it, and a character is 30 pixels wide. *)

Definition dejavu_sans : string := "/usr/share/fonts/truetype/dejavu/DejaVuSans.ttf".
Definition dejavu_sans_bold : string :=
  "/usr/share/fonts/truetype/dejavu/DejaVuSans-Bold.ttf".

Definition ref_path_exists (p : string) : bool :=
  (p =? dejavu_sans)%string || (p =? dejavu_sans_bold)%string.

Definition ref_truetype (p : string) (size : Z) : result font :=
  if ref_path_exists p then
    if 0 <? size then Ok (FreeTypeFont p size)
    else Raise (ValueError "font size must be greater than 0")
  else Raise (OSError "cannot open resource").

Definition ref_getbbox (fnt : font) (text : string) : box :=
  let n := Z.of_nat (String.length text) in
  match fnt with
  | FreeTypeFont _ size => (0, 5 * size / 24, n * (5 * size / 8), 15 * size / 16)
  | DefaultFont => (0, 0, 6 * n, 11)
  end.

Definition is_hex_digit (c : ascii) : bool :=
  let n := nat_of_ascii c in
  ((48 <=? n)%nat && (n <=? 57)%nat) || ((65 <=? n)%nat && (n <=? 70)%nat)
  || ((97 <=? n)%nat && (n <=? 102)%nat).

Fixpoint all_hex (s : string) : bool :=
  match s with
  | EmptyString => true
  | String c s' => is_hex_digit c && all_hex s'
  end.

Definition ref_valid_color (c : string) : bool :=
  match c with
  | String "#" digits =>
      all_hex digits &&
      match String.length digits with
      | 3%nat | 4%nat | 6%nat | 8%nat => true
      | _ => false
      end
  | _ => false
  end.

Definition ref_add_text_to_banner :=
  add_text_to_banner ref_path_exists ref_truetype ref_getbbox ref_valid_color.

(** The canvas of the repository's tests: one 800 by 400 image object. *)
Definition test_img : image := Image "RGB" 800 400 "#3498db" [].
Definition test_world : world := World {[ 1%positive := test_img ]} ∅.

(** ** The sentences of the specification, as they are worded *)




(** "Rendering fails exactly when the text is empty after trimming." *)
Definition unrenderable_text_claim (path_exists : string → bool)
    (truetype : string → Z → result font) (getbbox : font → string → box)
    (valid_color : string → bool) : Prop :=
  ∀ w background bg text position font_size font_family color alignment
    stroke_width stroke_color shadow,
    images w !! background = Some bg →
    raises (add_text_to_banner path_exists truetype getbbox valid_color
              background text position font_size font_family color alignment
              stroke_width stroke_color shadow w).1
    ↔ str_strip text = "".

(** "The box of an auto-placed text is centered in the canvas, within half
    a pixel": twice the center of the box is the canvas size, give or take 1. *)
Definition centered_in (width height : Z) (b : box) : Prop :=
  let '(x0, y0, x1, y1) := b in
  (-1 ≤ x0 + x1 - width ≤ 1) ∧ (-1 ≤ y0 + y1 - height ≤ 1).

(** "Import after export gives a background of the same size and a layer
    list equal to the original." *)
Definition round_trip_claim : Prop :=
  ∀ w output_path background bg layers,
    images w !! background = Some bg → 0 < im_width bg → 0 < im_height bg →
    ∃ paths w1 bg' w2 im',
      export_with_metadata output_path background (PList layers) w = (Ok paths, w1) ∧
      load_from_metadata paths.2 w1 = (Ok (bg', PList layers), w2) ∧
      images w2 !! bg' = Some im' ∧
      im_width im' = im_width bg ∧ im_height im' = im_height bg.

(** "A document missing a required field, or naming a missing background
    file, is refused." *)
Definition malformed_metadata_claim : Prop :=
  ∀ w metadata_path doc d,
    files w !! metadata_path = Some (JsonFile doc) →
    py_of_json doc = PDict d →
    d !! "width" = None ∨ d !! "height" = None ∨ d !! "background" = None ∨
    d !! "text_layers" = None ∨
    (∃ p, d !! "background" = Some (PStr p) ∧ files w !! p = None) →
    raises (load_from_metadata metadata_path w).1.

(** The layer list of the repository's export test: the position is a
    tuple. *)
Definition test_layers : list pyval :=
  [PDict {[ "text" := PStr "TEST";
            "position" := PTuple [PInt 400; PInt 200];
            "font_size" := PInt 48;
            "color" := PStr "#FFFFFF" ]}].

(** The same layers as they are read back. *)
Definition test_layers_read_back : list pyval :=
  [PDict {[ "text" := PStr "TEST";
            "position" := PList [PInt 400; PInt 200];
            "font_size" := PInt 48;
            "color" := PStr "#FFFFFF" ]}].

(** A layer list with an unset position, as [create_banner] builds it. *)
Definition auto_layers : list pyval :=
  [PDict {[ "text" := PStr "INNOVATE";
            "position" := PNone;
            "font_size" := PInt 72;
            "font_family" := PStr "Sans";
            "color" := PStr "#FFFFFF";
            "alignment" := PStr "center";
            "stroke_width" := PInt 3;
            "stroke_color" := PStr "#000000";
            "shadow" := PBool true ]}].

(** A metadata document without [width] and [height], next to its
    background file. *)
Definition sizeless_world : world :=
  World ∅ {[ "banner_metadata.json" :=
               JsonFile (JObj [("background", JStr "banner_background.png");
                               ("text_layers", JArr [])]);
             "banner_background.png" := PngFile test_img ]}.

(** "The substring from the first opening brace to the last closing brace":
    [response] is cut at its first opening brace and at its last closing
    brace, which comes later. *)
Definition brace_span (response json_str : string) : Prop :=
  ∃ pre mid post,
    response = pre +:+ "{" +:+ mid +:+ "}" +:+ post ∧
    contains_char "{" pre = false ∧ contains_char "}" post = false ∧
    json_str = "{" +:+ mid +:+ "}".

(** The keys the advisor is asked for, and the key of the fallback. *)
Definition design_keys : list string :=
  ["concept"; "colors"; "typography"; "layout"; "image_prompt"; "raw_response"].

(** ** Tactics *)

(** Case analysis on the string comparisons of the goal. *)
Ltac str_cases :=
  repeat match goal with
  | |- context [String.eqb ?a ?b] =>
      let E := fresh "E" in
      destruct (String.eqb_spec a b) as [E|E]; [try subst; try discriminate|]
  end.

(** Arithmetic with floor division by a constant. *)
Ltac zdiv := simpl; Z.div_mod_to_equations; lia.


(** ** Further code of the repository *)

(** *** Dictionaries and truth values *)

(** [d.get(key, dflt)]: the stored value, also when it is [None]. *)
Definition dict_get (d : gmap string pyval) (key : string) (dflt : pyval) : pyval :=
  default dflt (d !! key).

(** The truth value of [v] in a condition such as [if shadow:]. *)
Definition truthy (v : pyval) : bool :=
  match v with
  | PNone => false
  | PBool b => b
  | PInt n => negb (n =? 0)
  | PStr s => negb (s =? "")%string
  | PList items => negb (bool_decide (length items = 0%nat))
  | PTuple items => negb (bool_decide (length items = 0%nat))
  | PDict d => negb (bool_decide (size d = 0%nat))
  end.

(** [a or b] on optional strings: [None] and the empty string are false. *)
Definition py_or (a b : option string) : option string :=
  match a with
  | Some s => if (s =? "")%string then b else Some s
  | None => b
  end.

(** [needle in s] on strings. *)
Fixpoint str_contains (needle s : string) : bool :=
  String.prefix needle s ||
  match s with
  | String _ s' => str_contains needle s'
  | EmptyString => false
  end.

(** [x in v] for a string [x]: a key of a [dict], an item of a list or a
    tuple, a substring of a string; the other values are not iterable. *)
Definition py_contains (x : string) (v : pyval) : result bool :=
  let is_x (item : pyval) :=
    match item with
    | PStr s => (s =? x)%string
    | _ => false
    end in
  match v with
  | PDict d => Ok (bool_decide (is_Some (d !! x)))
  | PList items => Ok (existsb is_x items)
  | PTuple items => Ok (existsb is_x items)
  | PStr s => Ok (str_contains x s)
  | _ => Raise (TypeError "argument is not iterable")
  end.

(** *** [banner_compositor.BannerCompositor.create_composite_banner] *)

(** The arguments of one call of [add_text_to_banner], with the types of its
    signature. *)
Record text_call := TextCall {
  tc_text : string;
  tc_position : option (Z * Z);
  tc_font_size : Z;
  tc_font_family : string;
  tc_color : string;
  tc_alignment : string;
  tc_stroke_width : Z;
  tc_stroke_color : string;
  tc_shadow : bool
}.

Definition as_str (v : pyval) : option string :=
  match v with
  | PStr s => Some s
  | _ => None
  end.

Definition as_int (v : pyval) : option Z :=
  match v with
  | PInt n => Some n
  | _ => None
  end.

(** A position is [None] or a pair of integers; a pair read back from JSON
    is a list. *)
Definition as_position (v : pyval) : option (option (Z * Z)) :=
  match v with
  | PNone => Some None
  | PTuple [PInt x; PInt y] => Some (Some (x, y))
  | PList [PInt x; PInt y] => Some (Some (x, y))
  | _ => None
  end.

(** The keyword arguments the loop of [create_composite_banner] reads from
    one element, each with its default.  The result is [None] when a value
    has not the type of the signature: the development says nothing about
    such calls. *)
Definition element_call (element : gmap string pyval) : option text_call :=
  text ← as_str (dict_get element "text" (PStr ""));
  position ← as_position (dict_get element "position" PNone);
  font_size ← as_int (dict_get element "font_size" (PInt 72));
  font_family ← as_str (dict_get element "font_family" (PStr "Sans"));
  color ← as_str (dict_get element "color" (PStr "#FFFFFF"));
  alignment ← as_str (dict_get element "alignment" (PStr "center"));
  stroke_width ← as_int (dict_get element "stroke_width" (PInt 2));
  stroke_color ← as_str (dict_get element "stroke_color" (PStr "#000000"));
  let shadow := truthy (dict_get element "shadow" (PBool true)) in
  Some (TextCall text position font_size font_family color alignment
                 stroke_width stroke_color shadow).

Section CompositeBanner.
Variable path_exists : string → bool.
Variable truetype : string → Z → result font.
Variable getbbox : font → string → box.
Variable valid_color : string → bool.

Definition add_text_call (result : loc) (c : text_call) : io loc :=
  add_text_to_banner path_exists truetype getbbox valid_color result
    (tc_text c) (tc_position c) (tc_font_size c) (tc_font_family c) (tc_color c)
    (tc_alignment c) (tc_stroke_width c) (tc_stroke_color c) (tc_shadow c).

(** The loop [for element in text_elements: result = add_text_to_banner(result, ...)]. *)
Fixpoint composite_loop (result : loc) (text_elements : list text_call) : io loc :=
  match text_elements with
  | [] => mret result
  | element :: rest =>
      result ← add_text_call result element;
      composite_loop result rest
  end.

(** [create_composite_banner], with every element given as the call that
    [element_call] reads from its dictionary.  [output_path] is used when it
    is true: neither [None] nor the empty string. *)
Definition create_composite_banner (background : loc)
    (text_elements : list text_call) (output_path : option string) : io loc :=
  result ← Image_copy background;
  result ← composite_loop result text_elements;
  _ ← match py_or output_path None with
      | Some output_path => Image_save result output_path
      | None => mret ()
      end;
  mret result.
End CompositeBanner.

(** *** [banner_compositor.BannerCompositor.export_as_svg] *)

(** The elements the code adds to the drawing.  The keyword arguments of a
    text element are the values read from the layer, of whatever type. *)
Inductive svg_element :=
  | SvgImage (href : string) (insert : Z * Z) (size : Z * Z)
  | SvgText (text : pyval) (insert : pyval * pyval)
            (font_size font_family fill : pyval) (text_anchor : string)
            (stroke stroke_width : pyval).

Record drawing := Drawing {
  dwg_filename : string;
  dwg_size : Z * Z;
  dwg_elements : list svg_element
}.

(** The text element [export_as_svg] creates for one layer. *)
Definition svg_text_element (width height : Z) (layer : gmap string pyval)
  : svg_element :=
  SvgText (dict_get layer "text" (PStr ""))
          (dict_get layer "x" (PInt (width / 2)),
           dict_get layer "y" (PInt (height / 2)))
          (dict_get layer "font_size" (PInt 72))
          (dict_get layer "font_family" (PStr "Arial"))
          (dict_get layer "color" (PStr "#FFFFFF"))
          "middle"
          (dict_get layer "stroke_color" (PStr "#000000"))
          (dict_get layer "stroke_width" (PInt 2)).

Section ExportSvg.
(** The SVG library, which the code only calls: [svg_validate_size] and
    [svg_validate] are the checks the library makes of the size of a drawing
    and of the values of an element when they are created, which may raise;
    [svg_tostring] is the text [dwg.save()] writes. *)
Variable svg_validate_size : Z * Z → result unit.
Variable svg_validate : svg_element → result unit.
Variable svg_tostring : drawing → string.

(** [svgwrite.Drawing(filename, size=size)]. *)
Definition svg_drawing (filename : string) (size : Z * Z) : result drawing :=
  _ ← svg_validate_size size;
  Ok (Drawing filename size []).

(** [dwg.add(element)], with the element created just before. *)
Definition svg_add (dwg : drawing) (element : svg_element) : result drawing :=
  _ ← svg_validate element;
  Ok (Drawing (dwg_filename dwg) (dwg_size dwg) (dwg_elements dwg ++ [element])).

(** The loop [for layer in text_layers]. *)
Fixpoint svg_add_text_layers (dwg : drawing) (width height : Z)
    (text_layers : list (gmap string pyval)) : result drawing :=
  match text_layers with
  | [] => Ok dwg
  | layer :: rest =>
      let text_element := svg_text_element width height layer in
      dwg ← svg_add dwg text_element;
      svg_add_text_layers dwg width height rest
  end.

Definition export_as_svg (output_path : string) (width height : Z)
    (background_image_path : string) (text_layers : list (gmap string pyval))
  : io unit :=
  dwg ← lift (svg_drawing output_path (width, height));
  (* Add background image *)
  dwg ← lift (svg_add dwg (SvgImage background_image_path (0, 0) (width, height)));
  (* Add text layers *)
  dwg ← lift (svg_add_text_layers dwg width height text_layers);
  write_file (dwg_filename dwg) (OtherFile (svg_tostring dwg)).
End ExportSvg.

(** *** [bannerlord.BannerLord.create_banner]: the steps that use no model *)

(** [f'{n:x}']: the digits of a number in base 16, lower case. *)
Definition hex_digit (d : Z) : ascii :=
  default "0"%char (String.get (Z.to_nat d) "0123456789abcdef").

Fixpoint hex_digits (fuel : nat) (n : Z) (acc : string) : string :=
  match fuel with
  | O => acc
  | S fuel =>
      let acc := String (hex_digit (n `mod` 16)) acc in
      if n <? 16 then acc else hex_digits fuel (n / 16) acc
  end.

Definition format_x (n : Z) : string :=
  hex_digits (S (Z.to_nat (Z.log2 n))) n "".

(** [f'{n:02x}']: at least two characters, filled with a zero after the
    sign. *)
Definition format_02x (n : Z) : string :=
  if n <? 0 then "-" +:+ format_x (- n)
  else
    let s := format_x n in
    if (String.length s <? 2)%nat then "0" +:+ s else s.

Section SimpleBackground.
Variable valid_color : string → bool.
(** [int(44 + (i / height) * 30)], which the code computes in floating
    point, as a function of [i] and [height]. *)
Variable shade_of : Z → Z → Z.

(** [draw.line(xy, fill=fill)] with [draw = ImageDraw.Draw(img)]: the library
    parses the color and draws on the image object in place. *)
Definition draw_line_fill (img : loc) (xy : box) (fill : string) : io unit :=
  if negb (valid_color fill)
  then lift (Raise (ValueError "unknown color specifier"))
  else Image_draw img (Line xy fill 0).

(** The loop [for i in range(height)] of the branch without ControlNet. *)
Fixpoint gradient_loop (background : loc) (width height : Z) (rows : list Z) : io unit :=
  match rows with
  | [] => mret ()
  | i :: rest =>
      let shade := shade_of i height in
      let color :=
        "#" +:+ format_02x shade +:+ format_02x (62 + i / 20) +:+ format_02x 80 in
      _ ← draw_line_fill background (0, i, width, i) color;
      gradient_loop background width height rest
  end.

(** The branch of [create_banner] without ControlNet, up to the saving of
    the background. *)
Definition simple_background (width height : Z) : io loc :=
  im ← lift (Image_new "RGB" (width, height) "#2c3e50");
  background ← Image_alloc im;
  (* Add gradient effect *)
  _ ← gradient_loop background width height (seqZ 0 height);
  mret background.
End SimpleBackground.

(** "Use colors from design if available". *)
Definition design_text_color (design : pyval) (text_color : string) : result string :=
  match py_contains "colors" design with
  | Raise e => Raise e
  | Ok false => Ok text_color
  | Ok true =>
      colors ← py_getitem design "colors";
      match colors with
      | PList (first :: _) =>
          Ok (match first with
              | PStr c => c
              | _ => text_color
              end)
      | _ => Ok text_color
      end
  end.

(** The list [text_layers] that [create_banner] builds. *)
Definition banner_text_layers (text : string) (font_size : Z)
    (text_color text_position : string) : list (gmap string pyval) :=
  [ {[ "text" := PStr text;
       "position" := PNone;
       "font_size" := PInt font_size;
       "font_family" := PStr "Sans";
       "color" := PStr text_color;
       "alignment" := PStr text_position;
       "stroke_width" := PInt 3;
       "stroke_color" := PStr "#000000";
       "shadow" := PBool true ]} ].

(** The layers passed to [export_as_svg]: [{**layer, 'x': ..., 'y': ...}]. *)
Definition banner_svg_layers (width height : Z)
    (text_layers : list (gmap string pyval)) : list (gmap string pyval) :=
  (λ layer : gmap string pyval,
     <["y" := PInt (height / 2)]> (<["x" := PInt (width / 2)]> layer))
    <$> text_layers.

(** *** [banner_agent.BannerDesignAgent] *)

Section BannerDesignAgent.
(** The environment, the language model behind [self.agent.run], and
    [str(e)] for an exception [e]. *)
Variable getenv : string → option string.
Variable agent_run : string → result string.
Variable exn_str : exn → string.

(** The key [__init__] stores in [self.api_key], or the error it raises
    before the agent is created. *)
Definition agent_api_key (api_key : option string) : result string :=
  let api_key := py_or api_key (getenv "OPENAI_API_KEY") in
  match py_or api_key None with
  | None =>
      Raise (ValueError ("OpenAI API key is required. Set OPENAI_API_KEY environment variable "
                         +:+ "or pass api_key parameter."))
  | Some api_key => Ok api_key
  end.

Definition design_banner (user_prompt : string) : result string :=
  let enhanced_prompt :=
    "Design a banner with the following requirements:

" +:+ user_prompt +:+ "

Provide a complete design specification including concept, colors (with hex codes), 
typography recommendations, layout/alignment suggestions, and a detailed image generation 
prompt optimized for AI image generation with ControlNet." in
  match agent_run enhanced_prompt with
  | Ok response => Ok response
  | Raise e => Ok ("Error generating design: " +:+ exn_str e)
  end.

Definition refine_design (original_prompt feedback : string) : result string :=
  let refinement_prompt :=
    "Original banner request: " +:+ original_prompt +:+ "

User feedback/modification request: " +:+ feedback +:+ "

Please refine the banner design based on this feedback while maintaining design principles." in
  match agent_run refinement_prompt with
  | Ok response => Ok response
  | Raise e => Ok ("Error refining design: " +:+ exn_str e)
  end.
End BannerDesignAgent.

(** *** [bannerlord.BannerLord.create_banner] and [main] *)

(** [v.get(key, dflt)] on a value: only a [dict] has the method. *)
Definition py_get (v : pyval) (key : string) (dflt : pyval) : result pyval :=
  match v with
  | PDict d => Ok (dict_get d key dflt)
  | _ => Raise (AttributeError "object has no attribute 'get'")
  end.

(** A value used as a path is a [pathlib.Path] object or a plain string. *)
Inductive pathlike :=
  | PathObject (s : string)
  | StrObject (s : string).

(** The last component of a path. *)
Definition path_basename (s : string) : string :=
  py_slice s (str_rfind s "/" + 1) (Z.of_nat (String.length s)).

(** [p.name]: an attribute of [Path] objects, which strings have not. *)
Definition attr_name (p : pathlike) : result string :=
  match p with
  | PathObject s => Ok (path_basename s)
  | StrObject _ => Raise (AttributeError "'str' object has no attribute 'name'")
  end.

Section CreateBanner.
(** What [create_banner] only calls: the imaging library, fonts and colors
    as above; [json_loads]; the SVG library; the environment, the
    constructor of the language-model agent and its [run] method, and
    [str(e)]; [generate_banner], the diffusion pipeline of
    [ControlNetBannerGenerator], which makes a new image from a prompt and a
    control image or raises; and [joinpath name], the text of the path
    [self.output_dir / name]. *)
Variable strict_coords : bool.
Variable path_exists : string → bool.
Variable truetype : string → Z → result font.
Variable getbbox : font → string → box.
Variable valid_color : string → bool.
Variable shade_of : Z → Z → Z.
Variable json_loads : string → result pyval.
Variable svg_validate_size : Z * Z → result unit.
Variable svg_validate : svg_element → result unit.
Variable svg_tostring : drawing → string.
Variable getenv : string → option string.
Variable Agent_new : string → result unit.
Variable agent_run : string → result string.
Variable exn_str : exn → string.
Variable generate_banner : pyval → loc → io loc.
Variable joinpath : string → string.

(** [create_banner] on an application object that has made no banner yet
    ([self.agent] and [self.controlnet] are [None]); [api_key] is the key the
    object was created with.  What is printed is left out, but not the
    evaluation of the expressions in the messages. *)
Definition create_banner (api_key : option string) (user_prompt text : string)
    (width height : Z) (text_position : string) (font_size : Z)
    (text_color : string) (use_controlnet : bool) (output_name : string)
  : io string :=
  (* Step 1: Get design recommendations from agent *)
  key ← lift (agent_api_key getenv api_key);
  _ ← lift (Agent_new key);
  design_response ← lift (design_banner agent_run exn_str user_prompt);
  (* Parse design *)
  design ← lift (parse_design_response json_loads design_response);
  (* Step 2: Generate background with ControlNet *)
  background ←
    (if use_controlnet then
       (* Create control image *)
       control_image ← lift (create_control_image strict_coords width height
                               text_position "minimal");
       control_image ← Image_alloc control_image;
       (* Save control image for reference *)
       let control_path := joinpath (output_name +:+ "_control.png") in
       _ ← Image_save control_image control_path;
       (* Generate background *)
       image_prompt ← lift (py_get design "image_prompt" (PStr user_prompt));
       background ← generate_banner image_prompt control_image;
       let bg_path := joinpath (output_name +:+ "_background.png") in
       _ ← Image_save background bg_path;
       mret background
     else
       background ← simple_background valid_color shade_of width height;
       let bg_path := joinpath (output_name +:+ "_background.png") in
       _ ← Image_save background bg_path;
       mret background);
  (* Step 3: Compose banner with text *)
  (* Use colors from design if available *)
  text_color ← lift (design_text_color design text_color);
  let text_layers := banner_text_layers text font_size text_color text_position in
  (* Create composite *)
  final_banner ←
    match mapM element_call text_layers with
    | Some calls =>
        create_composite_banner path_exists truetype getbbox valid_color
          background calls None
    | None => lift (Raise (TypeError "argument has not the type of the signature"))
    end;
  (* Step 4: Export in multiple formats *)
  (* Export as PNG *)
  let png_path := joinpath (output_name +:+ ".png") in
  _ ← Image_save final_banner png_path;
  (* Export with metadata for editing *)
  let metadata_base := joinpath output_name in
  '(bg_path, metadata_path) ←
    export_with_metadata metadata_base background (PList (PDict <$> text_layers));
  (* Export as SVG *)
  let svg_path := joinpath (output_name +:+ ".svg") in
  _ ← export_as_svg svg_validate_size svg_validate svg_tostring
        svg_path width height bg_path (banner_svg_layers width height text_layers);
  (* The closing messages: [svg_path] is a [Path]; [metadata_path] and
     [bg_path] are the strings [export_with_metadata] returned. *)
  _ ← lift (attr_name (PathObject svg_path));
  _ ← lift (attr_name (StrObject metadata_path));
  _ ← lift (attr_name (StrObject bg_path));
  mret png_path.

(** The [try] block of [main], after the arguments are parsed: the exit
    code.  [except Exception] catches every exception of the model.  The
    constructor of the application object, whose failure gives the same exit
    code as a failure of [create_banner], is left out. *)
Definition main (api_key : option string) (prompt text : string) (width height : Z)
    (position : string) (font_size : Z) (color : string) (no_controlnet : bool)
    (output : string) : world → Z * world := λ w,
  match create_banner api_key prompt text width height position font_size color
          (negb no_controlnet) output w with
  | (Ok output_path, w') => (0, w')
  | (Raise e, w') => (1, w')
  end.
End CreateBanner.

(** *** [controlnet_generator.ControlNetBannerGenerator]: device and model choice *)

(** [_get_device], given what [torch] reports. *)
Definition _get_device (cuda_is_available mps_is_available : bool) : string :=
  if cuda_is_available then "cuda"
  else if mps_is_available then "mps"
  else "cpu".

(** The table of [load_model] and the model id it selects. *)
Definition controlnet_models : gmap string string :=
  {[ "canny" := "lllyasviel/sd-controlnet-canny";
     "depth" := "lllyasviel/sd-controlnet-depth";
     "pose" := "lllyasviel/sd-controlnet-openpose";
     "scribble" := "lllyasviel/sd-controlnet-scribble" ]}.

Definition controlnet_id (controlnet_type : string) : result string :=
  canny ← match controlnet_models !! "canny" with
          | Some id => Ok id
          | None => Raise (KeyError "canny")
          end;
  Ok (default canny (controlnet_models !! controlnet_type)).

(** ** Further descriptions used in the statements *)

(** Whether the corners of a box are in order. *)
Definition ordered (b : box) : Prop :=
  let '(x0, y0, x1, y1) := b in x0 ≤ x1 ∧ y0 ≤ y1.

(** The list [font_paths] of [_get_font]. *)
Definition font_ladder (font_family : string) : list string :=
  [ "/usr/share/fonts/truetype/dejavu/DejaVu" +:+ str_title font_family +:+ ".ttf";
    "/usr/share/fonts/truetype/liberation/Liberation" +:+ str_title font_family +:+ ".ttf";
    "/usr/share/fonts/truetype/dejavu/DejaVuSans-Bold.ttf";
    "/usr/share/fonts/truetype/dejavu/DejaVuSans.ttf" ].

(** A font path the ladder passes over: the file is missing or the loader
    raises. *)
Definition unloadable (path_exists : string → bool)
    (truetype : string → Z → result font) (font_size : Z) (p : string) : Prop :=
  path_exists p = false ∨ raises (truetype p font_size).

(** The drawing calls of a list of text calls on a canvas [bg], in order. *)
Definition call_passes (path_exists : string → bool)
    (truetype : string → Z → result font) (getbbox : font → string → box)
    (bg : image) (c : text_call) : list draw_op :=
  match _get_font path_exists truetype (tc_font_size c) (tc_font_family c) with
  | Ok fnt =>
      text_passes (tc_text c) fnt
        (resolved_position getbbox bg (tc_text c) fnt (tc_position c))
        (tc_color c) (tc_stroke_width c) (tc_stroke_color c) (tc_shadow c)
  | Raise _ => []
  end.

(** The colors of a call are ones the library can parse. *)
Definition call_colors_valid (valid_color : string → bool) (c : text_call) : Prop :=
  (tc_shadow c = true → valid_color "#00000080" = true) ∧
  valid_color (tc_color c) = true ∧
  (tc_stroke_width c ≠ 0 → valid_color (tc_stroke_color c) = true).

(** The keys [create_composite_banner] reads from an element. *)
Definition call_keys : list string :=
  ["text"; "position"; "font_size"; "font_family"; "color"; "alignment";
   "stroke_width"; "stroke_color"; "shadow"].

(** A call with another alignment. *)
Definition with_alignment (alignment : string) (c : text_call) : text_call :=
  TextCall (tc_text c) (tc_position c) (tc_font_size c) (tc_font_family c)
           (tc_color c) alignment (tc_stroke_width c) (tc_stroke_color c)
           (tc_shadow c).

(** The library parses a color of six hexadecimal digits and refuses one
    of seven. *)
Definition hex_colors (valid_color : string → bool) : Prop :=
  (∀ s, String.length s = 6%nat → all_hex s = true →
        valid_color (String "#" s) = true) ∧
  (∀ s, String.length s = 7%nat → valid_color (String "#" s) = false).

(** The shade is a byte on every row of the canvas. *)
Definition shade_is_byte (shade_of : Z → Z → Z) (height : Z) : Prop :=
  ∀ i, 0 ≤ i < height → 0 ≤ shade_of i height < 256.

(** The line the gradient loop draws on row [i]. *)
Definition gradient_row (shade_of : Z → Z → Z) (width height i : Z) : draw_op :=
  Line (0, i, width, i)
       ("#" +:+ format_02x (shade_of i height) +:+ format_02x (62 + i / 20)
            +:+ format_02x 80) 0.

(** A reference SVG library: the size of a drawing is not negative, the
    text of a text element is a string, its numbers are integers and its
    colors are hexadecimal; every other value is refused. *)
Definition ref_svg_validate_size (size : Z * Z) : result unit :=
  if (size.1 <? 0) || (size.2 <? 0)
  then Raise (TypeError "not a valid value for attribute 'width'")
  else Ok ().

Definition ref_svg_validate (element : svg_element) : result unit :=
  match element with
  | SvgImage _ _ size => ref_svg_validate_size size
  | SvgText (PStr _) (PInt _, PInt _) (PInt _) (PStr _) (PStr fill) _
            (PStr stroke) (PInt _) =>
      if ref_valid_color fill && ref_valid_color stroke then Ok ()
      else Raise (TypeError "not a valid value for attribute 'fill'")
  | SvgText _ _ _ _ _ _ _ _ => Raise (TypeError "not a valid value")
  end.

(** Its text, reduced to the tags of the elements. *)
Definition ref_svg_tostring (dwg : drawing) : string :=
  "<svg>" +:+
  foldr (λ element rest,
           match element with
           | SvgImage _ _ _ => "<image/>" +:+ rest
           | SvgText _ _ _ _ _ _ _ _ => "<text/>" +:+ rest
           end) "</svg>" (dwg_elements dwg).

(** A shade that follows the code's formula in exact arithmetic. *)
Definition ref_shade_of (i height : Z) : Z := 44 + 30 * i / height.

(** The elements of the repository's composite test. *)
Definition test_elements : list (gmap string pyval) :=
  [ {[ "text" := PStr "TITLE"; "font_size" := PInt 72; "color" := PStr "#FFFFFF" ]};
    {[ "text" := PStr "Subtitle"; "font_size" := PInt 36; "color" := PStr "#ECF0F1" ]} ].

Definition test_calls : list text_call :=
  [ TextCall "TITLE" None 72 "Sans" "#FFFFFF" "center" 2 "#000000" true;
    TextCall "Subtitle" None 36 "Sans" "#ECF0F1" "center" 2 "#000000" true ].

(** Code that never returns normally. *)
Definition never_returns {A} (m : io A) : Prop :=
  ∀ w, ∃ e, (m w).1 = Raise e.

(** The files [create_banner] has written when it reaches its closing
    messages, in the order of writing, over the files that were there. *)
Definition banner_files (joinpath : string → string) (svg_tostring : drawing → string)
    (output_name : string) (width height : Z) (bg banner : image)
    (text_layers : list (gmap string pyval)) (files0 : gmap string file)
  : gmap string file :=
  let bg_path := joinpath output_name +:+ "_background.png" in
  <[joinpath (output_name +:+ ".svg") :=
      OtherFile (svg_tostring
        (Drawing (joinpath (output_name +:+ ".svg")) (width, height)
           (SvgImage bg_path (0, 0) (width, height)
            :: (svg_text_element width height <$>
                  banner_svg_layers width height text_layers))))]>
  (<[joinpath output_name +:+ "_metadata.json" :=
       JsonFile (json_of_py (PDict {[
         "width" := PInt (im_width bg);
         "height" := PInt (im_height bg);
         "background" := PStr bg_path;
         "text_layers" := PList (PDict <$> text_layers) ]}))]>
  (<[bg_path := PngFile bg]>
  (<[joinpath (output_name +:+ ".png") := PngFile banner]>
  (<[joinpath (output_name +:+ "_background.png") := PngFile bg]> files0)))).

(** A reference installation: an API key in the environment, an agent
    that answers in prose, and an output directory [outputs]. *)
Definition ref_getenv (name : string) : option string :=
  if (name =? "OPENAI_API_KEY")%string then Some "sk-test" else None.
Definition ref_Agent_new (key : string) : result unit := Ok ().
Definition ref_agent_run (prompt : string) : result string :=
  Ok "A bold, modern banner in blue tones.".
Definition ref_exn_str (e : exn) : string := "error".
Definition ref_generate_banner (prompt : pyval) (control_image : loc) : io loc :=
  Image_copy control_image.
Definition ref_joinpath (name : string) : string := "outputs/" +:+ name.

Definition ref_create_banner :=
  create_banner true ref_path_exists ref_truetype ref_getbbox ref_valid_color
    ref_shade_of json_loads_ref ref_svg_validate_size ref_svg_validate
    ref_svg_tostring ref_getenv ref_Agent_new ref_agent_run ref_exn_str
    ref_generate_banner ref_joinpath.

(** * Proofs *)

(** ** The layout planner *)

Lemma regions_im_draw img op :
  regions (im_draw img op) = regions img ++ option_list (region_of op).
Proof.
  unfold regions, im_draw. simpl. rewrite omap_app. simpl.
  by destruct (region_of op).
Qed.


Lemma draw_rectangle_ordered strict img x0 y0 x1 y1 outline width :
  x0 ≤ x1 → y0 ≤ y1 →
  draw_rectangle strict img (x0, y0, x1, y1) outline width
  = Ok (im_draw img (Rectangle (x0, y0, x1, y1) outline width)).
Proof.
  intros Hx Hy. unfold draw_rectangle.
  destruct (Z.ltb_spec x1 x0); [lia|]. destruct (Z.ltb_spec y1 y0); [lia|].
  by rewrite !andb_false_r.
Qed.

Lemma draw_rectangle_inverted img x0 y0 x1 y1 outline width :
  x1 < x0 ∨ y1 < y0 →
  raises (draw_rectangle true img (x0, y0, x1, y1) outline width).
Proof.
  intros H. unfold draw_rectangle. simpl.
  destruct (Z.ltb_spec x1 x0); [done|]. destruct (Z.ltb_spec y1 y0); [done|lia].
Qed.

Lemma border_is_guide w h :
  0 < w → 0 < h → is_guide w h (Rectangle (0, 0, w - 1, h - 1) "black" 3).
Proof. intros. eexists _, _. split; [reflexivity|]. split; [done|]. simpl. lia. Qed.

Lemma divider_is_guide w h x width :
  0 ≤ x ≤ w → 0 < h → is_guide w h (Line (x, 0, x, h) "black" width).
Proof. intros. eexists _, _. split; [reflexivity|]. split; [done|]. simpl. lia. Qed.

(** The first chain draws guides only, and always returns on a canvas of
    positive size. *)
Lemma draw_layout_guides strict img w h lay :
  0 < w → 0 < h →
  ∃ guides,
    draw_layout strict img w h lay
    = Ok (Image (im_mode img) (im_width img) (im_height img) (im_fill img)
                (im_ops img ++ guides)) ∧
    Forall (is_guide w h) guides.
Proof.
  intros Hw Hh. unfold draw_layout, draw_line.
  pose proof (border_is_guide w h Hw Hh) as Hb.
  str_cases; rewrite ?draw_rectangle_ordered by lia; simpl; unfold im_draw; simpl.
  - exists [Rectangle (0, 0, w - 1, h - 1) "black" 3]. split; [done|]. by constructor.
  - eexists [_; _; _]. rewrite <- !app_assoc. split; [reflexivity|].
    repeat constructor; [done|apply divider_is_guide; [zdiv|done]..].
  - eexists [_; _]. rewrite <- !app_assoc. split; [reflexivity|].
    repeat constructor; [done|apply divider_is_guide; [zdiv|done]].
  - exists []. rewrite app_nil_r. by destruct img.
Qed.


Lemma text_box_for_unknown w h pos :
  ¬ known_position pos →
  text_box_for w h pos = (w / 4, h / 3, 3 * w / 4, 2 * h / 3).
Proof.
  unfold known_position, padded_position, text_box_for. intros H.
  str_cases; try done; exfalso; apply H; auto.
Qed.

Lemma text_box_for_center w h :
  text_box_for w h "center" = (w / 4, h / 3, 3 * w / 4, 2 * h / 3).
Proof. done. Qed.

(** The text box is well ordered and lies in the canvas: always for the
    center box, and for the padded boxes once the canvas leaves room for the
    padding. *)
Lemma text_box_for_fits w h pos :
  0 ≤ w → 0 ≤ h → (padded_position pos → 200 ≤ w ∧ 150 ≤ h) →
  ∃ x0 y0 x1 y1, text_box_for w h pos = (x0, y0, x1, y1) ∧
    (x0 ≤ x1 ∧ y0 ≤ y1) ∧ contained w h (x0, y0, x1, y1).
Proof.
  intros Hw Hh Hpad. unfold padded_position in Hpad. unfold text_box_for.
  str_cases; try (destruct Hpad as [??]; [by auto|]);
    eexists _, _, _, _; (split; [reflexivity|]); zdiv.
Qed.

(** What [create_control_image] returns when the library accepts the text
    box: the guides, then the text box. *)
Lemma create_control_image_ok strict w h pos lay :
  0 < w → 0 < h → (padded_position pos → 200 ≤ w ∧ 150 ≤ h) →
  ∃ guides,
    create_control_image strict w h pos lay
    = Ok (Image "RGB" w h "white"
                (guides ++ [Rectangle (text_box_for w h pos) "black" 2])) ∧
    Forall (is_guide w h) guides.
Proof.
  intros Hw Hh Hpad. unfold create_control_image, Image_new.
  destruct (Z.ltb_spec w 0); [lia|]. destruct (Z.ltb_spec h 0); [lia|]. simpl.
  destruct (draw_layout_guides strict (Image "RGB" w h "white" []) w h lay Hw Hh)
    as (guides & -> & Hg). simpl.
  destruct (text_box_for_fits w h pos) as (x0 & y0 & x1 & y1 & -> & [??] & _);
    [lia..|done|].
  rewrite draw_rectangle_ordered by done. simpl. by exists guides.
Qed.

Lemma regions_guides w h guides :
  Forall (is_guide w h) guides →
  Forall (λ r : region, contained w h r.2 ∧ r.1 ≠ text_area) (omap region_of guides).
Proof.
  induction 1 as [|op guides (r & b & Hr & Hne & Hc) _ IH]; simpl; [constructor|].
  rewrite Hr. by constructor.
Qed.

Lemma filter_text_area_guides (rs : list region) :
  Forall (λ r : region, r.1 ≠ text_area) rs →
  filter (λ r : region, r.1 = text_area) rs = [].
Proof.
  induction 1 as [|r rs Hr _ IH]; [done|].
  rewrite filter_cons. by destruct (decide (r.1 = text_area)).
Qed.

Lemma text_areas_planned mode w h fill guides w' h' tb :
  Forall (is_guide w' h') guides →
  text_areas (Image mode w h fill (guides ++ [Rectangle tb "black" 2])) = [tb].
Proof.
  intros Hg. unfold text_areas, regions. simpl. rewrite omap_app, filter_app. simpl.
  rewrite filter_text_area_guides.
  - done.
  - eapply Forall_impl; [by apply regions_guides|]. by intros ? [??].
Qed.



(** The bounds 200 and 150 cannot be lowered for all four padded positions
    at once: with a library that validates corner order, the left box is
    inverted at width 199 and the top box at height 149. *)
Lemma padded_bounds_are_tight :
  create_control_image true 199 150 "left" "minimal"
  = Raise (ValueError "x1 must be greater than or equal to x0") ∧
  create_control_image true 200 149 "top" "minimal"
  = Raise (ValueError "y1 must be greater than or equal to y0").
Proof. split; reflexivity. Qed.


(** C5: on a canvas of positive size and for every layout type, a text
    position outside left, center, right, top and bottom gives the same image
    as center, the call returns, and its one text area is
    [w/4, 3w/4] x [h/3, 2h/3]. *)
Theorem unknown_position_is_center strict w h pos lay :
  0 < w → 0 < h → ¬ known_position pos →
  create_control_image strict w h pos lay = create_control_image strict w h "center" lay ∧
  ∃ img, create_control_image strict w h pos lay = Ok img ∧
         text_areas img = [(w / 4, h / 3, 3 * w / 4, 2 * h / 3)].
Proof.
  intros Hw Hh Hpos. split.
  - unfold create_control_image.
    by rewrite (text_box_for_unknown w h pos Hpos), text_box_for_center.
  - destruct (create_control_image_ok strict w h pos lay Hw Hh) as (guides & -> & Hg).
    { intros Hpad. destruct Hpos. by right. }
    eexists. split; [reflexivity|].
    erewrite text_areas_planned by done. by rewrite text_box_for_unknown.
Qed.

Lemma unknown_position_is_center_witness :
  create_control_image true 1024 512 "middle" "split"
  = create_control_image true 1024 512 "center" "split" ∧
  ∃ img, create_control_image true 1024 512 "middle" "split" = Ok img ∧
         text_areas img = [(1024 / 4, 512 / 3, 3 * 1024 / 4, 2 * 512 / 3)].
Proof.
  apply (unknown_position_is_center true 1024 512 "middle" "split"); [lia..|].
  unfold known_position, padded_position. intros [|[|[|[|]]]]; discriminate.
Defined.




(** ** The compositor: fonts, drawing and the heap *)

Section BannerCompositorFacts.
Context (path_exists : string → bool) (truetype : string → Z → result font)
        (getbbox : font → string → box) (valid_color : string → bool).

Local Abbreviation _get_font := (_get_font path_exists truetype).
Local Abbreviation draw_text := (draw_text valid_color).
Local Abbreviation add_text_to_banner := (add_text_to_banner path_exists truetype getbbox valid_color).
Local Abbreviation resolved_position := (resolved_position getbbox).

(** The font ladder never raises: a loader that fails is skipped, and the
    ladder ends in the built-in font. *)
Lemma get_font_loop_returns font_paths font_size :
  ∃ fnt, get_font_loop path_exists truetype font_paths font_size = Ok fnt.
Proof.
  induction font_paths as [|p ps [fnt IH]]; simpl; [by eexists|].
  destruct (path_exists p); [|by eexists].
  destruct (truetype p font_size); simpl; by eexists.
Qed.

Lemma _get_font_returns font_size font_family :
  ∃ fnt, _get_font font_size font_family = Ok fnt.
Proof. apply get_font_loop_returns. Qed.

Lemma fresh_image_unused (w : world) : images w !! fresh (dom (images w)) = None.
Proof. apply not_elem_of_dom, is_fresh. Qed.

Lemma Image_copy_allocated w l im :
  images w !! l = Some im →
  Image_copy l w
  = (Ok (fresh (dom (images w))),
     World (<[fresh (dom (images w)) := im]> (images w)) (files w)).
Proof. intros H. unfold Image_copy, Image_get, Image_alloc, mbind, io_bind. by rewrite H. Qed.

Lemma Image_copy_dangling w l :
  images w !! l = None → ∃ e, Image_copy l w = (Raise e, w).
Proof.
  intros H. unfold Image_copy, Image_get, mbind, io_bind. rewrite H. by eexists.
Qed.

Lemma draw_text_valid w img im xy text fnt fill stroke_width stroke_fill :
  images w !! img = Some im →
  valid_color fill = true →
  (stroke_width ≠ 0 → valid_color stroke_fill = true) →
  draw_text img xy text fnt fill stroke_width stroke_fill w
  = (Ok (), World (<[img := im_draw im (Text xy text fnt fill stroke_width stroke_fill)]>
                     (images w)) (files w)).
Proof.
  intros Him Hfill Hstroke. unfold draw_text, Image_draw. rewrite Hfill. simpl.
  destruct (Z.eqb_spec stroke_width 0) as [->|Hne]; simpl.
  - by rewrite Him.
  - rewrite Hstroke by done. simpl. by rewrite Him.
Qed.

(** A drawing call changes nothing but the image object it draws on. *)
Lemma draw_text_frame w img xy text fnt fill stroke_width stroke_fill r w' :
  draw_text img xy text fnt fill stroke_width stroke_fill w = (r, w') →
  files w' = files w ∧ ∀ l, l ≠ img → images w' !! l = images w !! l.
Proof.
  unfold draw_text, Image_draw, lift.
  destruct (negb (valid_color fill)); [by intros [= <- <-]|].
  destruct (negb (stroke_width =? 0) && negb (valid_color stroke_fill));
    [by intros [= <- <-]|].
  destruct (images w !! img); intros [= <- <-]; [|done]. simpl.
  split; [done|]. intros l Hl. by rewrite lookup_insert_ne.
Qed.

(** The position step of [add_text_to_banner], run on a live image. *)
Lemma resolve_position_step w1 img bg text fnt position A (k : Z * Z → io A) :
  images w1 !! img = Some bg →
  (mbind k (match position with
   | None =>
       im ← Image_get img;
       (let '(bbox0, bbox1, bbox2, bbox3) := textbbox getbbox (0, 0) text fnt in
        let text_width := bbox2 - bbox0 in
        let text_height := bbox3 - bbox1 in
        let x := (im_width im - text_width) / 2 in
        let y := (im_height im - text_height) / 2 in
        mret (x, y))
   | Some p => mret p
   end)) w1 = k (resolved_position bg text fnt position) w1.
Proof.
  intros Himg. unfold resolved_position. destruct position as [p|]; [done|].
  unfold mbind, io_bind, Image_get. rewrite Himg. unfold textbbox.
  destruct (getbbox fnt text) as [[[bx0 by0] bx1] by1]. simpl.
  by rewrite !Z.add_0_r.
Qed.

(** What a rendering returns when the background is an image and the
    library can parse the colors: a new image object, the background's
    content with the text passes drawn on it. *)
Lemma add_text_to_banner_ok w background bg text position font_size font_family
    color alignment stroke_width stroke_color shadow :
  images w !! background = Some bg →
  (shadow = true → valid_color "#00000080" = true) →
  valid_color color = true →
  (stroke_width ≠ 0 → valid_color stroke_color = true) →
  ∃ fnt, _get_font font_size font_family = Ok fnt ∧
    add_text_to_banner background text position font_size font_family color
      alignment stroke_width stroke_color shadow w
    = (Ok (fresh (dom (images w))),
       World (<[fresh (dom (images w)) :=
                  im_draw_all bg (text_passes text fnt
                    (resolved_position bg text fnt position)
                    color stroke_width stroke_color shadow)]> (images w))
             (files w)).
Proof.
  intros Hbg Hshadow Hcolor Hstroke.
  destruct (_get_font_returns font_size font_family) as [fnt Hfnt].
  exists fnt. split; [done|].
  unfold add_text_to_banner.
  unfold mbind at 1, io_bind at 1. rewrite (Image_copy_allocated _ _ _ Hbg).
  set (img := fresh (dom (images w))).
  unfold mbind at 1, io_bind at 1, lift at 1. rewrite Hfnt.
  set (w1 := World (<[img := bg]> (images w)) (files w)).
  assert (images w1 !! img = Some bg) as Himg by apply lookup_insert_eq.
  rewrite (resolve_position_step w1 img bg) by done.
  unfold text_passes, im_draw_all.
  destruct shadow.
  - unfold mbind at 1, io_bind at 1.
    rewrite (draw_text_valid w1 img bg) by auto. simpl images. simpl files.
    unfold mbind at 1, io_bind at 1.
    erewrite draw_text_valid; [|apply lookup_insert_eq|done..].
    simpl. rewrite !insert_insert_eq. unfold im_draw. simpl.
    by rewrite <- app_assoc.
  - unfold mbind at 1, io_bind at 1, mret at 1, io_ret at 1.
    unfold mbind at 1, io_bind at 1.
    rewrite (draw_text_valid w1 img bg) by auto. simpl.
    by rewrite !insert_insert_eq.
Qed.

(** A rendering never touches an image object that existed before the
    call, nor the file system; the image it returns is a new object. *)
Lemma add_text_to_banner_frame w background text position font_size font_family
    color alignment stroke_width stroke_color shadow r w' :
  add_text_to_banner background text position font_size font_family color
    alignment stroke_width stroke_color shadow w = (r, w') →
  files w' = files w ∧
  (∀ l, is_Some (images w !! l) → images w' !! l = images w !! l) ∧
  (∀ img, r = Ok img →
     images w !! img = None ∧ img ≠ background ∧ is_Some (images w' !! img)).
Proof.
  intros Hrun. destruct (images w !! background) as [bg|] eqn:Hbg.
  2: { destruct (Image_copy_dangling w background Hbg) as [e He].
       unfold add_text_to_banner in Hrun.
       unfold mbind at 1, io_bind at 1 in Hrun. rewrite He in Hrun.
       injection Hrun as <- <-. by repeat split. }
  unfold add_text_to_banner in Hrun.
  unfold mbind at 1, io_bind at 1 in Hrun.
  rewrite (Image_copy_allocated _ _ _ Hbg) in Hrun.
  pose proof (fresh_image_unused w) as Hfresh.
  set (img := fresh (dom (images w))) in *.
  assert (img ≠ background) as Hne by congruence.
  destruct (_get_font_returns font_size font_family) as [fnt Hfnt].
  unfold mbind at 1, io_bind at 1, lift at 1 in Hrun. rewrite Hfnt in Hrun.
  set (w1 := World (<[img := bg]> (images w)) (files w)) in *.
  assert (images w1 !! img = Some bg) as Himg by apply lookup_insert_eq.
  rewrite (resolve_position_step w1 img bg) in Hrun by done.
  set (xy := resolved_position bg text fnt position) in *.
  (* Every world reached from [w1] agrees with [w] outside [img]. *)
  assert (∀ w2, files w2 = files w1 →
            (∀ l, l ≠ img → images w2 !! l = images w1 !! l) →
            files w2 = files w ∧
            ∀ l, is_Some (images w !! l) → images w2 !! l = images w !! l) as Hkeep.
  { intros w2 Hf Hi. split; [done|]. intros l [im Hl].
    assert (l ≠ img) by congruence.
    rewrite Hi by done. simpl. by rewrite lookup_insert_ne. }
  assert (∀ w2 w3 xy' fill rr,
            draw_text img xy' text fnt fill stroke_width rr w2 = (Ok (), w3) →
            is_Some (images w2 !! img) → is_Some (images w3 !! img)) as Hlive.
  { intros w2 w3 xy' fill rr Hd [im Him]. unfold draw_text, Image_draw, lift in Hd.
    destruct (negb (valid_color fill)); [done|].
    destruct (negb (stroke_width =? 0) && negb (valid_color rr)); [done|].
    rewrite Him in Hd. injection Hd as <-. simpl. rewrite lookup_insert_eq. by eexists. }
  unfold mbind at 1, io_bind at 1 in Hrun.
  destruct shadow.
  - destruct (draw_text img _ text fnt "#00000080" stroke_width "#00000080" w1)
      as [[[]|e] w2] eqn:Hshadow.
    + destruct (draw_text_frame _ _ _ _ _ _ _ _ _ _ Hshadow) as [Hf2 Hi2].
      unfold mbind at 1, io_bind at 1 in Hrun.
      destruct (draw_text img xy text fnt color stroke_width stroke_color w2)
        as [[[]|e] w3] eqn:Hmain.
      * destruct (draw_text_frame _ _ _ _ _ _ _ _ _ _ Hmain) as [Hf3 Hi3].
        injection Hrun as <- <-.
        destruct (Hkeep w3) as [??]; [congruence|intros; rewrite Hi3, Hi2; done|].
        split; [done|]. split; [done|]. intros ? [= <-]. repeat split; try done.
        eapply Hlive; [done|]. eapply Hlive; [done|]. by eexists.
      * destruct (draw_text_frame _ _ _ _ _ _ _ _ _ _ Hmain) as [Hf3 Hi3].
        injection Hrun as <- <-.
        destruct (Hkeep w3) as [??]; [congruence|intros; rewrite Hi3, Hi2; done|].
        by repeat split.
    + destruct (draw_text_frame _ _ _ _ _ _ _ _ _ _ Hshadow) as [Hf2 Hi2].
      injection Hrun as <- <-.
      destruct (Hkeep w2) as [??]; [done..|]. by repeat split.
  - unfold mret at 1, io_ret at 1 in Hrun.
    unfold mbind at 1, io_bind at 1 in Hrun.
    destruct (draw_text img xy text fnt color stroke_width stroke_color w1)
      as [[[]|e] w3] eqn:Hmain.
    + destruct (draw_text_frame _ _ _ _ _ _ _ _ _ _ Hmain) as [Hf3 Hi3].
      injection Hrun as <- <-.
      destruct (Hkeep w3) as [??]; [done..|].
      split; [done|]. split; [done|]. intros ? [= <-]. repeat split; try done.
      eapply Hlive; [done|]. by eexists.
    + destruct (draw_text_frame _ _ _ _ _ _ _ _ _ _ Hmain) as [Hf3 Hi3].
      injection Hrun as <- <-.
      destruct (Hkeep w3) as [??]; [done..|]. by repeat split.
Qed.
End BannerCompositorFacts.

(** The bounding box of the auto-placed text, measured from the canvas:
    twice its center is off the canvas size by twice the origin offset of
    the font's box, less the rounding of the floor division. *)
Lemma auto_position_bbox (getbbox : font → string → box) bg text fnt bx0 by0 bx1 by1 :
  getbbox fnt text = (bx0, by0, bx1, by1) →
  ∃ x0 y0 x1 y1,
    textbbox getbbox (resolved_position getbbox bg text fnt None) text fnt
    = (x0, y0, x1, y1) ∧
    x0 + x1 - im_width bg = 2 * bx0 - (im_width bg - (bx1 - bx0)) `mod` 2 ∧
    y0 + y1 - im_height bg = 2 * by0 - (im_height bg - (by1 - by0)) `mod` 2.
Proof.
  intros Hb. unfold textbbox, resolved_position. rewrite Hb. simpl.
  eexists _, _, _, _. split; [reflexivity|]. zdiv.
Qed.

(** C8: for every world, background reference and text element, rendering
    leaves every image object that existed before the call as it was, the
    background among them, and leaves the file system as it was; what it
    returns is a new image object, different from the background; and it does
    return when the background is an image and the library can parse the
    colors. *)
Theorem render_leaves_input_unchanged
    (path_exists : string → bool) (truetype : string → Z → result font)
    (getbbox : font → string → box) (valid_color : string → bool)
    (w : world) (background : loc) (text : string) (position : option (Z * Z))
    (font_size : Z) (font_family color alignment : string)
    (stroke_width : Z) (stroke_color : string) (shadow : bool) :
  let out := add_text_to_banner path_exists truetype getbbox valid_color
               background text position font_size font_family color alignment
               stroke_width stroke_color shadow w in
  images out.2 !! background = images w !! background ∧
  (∀ l, is_Some (images w !! l) → images out.2 !! l = images w !! l) ∧
  files out.2 = files w ∧
  (∀ img, out.1 = Ok img →
     images w !! img = None ∧ img ≠ background ∧ is_Some (images out.2 !! img)) ∧
  (is_Some (images w !! background) →
   (shadow = true → valid_color "#00000080" = true) →
   valid_color color = true →
   (stroke_width ≠ 0 → valid_color stroke_color = true) →
   returns out.1).
Proof.
  intros out.
  destruct out as [r w'] eqn:Hrun. unfold out in Hrun. simpl.
  destruct (add_text_to_banner_frame _ _ _ _ _ _ _ _ _ _ _ _ _ _ _ _ _ Hrun)
    as (Hfiles & Hkeep & Hnew).
  split; [|split; [done|split; [done|split; [done|]]]].
  - destruct (images w !! background) as [bg|] eqn:Hbg.
    + rewrite Hkeep; [done|]. rewrite Hbg. by eexists.
    + destruct (Image_copy_dangling w background Hbg) as [e He].
      unfold add_text_to_banner in Hrun.
      unfold mbind at 1, io_bind at 1 in Hrun. rewrite He in Hrun.
      by injection Hrun as <- <-.
  - intros [bg Hbg] Hshadow Hcolor Hstroke.
    destruct (add_text_to_banner_ok path_exists truetype getbbox valid_color
                w background bg text position font_size font_family color
                alignment stroke_width stroke_color shadow) as (fnt & _ & Hok);
      [done..|].
    rewrite Hok in Hrun. by injection Hrun as <- <-.
Qed.

Lemma render_leaves_input_unchanged_witness :
  images (ref_add_text_to_banner 1%positive "TEST" None 48 "Sans" "#FFFFFF"
            "center" 2 "#000000" true test_world).2 !! 1%positive
  = Some test_img ∧
  returns (ref_add_text_to_banner 1%positive "TEST" None 48 "Sans" "#FFFFFF"
             "center" 2 "#000000" true test_world).1.
Proof.
  pose proof (render_leaves_input_unchanged ref_path_exists ref_truetype
                ref_getbbox ref_valid_color test_world 1%positive "TEST" None 48
                "Sans" "#FFFFFF" "center" 2 "#000000" true) as H.
  simpl in H. destruct H as (Hbg & _ & _ & _ & Hret).
  split.
  - exact Hbg.
  - apply Hret; [by eexists|done..].
Defined.

(** C6 (as amended): rendering has no empty-text error and trims nothing.
    For every text, the empty and the blank ones included, when the background
    is an image and the library can parse the colors, rendering returns a new
    image of the size of the background whose last drawing call draws the
    text as it was given; the font ladder never fails. *)
Theorem render_accepts_every_text
    (path_exists : string → bool) (truetype : string → Z → result font)
    (getbbox : font → string → box) (valid_color : string → bool)
    (w : world) (background : loc) (bg : image) (text : string)
    (position : option (Z * Z)) (font_size : Z) (font_family color alignment : string)
    (stroke_width : Z) (stroke_color : string) (shadow : bool) :
  images w !! background = Some bg →
  (shadow = true → valid_color "#00000080" = true) →
  valid_color color = true →
  (stroke_width ≠ 0 → valid_color stroke_color = true) →
  ∃ fnt img w' im,
    _get_font path_exists truetype font_size font_family = Ok fnt ∧
    add_text_to_banner path_exists truetype getbbox valid_color
      background text position font_size font_family color alignment
      stroke_width stroke_color shadow w = (Ok img, w') ∧
    images w' !! img = Some im ∧
    im_width im = im_width bg ∧ im_height im = im_height bg ∧
    last (im_ops im)
    = Some (Text (resolved_position getbbox bg text fnt position) text fnt color
                 stroke_width stroke_color).
Proof.
  intros Hbg Hshadow Hcolor Hstroke.
  destruct (add_text_to_banner_ok path_exists truetype getbbox valid_color
              w background bg text position font_size font_family color
              alignment stroke_width stroke_color shadow) as (fnt & Hfnt & Hok);
    [done..|].
  eexists fnt, _, _, _. split; [done|]. split; [exact Hok|].
  split; [apply lookup_insert_eq|]. split; [done|]. split; [done|].
  simpl. unfold text_passes. by rewrite app_assoc, last_snoc.
Qed.

Lemma render_accepts_every_text_witness :
  ∃ fnt img w' im,
    _get_font ref_path_exists ref_truetype 48 "Sans" = Ok fnt ∧
    ref_add_text_to_banner 1%positive "   " None 48 "Sans" "#FFFFFF" "center"
      2 "#000000" true test_world = (Ok img, w') ∧
    images w' !! img = Some im ∧
    im_width im = 800 ∧ im_height im = 400 ∧
    last (im_ops im)
    = Some (Text (resolved_position ref_getbbox test_img "   " fnt None) "   " fnt
                 "#FFFFFF" 2 "#000000").
Proof.
  apply (render_accepts_every_text ref_path_exists ref_truetype ref_getbbox
           ref_valid_color test_world 1%positive test_img "   " None 48 "Sans"
           "#FFFFFF" "center" 2 "#000000" true); done.
Defined.

(** C6 (as worded) fails: a blank text is empty after trimming, and it is
    rendered without an error. *)
Lemma blank_text_is_rendered :
  str_strip "   " = "" ∧
  (ref_add_text_to_banner 1%positive "   " None 48 "Sans" "#FFFFFF" "center"
     2 "#000000" true test_world).1 = Ok 2%positive ∧
  ¬ unrenderable_text_claim ref_path_exists ref_truetype ref_getbbox ref_valid_color.
Proof.
  assert ((ref_add_text_to_banner 1%positive "   " None 48 "Sans" "#FFFFFF" "center"
             2 "#000000" true test_world).1 = Ok 2%positive) as Hrun
    by (vm_compute; reflexivity).
  split; [reflexivity|]. split; [exact Hrun|].
  intros Hclaim.
  destruct (Hclaim test_world 1%positive test_img "   " None 48 "Sans" "#FFFFFF"
              "center" 2 "#000000" true) as [_ Hraise]; [done|].
  fold ref_add_text_to_banner in Hraise. rewrite Hrun in Hraise.
  by apply Hraise.
Qed.

(** C4: the code at the failing input.  On the 800 by 400 canvas, with the
    text TEST at size 48 and no position, the text is drawn at (340, 182);
    with a font whose box of TEST at the origin is (0, 10, 120, 45) the
    rendered box is (340, 192, 460, 227), whose center (400, 209.5) is 9.5
    pixels below the center of the canvas: the position leaves out the offset
    of the font's box. *)
Lemma auto_center_misses_vertical_center :
  ∃ w',
    ref_add_text_to_banner 1%positive "TEST" None 48 "Sans" "#FFFFFF" "center"
      2 "#000000" true test_world = (Ok 2%positive, w') ∧
    images w' !! 2%positive
    = Some (Image "RGB" 800 400 "#3498db"
              [Text (343, 185) "TEST" (FreeTypeFont dejavu_sans 48) "#00000080" 2
                    "#00000080";
               Text (340, 182) "TEST" (FreeTypeFont dejavu_sans 48) "#FFFFFF" 2
                    "#000000"]) ∧
    ref_getbbox (FreeTypeFont dejavu_sans 48) "TEST" = (0, 10, 120, 45) ∧
    rendered_bbox ref_getbbox
      (Text (340, 182) "TEST" (FreeTypeFont dejavu_sans 48) "#FFFFFF" 2 "#000000")
    = Some (340, 192, 460, 227) ∧
    ¬ centered_in 800 400 (340, 192, 460, 227).
Proof.
  eexists. split; [vm_compute; reflexivity|].
  split; [vm_compute; reflexivity|].
  split; [reflexivity|]. split; [reflexivity|].
  unfold centered_in. lia.
Qed.

(** The general form of the same fact: the box of an auto-placed text is
    centered within half a pixel exactly when the origin offsets of the
    font's box are absorbed by the rounding. *)
Lemma auto_center_exactly_when_no_offset
    (getbbox : font → string → box) bg text fnt bx0 by0 bx1 by1 :
  getbbox fnt text = (bx0, by0, bx1, by1) →
  centered_in (im_width bg) (im_height bg)
    (textbbox getbbox (resolved_position getbbox bg text fnt None) text fnt)
  ↔ (-1 ≤ 2 * bx0 - (im_width bg - (bx1 - bx0)) `mod` 2 ≤ 1) ∧
    (-1 ≤ 2 * by0 - (im_height bg - (by1 - by0)) `mod` 2 ≤ 1).
Proof.
  intros Hb.
  destruct (auto_position_bbox getbbox bg text fnt _ _ _ _ Hb)
    as (x0 & y0 & x1 & y1 & -> & Hx & Hy).
  unfold centered_in. lia.
Qed.

(** ** Values through JSON *)

Lemma sum_list_elem_of (n : nat) (l : list nat) : n ∈ l → (n ≤ sum_list l)%nat.
Proof.
  induction 1 as [n l|n m l _ IH]; simpl; lia.
Qed.

Lemma pysize_item (v : pyval) (items : list pyval) :
  v ∈ items → (pysize v ≤ sum_list (pysize <$> items))%nat.
Proof. intros Hv. apply sum_list_elem_of, list_elem_of_fmap. eauto. Qed.

Lemma pysize_value (d : gmap string pyval) (k : string) (v : pyval) :
  d !! k = Some v →
  (pysize v ≤ sum_list (snd <$> map_to_list (pysize <$> d)))%nat.
Proof.
  intros Hk. apply sum_list_elem_of, list_elem_of_fmap.
  exists (k, pysize v). split; [done|].
  apply elem_of_map_to_list. by rewrite lookup_fmap, Hk.
Qed.

(** Induction over Python values: the items of a list or tuple and the
    values of a dict are smaller than the container. *)
Lemma pyval_nested_ind (P : pyval → Prop) :
  P PNone →
  (∀ b, P (PBool b)) →
  (∀ n, P (PInt n)) →
  (∀ s, P (PStr s)) →
  (∀ items, Forall P items → P (PList items)) →
  (∀ items, Forall P items → P (PTuple items)) →
  (∀ d, map_Forall (λ _ v, P v) d → P (PDict d)) →
  ∀ v, P v.
Proof.
  intros Hnone Hbool Hint Hstr Hlist Htuple Hdict v.
  remember (pysize v) as n eqn:Hn. revert v Hn.
  induction (lt_wf n) as [n _ IH]. intros v ->.
  destruct v as [| | | |items|items|d]; auto.
  - apply Hlist, Forall_forall. intros v Hv.
    apply (IH (pysize v)); [|done]. pose proof (pysize_item v items Hv). simpl. lia.
  - apply Htuple, Forall_forall. intros v Hv.
    apply (IH (pysize v)); [|done]. pose proof (pysize_item v items Hv). simpl. lia.
  - apply Hdict. intros k v Hk.
    apply (IH (pysize v)); [|done]. pose proof (pysize_value d k v Hk). simpl. lia.
Qed.

(** Reading back the members written for a dict gives the dict with every
    value read back. *)
Lemma dict_through_json (f : pyval → json) (g : json → pyval) (d : gmap string pyval) :
  list_to_map (reverse (prod_map id g <$> map_to_list (f <$> d)))
  = ((g ∘ f) <$> d : gmap string pyval).
Proof.
  assert (NoDup ((prod_map id g <$> map_to_list (f <$> d)).*1)) as Hnodup.
  { rewrite <- list_fmap_compose.
    rewrite (list_fmap_ext _ fst (map_to_list (f <$> d))) by (by intros ? []).
    apply NoDup_fst_map_to_list. }
  rewrite (list_to_map_proper _ (prod_map id g <$> map_to_list (f <$> d))).
  - rewrite list_to_map_fmap, list_to_map_to_list. by rewrite <- map_fmap_compose.
  - by rewrite fmap_reverse, reverse_Permutation.
  - apply reverse_Permutation.
Qed.

(** [json.load] after [json.dump] turns tuples into lists and changes
    nothing else. *)
Lemma py_of_json_of_py (v : pyval) : py_of_json (json_of_py v) = listify v.
Proof.
  induction v as [| | | |items IH|items IH|d IH] using pyval_nested_ind; try done.
  - simpl. f_equal. rewrite <- list_fmap_compose.
    by apply Forall_fmap_ext.
  - simpl. f_equal. rewrite <- list_fmap_compose.
    by apply Forall_fmap_ext.
  - simpl. f_equal. rewrite dict_through_json.
    apply map_fmap_ext. intros k v Hk. by apply IH in Hk.
Qed.

Lemma listify_tuple_free (v : pyval) : tuple_free v = true → listify v = v.
Proof.
  induction v as [| | | |items IH|items IH|d IH] using pyval_nested_ind; try done.
  - simpl. intros Hfree. f_equal.
    rewrite <- (list_fmap_id items) at 2. apply Forall_fmap_ext.
    rewrite Forall_forall in IH |- *. intros v Hv. apply IH; [done|].
    rewrite forallb_forall in Hfree. by apply Hfree, list_elem_of_In.
  - simpl. intros Hfree. f_equal.
    rewrite <- (map_fmap_id d) at 2. apply map_fmap_ext. intros k v Hk.
    apply IH in Hk as Hv. apply Hv.
    rewrite forallb_forall in Hfree.
    apply (Hfree (k, tuple_free v)), list_elem_of_In, elem_of_map_to_list.
    by rewrite lookup_fmap, Hk.
Qed.

Lemma listify_items_tuple_free (items : list pyval) :
  forallb tuple_free items = true → listify <$> items = items.
Proof.
  intros Hfree. pose proof (listify_tuple_free (PList items) Hfree) as H.
  by injection H.
Qed.

(** An unset position stays unset: [None] is read back as [None], and a
    missing key stays missing. *)
Lemma listify_position (d : gmap string pyval) :
  (d !! "position" = Some PNone → (listify <$> d) !! "position" = Some PNone) ∧
  (d !! "position" = None → (listify <$> d) !! "position" = None).
Proof. split; intros H; by rewrite lookup_fmap, H. Qed.

(** ** Paths *)

Lemma append_inj_l (s a b : string) : s +:+ a = s +:+ b → a = b.
Proof. induction s as [|c s IH]; simpl; [done|]. intros [= H]. auto. Qed.

Lemma export_paths_differ (output_path : string) :
  output_path +:+ "_background.png" ≠ output_path +:+ "_metadata.json".
Proof. intros H. apply append_inj_l in H. discriminate. Qed.

(** ** Export and import *)

(** What [export_with_metadata] does to the world when the background is an
    image with no empty side: it writes the two files and nothing else. *)
Lemma export_with_metadata_ok w output_path background bg text_layers :
  images w !! background = Some bg →
  0 < im_width bg → 0 < im_height bg →
  export_with_metadata output_path background text_layers w
  = (Ok (output_path +:+ "_background.png", output_path +:+ "_metadata.json"),
     World (images w)
       (<[output_path +:+ "_metadata.json" :=
            JsonFile (json_of_py (PDict {[
              "width" := PInt (im_width bg);
              "height" := PInt (im_height bg);
              "background" := PStr (output_path +:+ "_background.png");
              "text_layers" := text_layers ]}))]>
        (<[output_path +:+ "_background.png" := PngFile bg]> (files w)))).
Proof.
  intros Hbg Hw Hh.
  unfold export_with_metadata, Image_save, json_dump, write_file, Image_get.
  unfold mbind, io_bind, mret, io_ret. rewrite Hbg.
  destruct (Z.eqb_spec (im_width bg) 0); [lia|].
  destruct (Z.eqb_spec (im_height bg) 0); [lia|]. simpl. by rewrite Hbg.
Qed.

(** What [load_from_metadata] does with a metadata file that is a JSON
    object. *)
Lemma load_from_metadata_dict w metadata_path doc d :
  files w !! metadata_path = Some (JsonFile doc) →
  py_of_json doc = PDict d →
  load_from_metadata metadata_path w
  = match d !! "background" with
    | None => (Raise (KeyError "background"), w)
    | Some path =>
        match Image_open path w with
        | (Ok background, w') =>
            match d !! "text_layers" with
            | Some text_layers => (Ok (background, text_layers), w')
            | None => (Raise (KeyError "text_layers"), w')
            end
        | (Raise e, w') => (Raise e, w')
        end
    end.
Proof.
  intros Hfile Hdoc. unfold load_from_metadata, json_load.
  unfold mbind at 1, io_bind at 1. rewrite Hfile, Hdoc.
  unfold mbind at 1, io_bind at 1, lift at 1. simpl.
  destruct (d !! "background") as [path|]; [|done].
  unfold mbind at 1, io_bind at 1.
  destruct (Image_open path w) as [[background|e] w']; [|done].
  unfold mbind at 1, io_bind at 1, lift at 1. simpl.
  by destruct (d !! "text_layers").
Qed.

(** What import returns after export. *)
Lemma load_after_export w output_path background bg text_layers :
  images w !! background = Some bg →
  0 < im_width bg → 0 < im_height bg →
  ∃ w1,
    export_with_metadata output_path background text_layers w
    = (Ok (output_path +:+ "_background.png", output_path +:+ "_metadata.json"), w1) ∧
    images w1 = images w ∧
    load_from_metadata (output_path +:+ "_metadata.json") w1
    = (Ok (fresh (dom (images w)), listify text_layers),
       World (<[fresh (dom (images w)) := bg]> (images w)) (files w1)).
Proof.
  intros Hbg Hw Hh. eexists. split; [by apply export_with_metadata_ok|].
  split; [done|].
  erewrite load_from_metadata_dict;
    [|apply lookup_insert_eq|rewrite py_of_json_of_py; reflexivity].
  simpl. rewrite !lookup_fmap.
  replace (({[ "width" := PInt (im_width bg); "height" := PInt (im_height bg);
               "background" := PStr (output_path +:+ "_background.png");
               "text_layers" := text_layers ]} : gmap string pyval) !! "background")
    with (Some (PStr (output_path +:+ "_background.png"))) by reflexivity.
  replace (({[ "width" := PInt (im_width bg); "height" := PInt (im_height bg);
               "background" := PStr (output_path +:+ "_background.png");
               "text_layers" := text_layers ]} : gmap string pyval) !! "text_layers")
    with (Some text_layers) by reflexivity.
  simpl. rewrite lookup_insert_ne by (symmetry; apply export_paths_differ).
  by rewrite lookup_insert_eq.
Qed.

(** C1 (as amended): for every background image with no empty side and
    every layer list, export followed by import returns a background of the
    same width and height and the layer list with every tuple turned into a
    list and nothing else changed; a layer list without tuples comes back
    equal, and a position that is unset, as None or as a missing key, comes
    back unset. *)
Theorem metadata_round_trip w output_path background bg layers :
  images w !! background = Some bg →
  0 < im_width bg → 0 < im_height bg →
  ∃ w1 bg' w2 im',
    export_with_metadata output_path background (PList layers) w
    = (Ok (output_path +:+ "_background.png", output_path +:+ "_metadata.json"), w1) ∧
    load_from_metadata (output_path +:+ "_metadata.json") w1
    = (Ok (bg', PList (listify <$> layers)), w2) ∧
    images w2 !! bg' = Some im' ∧
    im_width im' = im_width bg ∧ im_height im' = im_height bg ∧
    (forallb tuple_free layers = true → listify <$> layers = layers) ∧
    (∀ i d, layers !! i = Some (PDict d) →
       ∃ d', (listify <$> layers) !! i = Some (PDict d') ∧
             (d !! "position" = Some PNone → d' !! "position" = Some PNone) ∧
             (d !! "position" = None → d' !! "position" = None)).
Proof.
  intros Hbg Hw Hh.
  destruct (load_after_export w output_path background bg (PList layers) Hbg Hw Hh)
    as (w1 & Hexport & _ & Hload).
  eexists w1, _, _, bg. split; [exact Hexport|]. split; [exact Hload|].
  split; [apply lookup_insert_eq|]. split; [done|]. split; [done|].
  split; [apply listify_items_tuple_free|].
  intros i d Hi. exists (listify <$> d).
  split; [by rewrite list_lookup_fmap, Hi|]. apply listify_position.
Qed.

Lemma metadata_round_trip_witness :
  ∃ w1 bg' w2 im',
    export_with_metadata "outputs/banner" 1%positive (PList auto_layers) test_world
    = (Ok ("outputs/banner" +:+ "_background.png",
           "outputs/banner" +:+ "_metadata.json"), w1) ∧
    load_from_metadata ("outputs/banner" +:+ "_metadata.json") w1
    = (Ok (bg', PList (listify <$> auto_layers)), w2) ∧
    images w2 !! bg' = Some im' ∧
    im_width im' = 800 ∧ im_height im' = 400 ∧
    (forallb tuple_free auto_layers = true → listify <$> auto_layers = auto_layers) ∧
    (∀ i d, auto_layers !! i = Some (PDict d) →
       ∃ d', (listify <$> auto_layers) !! i = Some (PDict d') ∧
             (d !! "position" = Some PNone → d' !! "position" = Some PNone) ∧
             (d !! "position" = None → d' !! "position" = None)).
Proof.
  apply (metadata_round_trip test_world "outputs/banner" 1%positive test_img auto_layers);
    [reflexivity|simpl; lia..].
Defined.

(** C1 (as worded) fails on the layer list of the repository's own export
    test: its position is the tuple (400, 200), and it is read back as the
    list [400, 200], which is a different value. *)
Lemma tuple_position_read_back_as_list :
  ∃ w1 w2,
    export_with_metadata "test_banner" 1%positive (PList test_layers) test_world
    = (Ok ("test_banner_background.png", "test_banner_metadata.json"), w1) ∧
    load_from_metadata "test_banner_metadata.json" w1
    = (Ok (2%positive, PList test_layers_read_back), w2) ∧
    PList test_layers_read_back ≠ PList test_layers ∧
    ¬ round_trip_claim.
Proof.
  assert (PList test_layers_read_back ≠ PList test_layers) as Hne.
  { intros H. apply (f_equal (λ v, match v with
                                  | PList [PDict d] => d !! "position"
                                  | _ => None
                                  end)) in H.
    vm_compute in H. discriminate. }
  destruct (load_after_export test_world "test_banner" 1%positive test_img
              (PList test_layers)) as (w1 & Hexport & Himages & Hload);
    [reflexivity|simpl; lia..|].
  assert (listify (PList test_layers) = PList test_layers_read_back) as Hback
    by (vm_compute; reflexivity).
  rewrite Hback in Hload.
  exists w1. eexists. split; [exact Hexport|]. split; [exact Hload|].
  split; [exact Hne|].
  intros Hclaim.
  destruct (Hclaim test_world "test_banner" 1%positive test_img test_layers)
    as (paths & w1' & bg' & w2' & im' & Hexport' & Hload' & _);
    [reflexivity|simpl; lia..|].
  rewrite Hexport in Hexport'. injection Hexport' as <- <-.
  pose proof (eq_trans (eq_sym Hload) Hload') as Heq.
  apply (f_equal (λ r : result (loc * pyval) * world,
                    match r.1 with Ok p => p.2 | Raise _ => PNone end)) in Heq.
  exact (Hne Heq).
Qed.

(** C9 (as amended): for a metadata document that is a JSON object, import
    raises KeyError for [background] when that key is missing,
    FileNotFoundError for the path when [background] names a missing file,
    and KeyError for [text_layers] when the background can be opened and that
    key is missing; [width] and [height] are never read, so that a document
    with [background] and [text_layers] is imported whether or not it has
    them. *)
Theorem load_from_metadata_errors w metadata_path doc d :
  files w !! metadata_path = Some (JsonFile doc) →
  py_of_json doc = PDict d →
  (d !! "background" = None →
   load_from_metadata metadata_path w = (Raise (KeyError "background"), w)) ∧
  (∀ p, d !! "background" = Some (PStr p) → files w !! p = None →
   load_from_metadata metadata_path w = (Raise (FileNotFoundError p), w)) ∧
  (∀ p im, d !! "background" = Some (PStr p) → files w !! p = Some (PngFile im) →
   d !! "text_layers" = None →
   (load_from_metadata metadata_path w).1 = Raise (KeyError "text_layers")) ∧
  (∀ p im text_layers,
   d !! "background" = Some (PStr p) → files w !! p = Some (PngFile im) →
   d !! "text_layers" = Some text_layers →
   (load_from_metadata metadata_path w).1
   = Ok (fresh (dom (images w)), text_layers)).
Proof.
  intros Hfile Hdoc.
  rewrite (load_from_metadata_dict w metadata_path doc d Hfile Hdoc).
  repeat split.
  - by intros ->.
  - intros p -> Hp. simpl. by rewrite Hp.
  - intros p im -> Hp ->. simpl. by rewrite Hp.
  - intros p im text_layers -> Hp ->. simpl. by rewrite Hp.
Qed.

Lemma load_from_metadata_errors_witness :
  (load_from_metadata "banner_metadata.json" sizeless_world).1
  = Ok (fresh (dom (images sizeless_world)), PList []).
Proof.
  eapply (load_from_metadata_errors sizeless_world "banner_metadata.json");
    reflexivity.
Defined.

(** C9 (as worded) fails: a document without [width] and [height] is
    imported without an error. *)
Lemma sizeless_metadata_is_imported :
  (load_from_metadata "banner_metadata.json" sizeless_world).1
  = Ok (1%positive, PList []) ∧
  ¬ malformed_metadata_claim.
Proof.
  assert ((load_from_metadata "banner_metadata.json" sizeless_world).1
          = Ok (1%positive, PList [])) as Hrun by (vm_compute; reflexivity).
  split; [exact Hrun|]. intros Hclaim.
  pose proof (Hclaim sizeless_world "banner_metadata.json" _ _ eq_refl eq_refl) as H.
  rewrite Hrun in H. apply H. by left.
Qed.

(** ** Strings: searching and slicing *)

Lemma append_assoc (a b c : string) : (a +:+ b) +:+ c = a +:+ b +:+ c.
Proof.
  induction a as [|x a IH]; [done|].
  change (String x ((a +:+ b) +:+ c) = String x (a +:+ b +:+ c)). by f_equal.
Qed.


Lemma contains_char_app c a b :
  contains_char c (a +:+ b) = contains_char c a || contains_char c b.
Proof. induction a as [|x a IH]; simpl; [done|]. by rewrite IH, orb_assoc. Qed.

Lemma find_from_absent c s i : contains_char c s = false → find_from c s i = -1.
Proof.
  revert i. induction s as [|a s IH]; intros i; simpl; [done|].
  destruct (Ascii.eqb a c); [done|]. apply IH.
Qed.

Lemma find_from_first c pre post i :
  contains_char c pre = false →
  find_from c (pre +:+ String c post) i = i + Z.of_nat (String.length pre).
Proof.
  revert i. induction pre as [|a pre IH]; intros i; simpl.
  - intros _. rewrite Ascii.eqb_refl. lia.
  - destruct (Ascii.eqb a c); [done|]. simpl. intros H. rewrite IH by done. lia.
Qed.

Lemma rfind_from_absent c s i last :
  contains_char c s = false → rfind_from c s i last = last.
Proof.
  revert i last. induction s as [|a s IH]; intros i last; simpl; [done|].
  destruct (Ascii.eqb a c); [done|]. apply IH.
Qed.

Lemma rfind_from_last c pre post i last :
  contains_char c post = false →
  rfind_from c (pre +:+ String c post) i last = i + Z.of_nat (String.length pre).
Proof.
  intros Hpost. revert i last. induction pre as [|a pre IH]; intros i last; simpl.
  - rewrite Ascii.eqb_refl, rfind_from_absent by done. lia.
  - rewrite IH. lia.
Qed.

Lemma first_occurrence c s :
  contains_char c s = true →
  ∃ pre post, s = pre +:+ String c post ∧ contains_char c pre = false.
Proof.
  induction s as [|a s IH]; simpl; [done|].
  destruct (Ascii.eqb_spec a c) as [->|Hne]; simpl.
  - intros _. by exists "", s.
  - intros H. destruct (IH H) as (pre & post & -> & Hpre).
    exists (String a pre), post. split; [done|]. simpl.
    by destruct (Ascii.eqb_spec a c).
Qed.

Lemma last_occurrence c s :
  contains_char c s = true →
  ∃ pre post, s = pre +:+ String c post ∧ contains_char c post = false.
Proof.
  induction s as [|a s IH]; simpl; [done|].
  destruct (contains_char c s) eqn:Hs.
  - intros _. destruct IH as (pre & post & -> & Hpost); [done|].
    by exists (String a pre), post.
  - rewrite orb_false_r. intros ->%Ascii.eqb_eq. by exists "", s.
Qed.

Lemma append_split a1 b1 a2 b2 :
  a1 +:+ b1 = a2 +:+ b2 → (String.length a1 ≤ String.length a2)%nat →
  ∃ m, a2 = a1 +:+ m ∧ b1 = m +:+ b2.
Proof.
  revert a2. induction a1 as [|x a1 IH]; intros a2.
  - intros H _. change (b1 = a2 +:+ b2) in H. subst b1. by exists a2.
  - destruct a2 as [|y a2]; [simpl; lia|]. intros H Hlen.
    change (String x (a1 +:+ b1) = String y (a2 +:+ b2)) in H.
    injection H as -> H.
    destruct (IH a2 H) as (m & -> & ->); [simpl in Hlen; lia|]. by exists m.
Qed.

Lemma substring_zero n s : substring n 0 s = "".
Proof. revert n. induction s as [|a s IH]; intros [|n]; simpl; auto. Qed.

Lemma substring_prefix b c : substring 0 (String.length b) (b +:+ c) = b.
Proof.
  induction b as [|x b IH]; simpl; [apply substring_zero|]. by rewrite IH.
Qed.

Lemma substring_middle a b c :
  substring (String.length a) (String.length b) (a +:+ b +:+ c) = b.
Proof. induction a as [|x a IH]; simpl; [exact (substring_prefix b c)|done]. Qed.

Lemma append_length a b :
  String.length (a +:+ b) = (String.length a + String.length b)%nat.
Proof. induction a as [|x a IH]; simpl; [done|]. by rewrite IH. Qed.

(** A slice between two positions inside the string is the text between
    them. *)
Lemma py_slice_middle a b c :
  py_slice (a +:+ b +:+ c) (Z.of_nat (String.length a))
           (Z.of_nat (String.length a) + Z.of_nat (String.length b)) = b.
Proof.
  unfold py_slice. rewrite !append_length.
  destruct (Z.ltb_spec (Z.of_nat (String.length a)) 0); [lia|].
  destruct (Z.ltb_spec (Z.of_nat (String.length a) + Z.of_nat (String.length b)) 0);
    [lia|].
  rewrite !Z.min_l by lia.
  replace (Z.to_nat (Z.of_nat (String.length a))) with (String.length a) by lia.
  replace (Z.to_nat _) with (String.length b) by lia.
  apply substring_middle.
Qed.

(** A slice whose end is not after its start is empty. *)
Lemma py_slice_crossed s start stop :
  0 ≤ stop ≤ start → py_slice s start stop = "".
Proof.
  intros H. unfold py_slice.
  destruct (Z.ltb_spec start 0); [lia|]. destruct (Z.ltb_spec stop 0); [lia|].
  replace (Z.to_nat (Z.min stop _ - Z.min start _)) with 0%nat by lia.
  apply substring_zero.
Qed.

(** ** [parse_design_response] *)

Section BannerLordFacts.
Context (json_loads : string → result pyval).

Local Abbreviation parse_design_try := (parse_design_try json_loads).
Local Abbreviation parse_design_response := (parse_design_response json_loads).

Lemma parse_design_try_no_open response :
  contains_char "{" response = false → parse_design_try response = Ok None.
Proof.
  intros H. unfold parse_design_try, str_find. by rewrite find_from_absent.
Qed.

Lemma parse_design_try_no_close response :
  contains_char "}" response = false → parse_design_try response = Ok None.
Proof.
  intros H. unfold parse_design_try, str_rfind.
  rewrite rfind_from_absent by done. simpl. by rewrite andb_false_r.
Qed.

(** When the first opening brace comes before the last closing brace,
    the text from the one to the other goes to the JSON reader. *)
Lemma parse_design_try_span response json_str :
  brace_span response json_str →
  parse_design_try response = (v ← json_loads json_str; Ok (Some v)).
Proof.
  intros (pre & mid & post & -> & Hpre & Hpost & ->).
  unfold parse_design_try, str_find, str_rfind.
  rewrite (find_from_first "{" pre (mid +:+ "}" +:+ post)) by done.
  replace (pre +:+ "{" +:+ mid +:+ "}" +:+ post)
    with ((pre +:+ "{" +:+ mid) +:+ String "}" post)
    by (by rewrite !append_assoc).
  rewrite (rfind_from_last "}" (pre +:+ "{" +:+ mid) post) by done.
  replace ((pre +:+ "{" +:+ mid) +:+ String "}" post)
    with (pre +:+ ("{" +:+ mid +:+ "}") +:+ post)
    by (by rewrite !append_assoc).
  replace (0 + Z.of_nat (String.length (pre +:+ "{" +:+ mid)) + 1)
    with (Z.of_nat (String.length pre)
          + Z.of_nat (String.length ("{" +:+ mid +:+ "}")))
    by (rewrite !append_length; simpl; lia).
  rewrite Z.add_0_l, py_slice_middle.
  destruct (Z.eqb_spec (Z.of_nat (String.length pre)) (-1)); [lia|].
  destruct (Z.eqb_spec (Z.of_nat (String.length pre)
    + Z.of_nat (String.length ("{" +:+ mid +:+ "}"))) 0); [simpl in *; lia|].
  done.
Qed.

(** When every closing brace comes before the first opening brace, the
    slice is empty, and the empty text goes to the JSON reader. *)
Lemma parse_design_try_crossed a m post :
  contains_char "{" (a +:+ String "}" m) = false →
  contains_char "}" (m +:+ String "{" post) = false →
  parse_design_try (a +:+ String "}" m +:+ String "{" post)
  = (v ← json_loads ""; Ok (Some v)).
Proof.
  intros Ha Hm. unfold parse_design_try, str_find, str_rfind.
  replace (a +:+ String "}" m +:+ String "{" post)
    with ((a +:+ String "}" m) +:+ String "{" post)
    by (by rewrite append_assoc).
  rewrite (find_from_first "{" (a +:+ String "}" m) post) by done.
  replace ((a +:+ String "}" m) +:+ String "{" post)
    with (a +:+ String "}" (m +:+ String "{" post))
    by (by rewrite append_assoc).
  rewrite (rfind_from_last "}" a (m +:+ String "{" post)) by done.
  rewrite append_length. simpl String.length.
  rewrite py_slice_crossed by lia.
  destruct (Z.eqb_spec (0 + Z.of_nat (String.length a + S (String.length m))) (-1));
    [lia|].
  destruct (Z.eqb_spec (0 + Z.of_nat (String.length a) + 1) 0); [lia|]. done.
Qed.

(** The three ways the braces of a response can lie. *)
Lemma brace_cases response :
  (contains_char "{" response = false ∨ contains_char "}" response = false) ∨
  (∃ json_str, brace_span response json_str) ∨
  (∃ a m post, response = a +:+ String "}" m +:+ String "{" post ∧
               contains_char "{" (a +:+ String "}" m) = false ∧
               contains_char "}" (m +:+ String "{" post) = false).
Proof.
  destruct (contains_char "{" response) eqn:Hopen; [|by left; left].
  destruct (contains_char "}" response) eqn:Hclose; [|by left; right].
  right.
  destruct (first_occurrence _ _ Hopen) as (pre1 & post1 & E1 & Hpre1).
  destruct (last_occurrence _ _ Hclose) as (pre2 & post2 & E2 & Hpost2).
  destruct (decide (String.length pre1 ≤ String.length pre2)%nat) as [Hle|Hgt].
  - left. rewrite E1 in E2.
    destruct (append_split _ _ _ _ E2 Hle) as (m & -> & Hm).
    destruct m as [|x m]; [discriminate|]. injection Hm as <- ->.
    exists ("{" +:+ m +:+ "}"), pre1, m, post2.
    repeat split; [|done..]. rewrite E1. done.
  - right. rewrite E2 in E1.
    destruct (append_split _ _ _ _ E1) as (m & -> & Hm); [lia|].
    destruct m as [|x m]; [discriminate|]. injection Hm as <- ->.
    exists pre2, m, post1. repeat split; [|done..].
    by rewrite E2.
Qed.

End BannerLordFacts.

Section ParseDesignResponse.
Context (json_loads : string → result pyval).

Local Abbreviation parse_design_try := (parse_design_try json_loads).
Local Abbreviation parse_design_response := (parse_design_response json_loads).



(** The result when the response has a brace span: what the JSON reader
    returns for it, or the default when the reader raises. *)
Lemma parse_design_response_span response json_str :
  brace_span response json_str →
  parse_design_response response
  = Ok (match json_loads json_str with
        | Ok parsed => parsed
        | Raise _ => default_design response
        end).
Proof.
  intros Hspan. unfold parse_design_response.
  rewrite (parse_design_try_span json_loads response json_str Hspan).
  by destruct (json_loads json_str).
Qed.


(** C10: when the reader returns a value for the brace span of the
    response, [parse_design_response] returns that very value: no key is
    checked, added or given a default. *)
Theorem parsed_object_returned_verbatim response json_str parsed :
  brace_span response json_str →
  json_loads json_str = Ok parsed →
  parse_design_response response = Ok parsed.
Proof.
  intros Hspan Hparsed.
  by rewrite (parse_design_response_span response json_str Hspan), Hparsed.
Qed.
End ParseDesignResponse.


Lemma parsed_object_returned_verbatim_witness :
  parse_design_response json_loads_ref "Here is the design: {} Enjoy!" = Ok (PDict ∅) ∧
  Forall (λ key, (∅ : gmap string pyval) !! key = None) design_keys.
Proof.
  split.
  - apply (parsed_object_returned_verbatim json_loads_ref _ "{}").
    + by exists "Here is the design: ", "", " Enjoy!".
    + reflexivity.
  - repeat constructor.
Defined.

(** * Further properties of the code *)

(** ** The layout planner *)

(** With a library that validates the corner order, the planner returns on a
    canvas of positive size exactly when the text box is not inverted. *)
Lemma create_control_image_strict_returns w h pos lay :
  0 < w → 0 < h →
  returns (create_control_image true w h pos lay) ↔ ordered (text_box_for w h pos).
Proof.
  intros Hw Hh.
  destruct (draw_layout_guides true (Image "RGB" w h "white" []) w h lay Hw Hh)
    as (guides & Hlay & _).
  assert (Hnew : Image_new "RGB" (w, h) "white" = Ok (Image "RGB" w h "white" [])).
  { unfold Image_new. destruct (Z.ltb_spec w 0); [lia|].
    destruct (Z.ltb_spec h 0); [lia|]. reflexivity. }
  unfold create_control_image. rewrite Hnew. simpl mbind.
  unfold mbind, result_bind. rewrite Hlay.
  destruct (text_box_for w h pos) as [[[x0 y0] x1] y1].
  unfold draw_rectangle, ordered. simpl.
  destruct (Z.ltb_spec x1 x0); [simpl; split; [done|lia]|].
  destruct (Z.ltb_spec y1 y0); simpl; split; try done; lia.
Qed.

(** X1: with a library that validates the corner order of rectangles, the
    exact canvas sizes the planner accepts for the four padded positions: on
    a canvas of positive size it returns for [left] exactly from width 200,
    for [right] from width 199, for [top] from 100 by 150 and for [bottom]
    from 100 by 148, whatever the layout type. *)
Theorem strict_text_box_thresholds w h lay :
  0 < w → 0 < h →
  (returns (create_control_image true w h "left" lay) ↔ 200 ≤ w) ∧
  (returns (create_control_image true w h "right" lay) ↔ 199 ≤ w) ∧
  (returns (create_control_image true w h "top" lay) ↔ 100 ≤ w ∧ 150 ≤ h) ∧
  (returns (create_control_image true w h "bottom" lay) ↔ 100 ≤ w ∧ 148 ≤ h).
Proof.
  intros Hw Hh.
  rewrite !create_control_image_strict_returns by done.
  unfold text_box_for, ordered. simpl.
  repeat split; intros; try (destruct_and?; Z.div_mod_to_equations; lia).
Qed.

Lemma strict_text_box_thresholds_witness :
  (returns (create_control_image true 199 148 "left" "split") ↔ 200 ≤ 199) ∧
  (returns (create_control_image true 199 148 "right" "split") ↔ 199 ≤ 199) ∧
  (returns (create_control_image true 199 148 "top" "split") ↔ 100 ≤ 199 ∧ 150 ≤ 148) ∧
  (returns (create_control_image true 199 148 "bottom" "split") ↔ 100 ≤ 199 ∧ 148 ≤ 148).
Proof. apply (strict_text_box_thresholds 199 148 "split"); lia. Defined.

(** X2: whenever the planner returns, the image is an RGB canvas of exactly
    the requested size, filled white; the requested size is not negative;
    the last shape drawn is the text box, with stroke 2; and the number of
    shapes is 2 for [minimal], 4 for [geometric], 3 for [split] and 1 (the
    text box alone, no guide) for every other layout type. *)
Theorem create_control_image_shape strict w h pos lay img :
  create_control_image strict w h pos lay = Ok img →
  (im_mode img, im_width img, im_height img, im_fill img) = ("RGB", w, h, "white") ∧
  (0 ≤ w ∧ 0 ≤ h) ∧
  last (im_ops img) = Some (Rectangle (text_box_for w h pos) "black" 2) ∧
  length (im_ops img)
  = (if (lay =? "minimal")%string then 2
     else if (lay =? "geometric")%string then 4
     else if (lay =? "split")%string then 3
     else 1)%nat.
Proof.
  unfold create_control_image, Image_new.
  destruct (Z.ltb_spec w 0); [discriminate|].
  destruct (Z.ltb_spec h 0); [discriminate|].
  simpl orb. cbv iota. unfold mbind at 1, result_bind at 1.
  set (tb := text_box_for w h pos). clearbody tb.
  destruct tb as [[[x0 y0] x1] y1].
  unfold draw_layout, draw_rectangle, draw_line.
  destruct (strict && (w - 1 <? 0)), (strict && (h - 1 <? 0)),
    (strict && (x1 <? x0)), (strict && (y1 <? y0));
    str_cases; simpl; intros [= <-]; simpl; repeat split; lia.
Qed.

Lemma create_control_image_shape_witness :
  ∃ img, create_control_image true 1024 512 "center" "spiral" = Ok img ∧
         length (im_ops img) = 1%nat.
Proof.
  eexists. split; [reflexivity|].
  apply (create_control_image_shape true 1024 512 "center" "spiral"). reflexivity.
Defined.

(** X3: the text boxes are placed symmetrically, for every canvas size: the
    center box is centered on the canvas on both axes within half a pixel,
    the left and the right box are centered vertically and the top and the
    bottom box horizontally; the left and the right box keep the same
    distance of 50 from their edge of the canvas and face each other across
    a gap of 100 around the middle column. *)
Theorem text_boxes_are_symmetric w h :
  centered_in w h (text_box_for w h "center") ∧
  (∀ pos, pos = "left" ∨ pos = "right" →
     ∃ x0 y0 x1 y1, text_box_for w h pos = (x0, y0, x1, y1) ∧ -1 ≤ y0 + y1 - h ≤ 1) ∧
  (∀ pos, pos = "top" ∨ pos = "bottom" →
     ∃ x0 y0 x1 y1, text_box_for w h pos = (x0, y0, x1, y1) ∧ x0 + x1 = w) ∧
  (∃ lx0 ly0 lx1 ly1 rx0 ry0 rx1 ry1,
     text_box_for w h "left" = (lx0, ly0, lx1, ly1) ∧
     text_box_for w h "right" = (rx0, ry0, rx1, ry1) ∧
     lx0 = w - rx1 ∧ rx0 - lx1 = 100 ∧ ly0 = ry0 ∧ ly1 = ry1).
Proof.
  split; [unfold centered_in; simpl; Z.div_mod_to_equations; lia|].
  split; [intros pos [-> | ->]; do 4 eexists; (split; [reflexivity|]);
          Z.div_mod_to_equations; lia|].
  split; [intros pos [-> | ->]; do 4 eexists; (split; [reflexivity|]); lia|].
  do 8 eexists. split; [reflexivity|]. split; [reflexivity|]. lia.
Qed.

(** ** The font ladder *)

Section FontLadder.
Context (path_exists : string → bool) (truetype : string → Z → result font).

Local Abbreviation get_font_loop := (get_font_loop path_exists truetype).
Local Abbreviation unloadable := (unloadable path_exists truetype).

(** The loop returns the font of the first path that exists and loads, and
    the built-in font when there is none. *)
Lemma get_font_loop_first font_paths font_size :
  (∃ pre p post fnt,
     font_paths = pre ++ p :: post ∧ Forall (unloadable font_size) pre ∧
     path_exists p = true ∧ truetype p font_size = Ok fnt ∧
     get_font_loop font_paths font_size = Ok fnt) ∨
  (Forall (unloadable font_size) font_paths ∧
   get_font_loop font_paths font_size = Ok load_default).
Proof.
  induction font_paths as [|p rest IH]; [right; by split|].
  simpl. destruct (path_exists p) eqn:Hp.
  - destruct (truetype p font_size) as [fnt|e] eqn:Ht; simpl.
    + left. exists [], p, rest, fnt. by repeat split.
    + destruct IH as [(pre & q & post & fnt & -> & Hpre & Hq & Hl & Hr)|[Hall Hr]].
      * left. exists (p :: pre), q, post, fnt. repeat split; try done.
        constructor; [|done]. right. by rewrite Ht.
      * right. split; [|done]. constructor; [|done]. right. by rewrite Ht.
  - destruct IH as [(pre & q & post & fnt & -> & Hpre & Hq & Hl & Hr)|[Hall Hr]].
    + left. exists (p :: pre), q, post, fnt. repeat split; try done.
      constructor; [by left|done].
    + right. split; [|done]. constructor; [by left|done].
Qed.

(** X4: [_get_font] tries exactly four paths, in the order family-specific
    DejaVu, family-specific Liberation, DejaVu Sans Bold, DejaVu Sans; it
    returns the font of the first one that exists and that the loader
    accepts at the requested size, every earlier path being missing or
    refused, and the built-in default font when all four are missing or
    refused.  A loader error is never raised to the caller. *)
Theorem _get_font_first_loadable font_size font_family :
  length (font_ladder font_family) = 4%nat ∧
  ((∃ pre p post fnt,
      font_ladder font_family = pre ++ p :: post ∧
      Forall (unloadable font_size) pre ∧
      path_exists p = true ∧ truetype p font_size = Ok fnt ∧
      _get_font path_exists truetype font_size font_family = Ok fnt) ∨
   (Forall (unloadable font_size) (font_ladder font_family) ∧
    _get_font path_exists truetype font_size font_family = Ok load_default)).
Proof. split; [done|]. apply get_font_loop_first. Qed.
End FontLadder.

Lemma append_inj_r (a b c : string) : a +:+ c = b +:+ c → a = b.
Proof.
  revert b. induction a as [|x a IH]; intros b H.
  - destruct b as [|y b]; [done|]. exfalso.
    apply (f_equal String.length) in H.
    rewrite !append_length in H. simpl in H. lia.
  - destruct b as [|y b].
    + exfalso. apply (f_equal String.length) in H.
      rewrite !append_length in H. simpl in H. lia.
    + simpl in H. injection H as -> H. f_equal. by apply IH.
Qed.

Lemma eqb_append_r (a b c : string) : ((a +:+ c) =? (b +:+ c))%string = (a =? b)%string.
Proof.
  destruct (String.eqb_spec a b) as [->|Hne]; [apply String.eqb_refl|].
  apply String.eqb_neq. intros H. by apply Hne, (append_inj_r a b c).
Qed.


(** X5: on a machine with the two DejaVu Sans files and a loader that
    refuses sizes that are not positive, a family other than [Sans] (in any
    capitalisation) gets the bold face, the third path of the ladder, at
    every positive size, and every family gets the built-in default font at
    a size that is not positive: the loader's error is swallowed. *)
Theorem reference_fonts font_size font_family :
  (0 < font_size →
   _get_font ref_path_exists ref_truetype font_size font_family
   = Ok (FreeTypeFont (if (str_title font_family =? "Sans")%string
                       then dejavu_sans else dejavu_sans_bold) font_size)) ∧
  (font_size ≤ 0 →
   _get_font ref_path_exists ref_truetype font_size font_family = Ok DefaultFont).
Proof.
  unfold _get_font. set (t := str_title font_family). clearbody t.
  assert (Hlib : ref_path_exists
            ("/usr/share/fonts/truetype/liberation/Liberation" +:+ t +:+ ".ttf") = false)
    by reflexivity.
  assert (Hdv : ref_path_exists ("/usr/share/fonts/truetype/dejavu/DejaVu" +:+ t +:+ ".ttf")
                = (t =? "Sans")%string || (t =? "Sans-Bold")%string).
  { unfold ref_path_exists, dejavu_sans, dejavu_sans_bold.
    change ("/usr/share/fonts/truetype/dejavu/DejaVu" +:+ t +:+ ".ttf" =?
            "/usr/share/fonts/truetype/dejavu/DejaVuSans.ttf")%string
      with ((t +:+ ".ttf") =? ("Sans" +:+ ".ttf"))%string.
    change ("/usr/share/fonts/truetype/dejavu/DejaVu" +:+ t +:+ ".ttf" =?
            "/usr/share/fonts/truetype/dejavu/DejaVuSans-Bold.ttf")%string
      with ((t +:+ ".ttf") =? ("Sans-Bold" +:+ ".ttf"))%string.
    by rewrite !eqb_append_r. }
  unfold get_font_loop. rewrite Hlib.
  change (ref_path_exists "/usr/share/fonts/truetype/dejavu/DejaVuSans-Bold.ttf") with true.
  change (ref_path_exists "/usr/share/fonts/truetype/dejavu/DejaVuSans.ttf") with true.
  cbv iota. unfold ref_truetype. rewrite !Hdv.
  change (ref_path_exists "/usr/share/fonts/truetype/dejavu/DejaVuSans-Bold.ttf") with true.
  change (ref_path_exists "/usr/share/fonts/truetype/dejavu/DejaVuSans.ttf") with true.
  cbv iota.
  split; intros Hs.
  - destruct (Z.ltb_spec 0 font_size); [|lia].
    destruct (String.eqb_spec t "Sans") as [->|H1]; [reflexivity|].
    destruct (String.eqb_spec t "Sans-Bold") as [->|H2]; reflexivity.
  - destruct (Z.ltb_spec 0 font_size); [lia|].
    destruct ((t =? "Sans")%string || (t =? "Sans-Bold")%string); reflexivity.
Qed.

(** ** The compositor *)

Lemma im_draw_all_nil img : im_draw_all img [] = img.
Proof. destruct img. unfold im_draw_all. simpl. by rewrite app_nil_r. Qed.

Lemma im_draw_all_app img a b :
  im_draw_all (im_draw_all img a) b = im_draw_all img (a ++ b).
Proof. unfold im_draw_all. simpl. by rewrite app_assoc. Qed.

Section CompositeBannerFacts.
Context (path_exists : string → bool) (truetype : string → Z → result font)
        (getbbox : font → string → box) (valid_color : string → bool).

Local Abbreviation add_text_to_banner :=
  (add_text_to_banner path_exists truetype getbbox valid_color).
Local Abbreviation add_text_call :=
  (add_text_call path_exists truetype getbbox valid_color).
Local Abbreviation composite_loop :=
  (composite_loop path_exists truetype getbbox valid_color).
Local Abbreviation create_composite_banner :=
  (create_composite_banner path_exists truetype getbbox valid_color).
Local Abbreviation call_passes := (call_passes path_exists truetype getbbox).

Lemma call_passes_im_draw_all img ops c :
  call_passes (im_draw_all img ops) c = call_passes img c.
Proof. reflexivity. Qed.

Lemma add_text_call_ok w result img c :
  images w !! result = Some img →
  call_colors_valid valid_color c →
  add_text_call result c w
  = (Ok (fresh (dom (images w))),
     World (<[fresh (dom (images w)) := im_draw_all img (call_passes img c)]> (images w))
           (files w)).
Proof.
  intros Himg (Hshadow & Hcolor & Hstroke).
  destruct (add_text_to_banner_ok path_exists truetype getbbox valid_color
              w result img (tc_text c) (tc_position c) (tc_font_size c)
              (tc_font_family c) (tc_color c) (tc_alignment c) (tc_stroke_width c)
              (tc_stroke_color c) (tc_shadow c) Himg Hshadow Hcolor Hstroke)
    as (fnt & Hfnt & Hrun).
  unfold add_text_call. rewrite Hrun.
  unfold call_passes. by rewrite Hfnt.
Qed.

(** The loop on a live image and calls with valid colors: each call draws
    its passes on a copy of the result of the one before. *)
Lemma composite_loop_ok calls : ∀ w result img,
  images w !! result = Some img →
  Forall (call_colors_valid valid_color) calls →
  ∃ out w',
    composite_loop result calls w = (Ok out, w') ∧
    files w' = files w ∧
    images w' !! out = Some (im_draw_all img (concat (call_passes img <$> calls))) ∧
    (out = result ∨ images w !! out = None) ∧
    (∀ l, is_Some (images w !! l) → images w' !! l = images w !! l).
Proof.
  induction calls as [|c rest IH]; intros w result img Himg Hvalid.
  - exists result, w. simpl. rewrite im_draw_all_nil. by repeat split; auto.
  - inversion Hvalid as [|? ? Hc Hrest]; subst.
    simpl. unfold mbind, io_bind. rewrite (add_text_call_ok w result img c Himg Hc).
    set (l1 := fresh (dom (images w))).
    set (img1 := im_draw_all img (call_passes img c)).
    set (w1 := World (<[l1 := img1]> (images w)) (files w)).
    assert (Hfresh : images w !! l1 = None) by apply fresh_image_unused.
    destruct (IH w1 l1 img1) as (out & w' & Hrun & Hfiles & Hout & Hnew & Hframe);
      [apply lookup_insert_eq|done|].
    exists out, w'. split; [exact Hrun|]. split; [done|]. split.
    { rewrite Hout. subst img1. rewrite im_draw_all_app. done. }
    split.
    { right. destruct Hnew as [->|Hnone]; [done|].
      simpl in Hnone. destruct (decide (out = l1)) as [->|Hne]; [done|].
      by rewrite lookup_insert_ne in Hnone. }
    intros l Hl. assert (l ≠ l1) by (intros ->; rewrite Hfresh in Hl; by destruct Hl).
    rewrite Hframe; simpl; rewrite lookup_insert_ne; done.
Qed.

(** The loop changes no file and no image object that exists when it
    starts, whatever its outcome. *)
Lemma composite_loop_frame calls : ∀ w result r w',
  composite_loop result calls w = (r, w') →
  files w' = files w ∧
  (∀ l, is_Some (images w !! l) → images w' !! l = images w !! l).
Proof.
  induction calls as [|c rest IH]; intros w result r w'.
  - by intros [= <- <-].
  - simpl. unfold mbind, io_bind.
    destruct (add_text_call result c w) as [[l1|e] w1] eqn:Hstep.
    + unfold add_text_call in Hstep.
      apply add_text_to_banner_frame in Hstep as (Hf1 & Hi1 & _).
      intros Hrest. destruct (IH _ _ _ _ Hrest) as [Hf2 Hi2].
      split; [congruence|]. intros l Hl.
      rewrite Hi2; [by apply Hi1|]. by rewrite Hi1.
    + unfold add_text_call in Hstep.
      apply add_text_to_banner_frame in Hstep as (Hf1 & Hi1 & _).
      by intros [= <- <-].
Qed.

(** X6: on a background that is an image, with colors the library can
    parse, [create_composite_banner] without an output path returns a new
    image object, distinct from the background and from every object that
    existed before; it has the mode, size and fill of the background, and
    its drawing calls are those of the background followed by the passes of
    every element in the order of the list (a shadow pass, if any, then the
    main pass, each positioned on the canvas of the background).  The
    background is left as it was and no file is written. *)
Theorem create_composite_banner_renders w background bg text_elements :
  images w !! background = Some bg →
  Forall (call_colors_valid valid_color) text_elements →
  ∃ result w',
    create_composite_banner background text_elements None w = (Ok result, w') ∧
    images w' !! result
    = Some (im_draw_all bg (concat (call_passes bg <$> text_elements))) ∧
    images w !! result = None ∧ result ≠ background ∧
    images w' !! background = Some bg ∧
    files w' = files w.
Proof.
  intros Hbg Hvalid.
  unfold create_composite_banner.
  unfold mbind at 1, io_bind at 1. rewrite (Image_copy_allocated _ _ _ Hbg).
  set (l0 := fresh (dom (images w))).
  set (w0 := World (<[l0 := bg]> (images w)) (files w)).
  assert (Hfresh : images w !! l0 = None) by apply fresh_image_unused.
  destruct (composite_loop_ok text_elements w0 l0 bg)
    as (out & w' & Hrun & Hfiles & Hout & Hnew & Hframe);
    [apply lookup_insert_eq|done|].
  unfold mbind at 1, io_bind at 1. rewrite Hrun. simpl.
  exists out, w'. split; [done|]. split; [done|].
  assert (Hnone : images w !! out = None).
  { destruct Hnew as [->|Hnone]; [done|].
    simpl in Hnone. destruct (decide (out = l0)) as [->|Hne]; [done|].
    by rewrite lookup_insert_ne in Hnone. }
  split; [done|]. split; [intros ->; congruence|].
  assert (background ≠ l0) by (intros ->; congruence).
  split; [|done].
  rewrite Hframe; simpl; rewrite lookup_insert_ne; done.
Qed.

(** X7: whatever its outcome, with or without an output path,
    [create_composite_banner] changes no image object that existed before
    the call (the background among them), and no file other than the one
    at the output path; with no output path, or an empty one, it changes no
    file at all. *)
Theorem create_composite_banner_frame w background text_elements output_path :
  let out := create_composite_banner background text_elements output_path w in
  (∀ l, is_Some (images w !! l) → images out.2 !! l = images w !! l) ∧
  (∀ p, output_path ≠ Some p → files out.2 !! p = files w !! p) ∧
  (output_path = None ∨ output_path = Some "" → files out.2 = files w).
Proof.
  intros out. subst out.
  destruct (create_composite_banner background text_elements output_path w)
    as [r w'] eqn:Hrun.
  simpl. revert Hrun.
  unfold create_composite_banner.
  unfold mbind at 1, io_bind at 1.
  destruct (images w !! background) as [bg|] eqn:Hbg.
  2: { destruct (Image_copy_dangling w background Hbg) as [e ->].
       by intros [= <- <-]. }
  rewrite (Image_copy_allocated _ _ _ Hbg).
  set (l0 := fresh (dom (images w))).
  set (w0 := World (<[l0 := bg]> (images w)) (files w)).
  assert (Hfresh : images w !! l0 = None) by apply fresh_image_unused.
  assert (Hkeep : ∀ l, is_Some (images w !! l) → images w0 !! l = images w !! l).
  { intros l Hl. simpl. rewrite lookup_insert_ne; [done|].
    intros <-. rewrite Hfresh in Hl. by destruct Hl. }
  unfold mbind at 1, io_bind at 1.
  destruct (composite_loop l0 text_elements w0) as [[out|e] w1] eqn:Hloop;
    destruct (composite_loop_frame _ _ _ _ _ Hloop) as [Hf1 Hi1].
  2: { intros [= <- <-]. simpl. rewrite Hf1. split; [|by split].
       intros l Hl. rewrite Hi1; [by apply Hkeep|]. by rewrite Hkeep. }
  assert (Hkeep1 : ∀ l, is_Some (images w !! l) → images w1 !! l = images w !! l).
  { intros l Hl. rewrite Hi1; [by apply Hkeep|]. by rewrite Hkeep. }
  destruct output_path as [p|]; simpl py_or.
  2: { intros [= <- <-]. simpl. rewrite Hf1. by repeat split. }
  destruct (String.eqb_spec p "") as [->|Hp].
  { intros [= <- <-]. simpl. rewrite Hf1. by repeat split. }
  unfold mbind at 1, io_bind at 1.
  unfold Image_save, Image_get, mbind at 1, io_bind at 1.
  destruct (images w1 !! out) as [im|].
  2: { intros [= <- <-]. simpl. rewrite Hf1.
       split; [done|]. split; [done|]. by intros [|[= ->]]. }
  destruct ((im_width im =? 0) || (im_height im =? 0)).
  { intros [= <- <-]. simpl. rewrite Hf1.
    split; [done|]. split; [done|]. by intros [|[= ->]]. }
  intros [= <- <-]. simpl. split; [done|]. split.
  - intros q Hq. rewrite lookup_insert_ne; [by rewrite Hf1|]. by intros ->.
  - by intros [|[= ->]].
Qed.


(** The alignment of a call is not used. *)
Lemma composite_loop_alignment (f : text_call → string) calls : ∀ result w,
  composite_loop result ((λ c, with_alignment (f c) c) <$> calls) w
  = composite_loop result calls w.
Proof.
  induction calls as [|c rest IH]; intros result w; [done|].
  simpl. unfold mbind, io_bind.
  change (add_text_call result (with_alignment (f c) c) w)
    with (add_text_call result c w).
  destruct (add_text_call result c w) as [[l1|e] w1]; [apply IH|done].
Qed.

(** X9: the alignment is never used: two lists of elements that differ in
    nothing but the alignment of their elements give the same result, the
    same image objects and the same files, whatever the outcome. *)
Theorem composite_alignment_is_ignored (f : text_call → string)
    w background text_elements output_path :
  create_composite_banner background
    ((λ c, with_alignment (f c) c) <$> text_elements) output_path w
  = create_composite_banner background text_elements output_path w.
Proof.
  unfold create_composite_banner, mbind, io_bind.
  destruct (Image_copy background w) as [[l0|e] w0]; [|reflexivity].
  by rewrite composite_loop_alignment.
Qed.

End CompositeBannerFacts.

Lemma test_calls_colors_valid : Forall (call_colors_valid ref_valid_color) test_calls.
Proof. repeat constructor. Qed.

Lemma create_composite_banner_renders_witness :
  ∃ result w',
    create_composite_banner ref_path_exists ref_truetype ref_getbbox ref_valid_color
      1%positive test_calls None test_world = (Ok result, w') ∧
    images w' !! result
    = Some (im_draw_all test_img
              (concat (call_passes ref_path_exists ref_truetype ref_getbbox test_img
                         <$> test_calls))) ∧
    images test_world !! result = None ∧ result ≠ 1%positive ∧
    images w' !! 1%positive = Some test_img ∧
    files w' = files test_world.
Proof.
  apply (create_composite_banner_renders ref_path_exists ref_truetype ref_getbbox
           ref_valid_color test_world 1%positive test_img test_calls);
    [reflexivity|apply test_calls_colors_valid].
Defined.




(** ** Metadata export and import *)

(** What [export_with_metadata] does on a background with no empty side. *)
Lemma export_with_metadata_run w output_path background bg text_layers :
  images w !! background = Some bg →
  (im_width bg =? 0) || (im_height bg =? 0) = false →
  export_with_metadata output_path background text_layers w
  = (Ok (output_path +:+ "_background.png", output_path +:+ "_metadata.json"),
     World (images w)
       (<[output_path +:+ "_metadata.json" :=
            JsonFile (json_of_py (PDict {[
              "width" := PInt (im_width bg);
              "height" := PInt (im_height bg);
              "background" := PStr (output_path +:+ "_background.png");
              "text_layers" := text_layers ]}))]>
        (<[output_path +:+ "_background.png" := PngFile bg]> (files w)))).
Proof.
  intros Hbg Hext.
  unfold export_with_metadata, Image_save, Image_get, json_dump, write_file,
    mbind, io_bind, mret, io_ret.
  rewrite Hbg, Hext. simpl. by rewrite Hbg.
Qed.

(** What it does otherwise: it raises and writes nothing. *)
Lemma export_with_metadata_refused w output_path background text_layers :
  match images w !! background with
  | Some bg => (im_width bg =? 0) || (im_height bg =? 0) = true
  | None => True
  end →
  ∃ e, export_with_metadata output_path background text_layers w = (Raise e, w).
Proof.
  unfold export_with_metadata, Image_save, Image_get, lift, mbind, io_bind.
  destruct (images w !! background) as [bg|]; [|by eexists].
  intros ->. by eexists.
Qed.


(** X12: exporting a second time with the same arguments changes nothing:
    the second call returns what the first returned and leaves the world as
    the first left it. *)
Theorem export_with_metadata_idempotent w output_path background text_layers :
  let out := export_with_metadata output_path background text_layers w in
  export_with_metadata output_path background text_layers out.2 = out.
Proof.
  intros out. subst out.
  destruct (images w !! background) as [bg|] eqn:Hbg.
  - destruct ((im_width bg =? 0) || (im_height bg =? 0)) eqn:Hext.
    + destruct (export_with_metadata_refused w output_path background text_layers)
        as [e He]; [by rewrite Hbg|].
      rewrite He. simpl. exact He.
    + rewrite (export_with_metadata_run _ _ _ _ _ Hbg Hext). simpl.
      rewrite (export_with_metadata_run _ _ _ bg) by done. simpl.
      do 2 f_equal.
      rewrite (insert_insert_ne _ (output_path +:+ "_background.png")
                 (output_path +:+ "_metadata.json")) by apply export_paths_differ.
      by rewrite !insert_insert_eq.
  - destruct (export_with_metadata_refused w output_path background text_layers)
      as [e He]; [by rewrite Hbg|].
    rewrite He. simpl. exact He.
Qed.

(** X13: [load_from_metadata] only reads: whatever its outcome, every file
    and every image object that existed before the call is as it was. *)
Theorem load_from_metadata_reads_only w metadata_path :
  let out := load_from_metadata metadata_path w in
  files out.2 = files w ∧
  (∀ l, is_Some (images w !! l) → images out.2 !! l = images w !! l).
Proof.
  intros out. subst out.
  unfold load_from_metadata, json_load, mbind, io_bind, lift, mret, io_ret.
  destruct (files w !! metadata_path) as [[im|doc|data]|]; try done.
  destruct (py_getitem (py_of_json doc) "background") as [path|e]; [|done].
  assert (Hopen : ∀ r w', Image_open path w = (r, w') →
            files w' = files w ∧
            (∀ l, is_Some (images w !! l) → images w' !! l = images w !! l)).
  { intros r w'. unfold Image_open, Image_alloc.
    destruct path as [| | |p| | |]; try by intros [= <- <-].
    destruct (files w !! p) as [[im|doc'|data]|]; try by intros [= <- <-].
    intros [= <- <-]. simpl. split; [done|]. intros l Hl.
    rewrite lookup_insert_ne; [done|]. intros <-.
    rewrite fresh_image_unused in Hl. by destruct Hl. }
  destruct (Image_open path w) as [[background|e] w1];
    destruct (Hopen _ _ eq_refl) as [Hf Hi]; [|done].
  by destruct (py_getitem (py_of_json doc) "text_layers").
Qed.


Lemma listify_idempotent (v : pyval) : listify (listify v) = listify v.
Proof.
  induction v as [| | | |items IH|items IH|d IH] using pyval_nested_ind; try done.
  - simpl. f_equal. rewrite <- list_fmap_compose. by apply Forall_fmap_ext.
  - simpl. f_equal. rewrite <- list_fmap_compose. by apply Forall_fmap_ext.
  - simpl. f_equal. rewrite <- map_fmap_compose.
    apply map_fmap_ext. intros k v Hk. by apply IH in Hk.
Qed.

(** X15: a second generation of metadata is exact.  The layers read back
    from an export (the original with every tuple turned into a list) can be
    exported again, under any name, with the imported background, and are
    then read back unchanged, with a background of the original content. *)
Theorem reimported_layers_are_stable w output_path output_path'
    background bg text_layers :
  images w !! background = Some bg →
  0 < im_width bg → 0 < im_height bg →
  ∃ w1 bg1 layers1 w2 w3 bg2 w4,
    export_with_metadata output_path background text_layers w
    = (Ok (output_path +:+ "_background.png", output_path +:+ "_metadata.json"), w1) ∧
    load_from_metadata (output_path +:+ "_metadata.json") w1
    = (Ok (bg1, layers1), w2) ∧
    layers1 = listify text_layers ∧
    export_with_metadata output_path' bg1 layers1 w2
    = (Ok (output_path' +:+ "_background.png", output_path' +:+ "_metadata.json"), w3) ∧
    load_from_metadata (output_path' +:+ "_metadata.json") w3
    = (Ok (bg2, layers1), w4) ∧
    images w4 !! bg2 = Some bg.
Proof.
  intros Hbg Hw Hh.
  destruct (load_after_export w output_path background bg text_layers Hbg Hw Hh)
    as (w1 & Hexport & Himages & Hload).
  set (bg1 := fresh (dom (images w))) in *.
  set (w2 := World (<[bg1 := bg]> (images w)) (files w1)) in *.
  assert (Hbg1 : images w2 !! bg1 = Some bg) by apply lookup_insert_eq.
  destruct (load_after_export w2 output_path' bg1 bg (listify text_layers) Hbg1 Hw Hh)
    as (w3 & Hexport' & Himages' & Hload').
  rewrite listify_idempotent in Hload'.
  eexists w1, bg1, _, w2, w3, _, _.
  split; [exact Hexport|]. split; [exact Hload|]. split; [done|].
  split; [exact Hexport'|]. split; [exact Hload'|].
  apply lookup_insert_eq.
Qed.

Lemma reimported_layers_are_stable_witness :
  ∃ w1 bg1 layers1 w2 w3 bg2 w4,
    export_with_metadata "test_banner" 1%positive (PList test_layers) test_world
    = (Ok ("test_banner" +:+ "_background.png", "test_banner" +:+ "_metadata.json"), w1) ∧
    load_from_metadata ("test_banner" +:+ "_metadata.json") w1
    = (Ok (bg1, layers1), w2) ∧
    layers1 = listify (PList test_layers) ∧
    export_with_metadata "copy" bg1 layers1 w2
    = (Ok ("copy" +:+ "_background.png", "copy" +:+ "_metadata.json"), w3) ∧
    load_from_metadata ("copy" +:+ "_metadata.json") w3
    = (Ok (bg2, layers1), w4) ∧
    images w4 !! bg2 = Some test_img.
Proof.
  apply (reimported_layers_are_stable test_world "test_banner" "copy" 1%positive
           test_img (PList test_layers)); [reflexivity|simpl; lia..].
Defined.

(** ** The design response and the text color *)

(** On a dictionary the color choice never raises: the color is the first
    item of the list under [colors] when that is a string, and the caller's
    color otherwise. *)
Lemma design_text_color_dict d text_color :
  ∃ c, design_text_color (PDict d) text_color = Ok c ∧
       (c = text_color ∨ ∃ rest, d !! "colors" = Some (PList (PStr c :: rest))).
Proof.
  unfold design_text_color. simpl.
  destruct (d !! "colors") as [colors|] eqn:Hcolors.
  - rewrite bool_decide_true by done. simpl.
    destruct colors as [| | | |[|[| | |c| | |] rest]| |];
      eexists; (split; [reflexivity|]); eauto.
  - rewrite bool_decide_false by (by intros [? ?]). eauto.
Qed.

Lemma default_design_text_color response text_color :
  design_text_color (default_design response) text_color = Ok "#3498db".
Proof. reflexivity. Qed.

Section DesignFacts.
Context (json_loads : string → result pyval).

(** A response without an opening or without a closing brace is answered
    with the default design. *)
Lemma parse_design_response_no_brace response :
  contains_char "{" response = false ∨ contains_char "}" response = false →
  parse_design_response json_loads response = Ok (default_design response).
Proof.
  intros H. unfold parse_design_response.
  assert (parse_design_try json_loads response = Ok None) as ->; [|done].
  destruct H; [by apply parse_design_try_no_open|by apply parse_design_try_no_close].
Qed.

(** X16: with a JSON reader that reads a text starting with an opening
    brace as an object or not at all, and refuses the empty text, the design
    [parse_design_response] returns is a dictionary for every response; so
    the color choice of [create_banner] never raises on it, and the color it
    yields is the caller's color or the first of the design's colors. *)
Theorem parsed_design_is_a_dictionary response text_color :
  (∀ s v, json_loads (String "{" s) = Ok v → ∃ d, v = PDict d) →
  raises (json_loads "") →
  ∃ d c,
    parse_design_response json_loads response = Ok (PDict d) ∧
    design_text_color (PDict d) text_color = Ok c ∧
    (c = text_color ∨ ∃ rest, d !! "colors" = Some (PList (PStr c :: rest))).
Proof.
  intros Hobj Hempty.
  assert (∃ d, parse_design_response json_loads response = Ok (PDict d)) as [d Hd].
  { destruct (brace_cases response)
      as [Hnone|[[json_str Hspan]|(a & m & post & -> & Ha & Hpost)]].
    - rewrite parse_design_response_no_brace by done. by eexists.
    - rewrite (parse_design_response_span json_loads response json_str Hspan).
      destruct Hspan as (pre & mid & post & _ & _ & _ & ->).
      change ("{" +:+ mid +:+ "}") with (String "{" (mid +:+ "}")).
      destruct (json_loads (String "{" (mid +:+ "}"))) as [v|e] eqn:Hv.
      + destruct (Hobj _ _ Hv) as [d ->]. by eexists.
      + by eexists.
    - unfold parse_design_response.
      rewrite (parse_design_try_crossed json_loads a m post Ha Hpost).
      destruct (json_loads "") as [v|e]; [done|]. by eexists. }
  destruct (design_text_color_dict d text_color) as (c & Hc & Hwhich).
  by exists d, c.
Qed.

(** X17: when the response holds no braces, the text color the caller asked
    for is not used: the design is the default one, whose color list is
    never empty, and the text color becomes its first color. *)
Theorem plain_response_overrides_text_color response text_color :
  contains_char "{" response = false ∨ contains_char "}" response = false →
  ∃ design,
    parse_design_response json_loads response = Ok design ∧
    design = default_design response ∧
    design_text_color design text_color = Ok "#3498db".
Proof.
  intros H. exists (default_design response).
  split; [by apply parse_design_response_no_brace|]. by split.
Qed.
End DesignFacts.

(** The reference reader reads a text that starts with an opening brace as
    an object, or not at all. *)
Lemma json_loads_ref_object s v :
  json_loads_ref (String "{" s) = Ok v → ∃ d, v = PDict d.
Proof.
  unfold json_loads_ref.
  destruct (2 * String.length (String "{" s) + 2)%nat as [|fuel] eqn:Hfuel; [lia|].
  clear Hfuel. cbn [read_value]. change (skip_ws (String "{" s)) with (String "{" s).
  cbv iota. change (Ascii.eqb "{" "{") with true. cbv iota.
  destruct (skip_ws s) as [|c' rest'] eqn:Hs; [done|].
  destruct (Ascii.eqb c' "}").
  - destruct (skip_ws rest'); [|done]. intros [= <-]. by eexists.
  - destruct (read_members _ s []) as [[members tail]|]; [|done]. simpl.
    destruct (skip_ws tail); [|done]. intros [= <-]. by eexists.
Qed.

Lemma parsed_design_is_a_dictionary_witness :
  ∃ d c,
    parse_design_response json_loads_ref "Use {} please" = Ok (PDict d) ∧
    design_text_color (PDict d) "#FFD700" = Ok c ∧
    (c = "#FFD700" ∨ ∃ rest, d !! "colors" = Some (PList (PStr c :: rest))).
Proof.
  apply (parsed_design_is_a_dictionary json_loads_ref "Use {} please" "#FFD700").
  - apply json_loads_ref_object.
  - exact I.
Defined.

Lemma plain_response_overrides_text_color_witness :
  ∃ design,
    parse_design_response json_loads_ref "This is a plain text response" = Ok design ∧
    design = default_design "This is a plain text response" ∧
    design_text_color design "#FFD700" = Ok "#3498db".
Proof.
  apply (plain_response_overrides_text_color json_loads_ref
           "This is a plain text response" "#FFD700").
  by left.
Defined.

(** ** The design agent *)

Section AgentFacts.
Context (getenv : string → option string) (agent_run : string → result string)
        (exn_str : exn → string) (json_loads : string → result pyval).

(** X18: the key check of [BannerDesignAgent.__init__]: a key that is
    passed and not empty is the one stored, whatever the environment holds;
    the environment is consulted when no key, or an empty one, is passed;
    the stored key is never empty; and the constructor raises [ValueError]
    exactly when neither source gives a key that is not empty. *)
Theorem agent_api_key_required api_key :
  (∀ k, api_key = Some k → k ≠ "" → agent_api_key getenv api_key = Ok k) ∧
  (api_key = None ∨ api_key = Some "" →
   ∀ k, getenv "OPENAI_API_KEY" = Some k → k ≠ "" →
        agent_api_key getenv api_key = Ok k) ∧
  (∀ k, agent_api_key getenv api_key = Ok k →
     k ≠ "" ∧ (api_key = Some k ∨ getenv "OPENAI_API_KEY" = Some k)) ∧
  (raises (agent_api_key getenv api_key) ↔
   (api_key = None ∨ api_key = Some "") ∧
   (getenv "OPENAI_API_KEY" = None ∨ getenv "OPENAI_API_KEY" = Some "")).
Proof.
  unfold agent_api_key.
  destruct api_key as [k|], (getenv "OPENAI_API_KEY") as [k'|]; simpl;
    repeat match goal with
    | |- context [String.eqb ?a ""] => destruct (String.eqb_spec a ""); subst; simpl
    end;
    repeat split; try done;
    try (intros; destruct_or?; destruct_and?; simplify_eq; done);
    try (intros; simplify_eq; by auto);
    try (intros [[?|?] [?|?]]; simplify_eq; done).
Qed.

(** X19: [design_banner] never raises: an error of the language model
    comes back as a response text.  When the text of that error holds no
    opening brace, the response is parsed to the default design, so the
    banner is still made, with the first default color as its text color. *)
Theorem agent_failure_gives_default_design user_prompt text_color :
  (∃ response, design_banner agent_run exn_str user_prompt = Ok response) ∧
  ((∀ prompt, raises (agent_run prompt)) →
   (∀ e, contains_char "{" (exn_str e) = false) →
   ∃ e response,
     response = "Error generating design: " +:+ exn_str e ∧
     design_banner agent_run exn_str user_prompt = Ok response ∧
     parse_design_response json_loads response = Ok (default_design response) ∧
     design_text_color (default_design response) text_color = Ok "#3498db").
Proof.
  unfold design_banner.
  set (prompt := _ +:+ user_prompt +:+ _). clearbody prompt.
  split.
  - destruct (agent_run prompt); by eexists.
  - intros Hfail Hstr. specialize (Hfail prompt).
    destruct (agent_run prompt) as [response|e]; [done|].
    exists e, ("Error generating design: " +:+ exn_str e).
    split; [done|]. split; [done|]. split; [|done].
    apply parse_design_response_no_brace. left.
    rewrite contains_char_app, Hstr. reflexivity.
Qed.
End AgentFacts.

(** ** Elements, layers and the SVG export *)

Lemma dict_get_insert_ne (d : gmap string pyval) key key' v dflt :
  key ≠ key' → dict_get (<[key := v]> d) key' dflt = dict_get d key' dflt.
Proof. intros H. unfold dict_get. by rewrite lookup_insert_ne. Qed.

Lemma dict_get_delete_ne (d : gmap string pyval) key key' dflt :
  key ≠ key' → dict_get (delete key d) key' dflt = dict_get d key' dflt.
Proof. intros H. unfold dict_get. by rewrite lookup_delete_ne. Qed.

(** X20: an element is read through nine keys only: setting or removing
    any other key (the [x] and [y] of an SVG layer, for one) changes nothing
    in the call that is made for it. *)
Theorem element_call_ignores_other_keys element key v :
  key ∉ call_keys →
  element_call (<[key := v]> element) = element_call element ∧
  element_call (delete key element) = element_call element.
Proof.
  unfold call_keys. rewrite !not_elem_of_cons.
  intros (H1 & H2 & H3 & H4 & H5 & H6 & H7 & H8 & H9 & _).
  unfold element_call.
  rewrite !dict_get_insert_ne, !dict_get_delete_ne by done. done.
Qed.

Lemma element_call_ignores_other_keys_witness :
  element_call (<["x" := PInt 400]> ∅) = element_call ∅ ∧
  element_call (delete "x" ∅) = element_call ∅.
Proof.
  apply (element_call_ignores_other_keys ∅ "x" (PInt 400)).
  unfold call_keys. rewrite !not_elem_of_cons. repeat split; try done.
  apply not_elem_of_nil.
Defined.

(** X21: the layer [create_banner] builds is read by
    [create_composite_banner] as one call with an unset position, the family
    [Sans], stroke 3 in black and a shadow, in the chosen color; the keys
    [x] and [y] added for the SVG export do not change that call; and
    [export_as_svg] makes of it one text element at the middle of the
    canvas, anchored in the middle, with the same family, color and
    stroke. *)
Theorem banner_layers_are_calls text font_size text_color text_position width height :
  mapM element_call (banner_text_layers text font_size text_color text_position)
  = Some [TextCall text None font_size "Sans" text_color text_position 3 "#000000" true] ∧
  mapM element_call
    (banner_svg_layers width height
       (banner_text_layers text font_size text_color text_position))
  = mapM element_call (banner_text_layers text font_size text_color text_position) ∧
  svg_text_element width height <$>
    banner_svg_layers width height
      (banner_text_layers text font_size text_color text_position)
  = [SvgText (PStr text) (PInt (width / 2), PInt (height / 2)) (PInt font_size)
             (PStr "Sans") (PStr text_color) "middle" (PStr "#000000") (PInt 3)].
Proof. repeat split. Qed.

Section ExportSvgFacts.
Context (svg_validate_size : Z * Z → result unit)
        (svg_validate : svg_element → result unit)
        (svg_tostring : drawing → string).

Local Abbreviation svg_add_text_layers := (svg_add_text_layers svg_validate).
Local Abbreviation export_as_svg :=
  (export_as_svg svg_validate_size svg_validate svg_tostring).

(** The loop adds one text element per layer, in the order of the list,
    when the library accepts each of them. *)
Lemma svg_add_text_layers_ok width height text_layers : ∀ dwg,
  Forall (λ layer, svg_validate (svg_text_element width height layer) = Ok ())
         text_layers →
  svg_add_text_layers dwg width height text_layers
  = Ok (Drawing (dwg_filename dwg) (dwg_size dwg)
          (dwg_elements dwg ++ (svg_text_element width height <$> text_layers))).
Proof.
  induction text_layers as [|layer rest IH]; intros dwg Hvalid.
  - simpl. rewrite app_nil_r. by destruct dwg.
  - inversion Hvalid as [|? ? Hl Hrest]; subst.
    simpl. unfold svg_add. rewrite Hl. simpl.
    rewrite IH by done. simpl. by rewrite <- app_assoc.
Qed.

(** The export when the library accepts every value. *)
Lemma export_as_svg_ok w output_path width height
    background_image_path text_layers :
  svg_validate_size (width, height) = Ok () →
  svg_validate (SvgImage background_image_path (0, 0) (width, height)) = Ok () →
  Forall (λ layer, svg_validate (svg_text_element width height layer) = Ok ())
         text_layers →
  export_as_svg output_path width height background_image_path text_layers w
  = (Ok (),
     World (images w)
       (<[output_path :=
            OtherFile (svg_tostring
              (Drawing output_path (width, height)
                 (SvgImage background_image_path (0, 0) (width, height)
                  :: (svg_text_element width height <$> text_layers))))]>
          (files w))).
Proof.
  intros Hsize Himage Hlayers.
  unfold export_as_svg, svg_drawing, svg_add, lift, mbind, io_bind.
  rewrite Hsize. simpl. rewrite Himage. simpl.
  by rewrite svg_add_text_layers_ok.
Qed.

(** X22: when the library accepts the size, the image element and the text
    element of every layer, [export_as_svg] writes one file, at the output
    path: a drawing of the requested size that holds the background image,
    placed at the origin and stretched over the whole canvas, followed by
    one text element per layer in the order of the list.  No other file and
    no image object changes. *)
Theorem export_as_svg_writes_layers w output_path width height
    background_image_path text_layers :
  svg_validate_size (width, height) = Ok () →
  svg_validate (SvgImage background_image_path (0, 0) (width, height)) = Ok () →
  Forall (λ layer, svg_validate (svg_text_element width height layer) = Ok ())
         text_layers →
  export_as_svg output_path width height background_image_path text_layers w
  = (Ok (),
     World (images w)
       (<[output_path :=
            OtherFile (svg_tostring
              (Drawing output_path (width, height)
                 (SvgImage background_image_path (0, 0) (width, height)
                  :: (svg_text_element width height <$> text_layers))))]>
          (files w))).
Proof. apply export_as_svg_ok. Qed.

(** X23: [export_as_svg] saves last: when it raises, for a size or a value
    the library refuses, nothing has been written.  Whatever its outcome no
    image object changes and no file other than the one at the output
    path. *)
Theorem export_as_svg_all_or_nothing w output_path width height
    background_image_path text_layers :
  let out :=
    export_as_svg output_path width height background_image_path text_layers w in
  images out.2 = images w ∧
  (∀ p, p ≠ output_path → files out.2 !! p = files w !! p) ∧
  (raises out.1 → out.2 = w).
Proof.
  intros out. subst out.
  unfold export_as_svg, lift, mbind, io_bind.
  destruct (svg_drawing svg_validate_size output_path (width, height))
    as [dwg|e] eqn:Hdwg; [|by simpl].
  assert (dwg_filename dwg = output_path) as Hname.
  { unfold svg_drawing in Hdwg. destruct (svg_validate_size (width, height)); [|done].
    by injection Hdwg as <-. }
  destruct (svg_add svg_validate dwg _) as [dwg1|e] eqn:Hadd; [|by simpl].
  assert (dwg_filename dwg1 = output_path) as Hname1.
  { unfold svg_add in Hadd. destruct (svg_validate _); [|done].
    by injection Hadd as <-. }
  assert (Hloop : ∀ layers d r, dwg_filename d = output_path →
            svg_add_text_layers d width height layers = Ok r →
            dwg_filename r = output_path).
  { induction layers as [|layer rest IH]; intros d r Hd; simpl.
    - by intros [= <-].
    - unfold svg_add at 1. destruct (svg_validate _); [|done]. simpl.
      by apply IH. }
  destruct (svg_add_text_layers dwg1 width height text_layers) as [dwg2|e] eqn:Hl;
    [|by simpl].
  rewrite (Hloop _ _ _ Hname1 Hl). simpl. split; [done|]. split; [|done].
  intros p Hp. by rewrite lookup_insert_ne.
Qed.
End ExportSvgFacts.

Lemma export_as_svg_writes_layers_witness :
  export_as_svg ref_svg_validate_size ref_svg_validate ref_svg_tostring
    "outputs/banner.svg" 1024 512 "outputs/banner_background.png"
    (banner_svg_layers 1024 512 (banner_text_layers "INNOVATE" 72 "#3498db" "center"))
    test_world
  = (Ok (),
     World (images test_world)
       (<["outputs/banner.svg" :=
            OtherFile (ref_svg_tostring
              (Drawing "outputs/banner.svg" (1024, 512)
                 (SvgImage "outputs/banner_background.png" (0, 0) (1024, 512)
                  :: (svg_text_element 1024 512 <$>
                        banner_svg_layers 1024 512
                          (banner_text_layers "INNOVATE" 72 "#3498db" "center")))))]>
          (files test_world))).
Proof.
  apply (export_as_svg_writes_layers ref_svg_validate_size ref_svg_validate
           ref_svg_tostring test_world "outputs/banner.svg" 1024 512
           "outputs/banner_background.png"
           (banner_svg_layers 1024 512
              (banner_text_layers "INNOVATE" 72 "#3498db" "center")));
    [reflexivity|reflexivity|].
  repeat constructor.
Defined.

(** ** The background without ControlNet *)

(** A number below 256 is written with exactly two hexadecimal digits. *)
Lemma format_02x_byte n :
  0 ≤ n < 256 →
  String.length (format_02x n) = 2%nat ∧ all_hex (format_02x n) = true.
Proof.
  intros Hn.
  assert (Hall : forallb (λ n, (String.length (format_02x n) =? 2)%nat
                               && all_hex (format_02x n)) (seqZ 0 256) = true)
    by (vm_compute; reflexivity).
  rewrite forallb_forall in Hall.
  specialize (Hall n). rewrite <- list_elem_of_In, elem_of_seqZ in Hall.
  apply andb_true_iff in Hall as [Hlen Hhex]; [|lia].
  by apply Nat.eqb_eq in Hlen.
Qed.

Lemma all_hex_app a b : all_hex (a +:+ b) = all_hex a && all_hex b.
Proof. induction a as [|c a IH]; [done|]. simpl. by rewrite IH, andb_assoc. Qed.

Section SimpleBackgroundFacts.
Context (valid_color : string → bool) (shade_of : Z → Z → Z).

Local Abbreviation draw_line_fill := (draw_line_fill valid_color).
Local Abbreviation gradient_loop := (gradient_loop valid_color shade_of).
Local Abbreviation simple_background := (simple_background valid_color shade_of).
Local Abbreviation gradient_row := (gradient_row shade_of).
Local Abbreviation hex_colors := (hex_colors valid_color).
Local Abbreviation shade_is_byte := (shade_is_byte shade_of).

Lemma gradient_color_valid width height i :
  hex_colors → 0 ≤ shade_of i height < 256 → 0 ≤ i < 3880 →
  ∃ color, gradient_row width height i = Line (0, i, width, i) color 0 ∧
           valid_color color = true.
Proof.
  intros [Hvalid _] Hshade Hi. eexists. split; [reflexivity|].
  destruct (format_02x_byte (shade_of i height) Hshade) as [Hl1 Hh1].
  destruct (format_02x_byte (62 + i / 20)) as [Hl2 Hh2];
    [Z.div_mod_to_equations; lia|].
  destruct (format_02x_byte 80) as [Hl3 Hh3]; [lia|].
  change ("#" +:+ ?s) with (String "#" s).
  apply Hvalid.
  - rewrite !append_length, Hl1, Hl2, Hl3. done.
  - by rewrite !all_hex_app, Hh1, Hh2, Hh3.
Qed.

Lemma gradient_color_invalid width height :
  hex_colors → 0 ≤ shade_of 3880 height < 256 →
  ∃ color, gradient_row width height 3880 = Line (0, 3880, width, 3880) color 0 ∧
           valid_color color = false.
Proof.
  intros [_ Hinvalid] Hshade. eexists. split; [reflexivity|].
  destruct (format_02x_byte (shade_of 3880 height) Hshade) as [Hl1 Hh1].
  change ("#" +:+ ?s) with (String "#" s).
  apply Hinvalid. rewrite !append_length, Hl1. reflexivity.
Qed.

(** The loop over rows whose colors are valid draws one line per row. *)
Lemma gradient_loop_ok background width height rows : ∀ w im,
  images w !! background = Some im →
  Forall (λ i, ∃ color, gradient_row width height i = Line (0, i, width, i) color 0 ∧
                        valid_color color = true) rows →
  gradient_loop background width height rows w
  = (Ok (), World (<[background := im_draw_all im (gradient_row width height <$> rows)]>
                     (images w)) (files w)).
Proof.
  induction rows as [|i rest IH]; intros w im Him Hrows.
  - simpl. rewrite im_draw_all_nil, insert_id by done. by destruct w.
  - inversion Hrows as [|? ? (color & Hrow & Hcolor) Hrest]; subst.
    simpl. unfold mbind, io_bind, draw_line_fill.
    unfold gradient_row in Hrow. injection Hrow as Hrow.
    rewrite Hrow, Hcolor. simpl. unfold Image_draw. rewrite Him.
    erewrite IH; [|apply lookup_insert_eq|done]. simpl.
    rewrite insert_insert_eq. do 3 f_equal.
    unfold im_draw, im_draw_all. simpl. rewrite <- app_assoc. simpl.
    unfold gradient_row. by rewrite Hrow.
Qed.

Lemma gradient_loop_cons background width height i rest w :
  gradient_loop background width height (i :: rest) w
  = match draw_line_fill background (0, i, width, i)
            ("#" +:+ format_02x (shade_of i height) +:+ format_02x (62 + i / 20)
                 +:+ format_02x 80) w with
    | (Ok _, w1) => gradient_loop background width height rest w1
    | (Raise e, w1) => (Raise e, w1)
    end.
Proof. reflexivity. Qed.

Lemma gradient_loop_app background width height rows1 rows2 w :
  gradient_loop background width height (rows1 ++ rows2) w
  = match gradient_loop background width height rows1 w with
    | (Ok _, w1) => gradient_loop background width height rows2 w1
    | (Raise e, w1) => (Raise e, w1)
    end.
Proof.
  revert w. induction rows1 as [|i rest IH]; intros w; [done|].
  simpl. unfold mbind, io_bind.
  destruct (draw_line_fill _ _ _ w) as [[u|e] w1]; [apply IH|done].
Qed.

(** The background without ControlNet, on a canvas of at most 3880 rows. *)
Lemma simple_background_ok w width height :
  hex_colors → shade_is_byte height →
  0 ≤ width → 0 ≤ height ≤ 3880 →
  simple_background width height w
  = (Ok (fresh (dom (images w))),
     World (<[fresh (dom (images w)) :=
                Image "RGB" width height "#2c3e50"
                      (gradient_row width height <$> seqZ 0 height)]> (images w))
           (files w)).
Proof.
  intros Hhex Hshade Hw Hh.
  unfold simple_background, Image_new, lift, Image_alloc.
  destruct (Z.ltb_spec width 0); [lia|]. destruct (Z.ltb_spec height 0); [lia|].
  cbn [orb]. unfold mbind, io_bind, mret, io_ret.
  set (rows := seqZ 0 height).
  assert (Hrows : Forall (λ i, ∃ color,
            gradient_row width height i = Line (0, i, width, i) color 0 ∧
            valid_color color = true) rows).
  { apply Forall_forall. intros i Hi. apply elem_of_seqZ in Hi.
    apply gradient_color_valid; [done|apply Hshade; lia|lia]. }
  clearbody rows.
  set (l := fresh (dom (images w))).
  set (im := Image "RGB" width height "#2c3e50" []).
  rewrite (gradient_loop_ok l width height rows
             (World (<[l := im]> (images w)) (files w)) im);
    [|apply lookup_insert_eq|done].
  cbn [images files]. by rewrite insert_insert_eq.
Qed.

(** X24: up to 3880 rows the background without ControlNet is a new RGB
    image of the requested size with one horizontal line per row, from the
    top, each over the full width; no other image object and no file
    changes. *)
Theorem simple_background_rows w width height :
  hex_colors → shade_is_byte height →
  0 ≤ width → 0 ≤ height ≤ 3880 →
  simple_background width height w
  = (Ok (fresh (dom (images w))),
     World (<[fresh (dom (images w)) :=
                Image "RGB" width height "#2c3e50"
                      (gradient_row width height <$> seqZ 0 height)]> (images w))
           (files w)).
Proof. apply simple_background_ok. Qed.

(** The background without ControlNet, on a canvas of more than 3880 rows. *)
Lemma simple_background_fails w width height :
  hex_colors → shade_is_byte height →
  0 ≤ width → 3880 < height →
  simple_background width height w
  = (Raise (ValueError "unknown color specifier"),
     World (<[fresh (dom (images w)) :=
                Image "RGB" width height "#2c3e50"
                      (gradient_row width height <$> seqZ 0 3880)]> (images w))
           (files w)).
Proof.
  intros Hhex Hshade Hw Hh.
  unfold simple_background, Image_new, lift, Image_alloc.
  destruct (Z.ltb_spec width 0); [lia|]. destruct (Z.ltb_spec height 0); [lia|].
  cbn [orb]. unfold mbind, io_bind, mret, io_ret.
  assert (Hsplit : seqZ 0 height = seqZ 0 3880 ++ 3880 :: seqZ 3881 (height - 3881)).
  { replace height with (3880 + (1 + (height - 3881))) at 1 by lia.
    rewrite seqZ_app by lia. f_equal. rewrite seqZ_cons by lia. f_equal.
    f_equal; lia. }
  rewrite Hsplit. clear Hsplit.
  set (rows := seqZ 0 3880).
  assert (Hrows : Forall (λ i, ∃ color,
            gradient_row width height i = Line (0, i, width, i) color 0 ∧
            valid_color color = true) rows).
  { apply Forall_forall. intros i Hi. apply elem_of_seqZ in Hi.
    apply gradient_color_valid; [done|apply Hshade; lia|lia]. }
  clearbody rows.
  set (rest := seqZ 3881 (height - 3881)). clearbody rest.
  set (l := fresh (dom (images w))).
  set (im := Image "RGB" width height "#2c3e50" []).
  rewrite gradient_loop_app.
  rewrite (gradient_loop_ok l width height rows
             (World (<[l := im]> (images w)) (files w)) im);
    [|apply lookup_insert_eq|done].
  cbn [images files]. rewrite insert_insert_eq.
  rewrite gradient_loop_cons. unfold draw_line_fill.
  destruct (gradient_color_invalid width height Hhex) as (color & Hrow & Hcolor);
    [apply Hshade; lia|].
  unfold gradient_row in Hrow. injection Hrow as Hrow.
  rewrite Hrow, Hcolor. reflexivity.
Qed.

(** X25: on a canvas of more than 3880 rows the background without
    ControlNet cannot be made: on row 3880 the green component, 62 + i // 20,
    reaches 256 and is written with three digits, the color has seven, and
    the library's [ValueError] is raised.  The image object is left behind
    with 3880 lines drawn, and no file is written. *)
Theorem simple_background_tall_canvas w width height :
  hex_colors → shade_is_byte height →
  0 ≤ width → 3880 < height →
  simple_background width height w
  = (Raise (ValueError "unknown color specifier"),
     World (<[fresh (dom (images w)) :=
                Image "RGB" width height "#2c3e50"
                      (gradient_row width height <$> seqZ 0 3880)]> (images w))
           (files w)).
Proof. apply simple_background_fails. Qed.
End SimpleBackgroundFacts.

Lemma ref_hex_colors : hex_colors ref_valid_color.
Proof.
  split; intros s Hlen; unfold ref_valid_color.
  - intros ->. by rewrite Hlen.
  - rewrite Hlen. apply andb_false_r.
Qed.

Lemma ref_shade_is_byte height : shade_is_byte ref_shade_of height.
Proof. intros i Hi. unfold ref_shade_of. Z.div_mod_to_equations. nia. Qed.

Lemma simple_background_rows_witness :
  simple_background ref_valid_color ref_shade_of 1024 512 test_world
  = (Ok (fresh (dom (images test_world))),
     World (<[fresh (dom (images test_world)) :=
                Image "RGB" 1024 512 "#2c3e50"
                      (gradient_row ref_shade_of 1024 512 <$> seqZ 0 512)]>
              (images test_world))
           (files test_world)).
Proof.
  apply (simple_background_rows ref_valid_color ref_shade_of test_world 1024 512);
    [apply ref_hex_colors|apply ref_shade_is_byte|lia|lia].
Defined.

Lemma simple_background_tall_canvas_witness :
  simple_background ref_valid_color ref_shade_of 1024 4000 test_world
  = (Raise (ValueError "unknown color specifier"),
     World (<[fresh (dom (images test_world)) :=
                Image "RGB" 1024 4000 "#2c3e50"
                      (gradient_row ref_shade_of 1024 4000 <$> seqZ 0 3880)]>
              (images test_world))
           (files test_world)).
Proof.
  apply (simple_background_tall_canvas ref_valid_color ref_shade_of test_world 1024 4000);
    [apply ref_hex_colors|apply ref_shade_is_byte|lia|lia].
Defined.

(** ** Device and model choice *)

(** X26: [_get_device] answers [cuda], [mps] or [cpu], with [cuda]
    preferred to [mps]; and the model table of [load_model] never fails: a
    ControlNet type outside the table is given the [canny] model, and every
    type gets one of the four models of the table. *)
Theorem device_and_model_choice cuda_is_available mps_is_available controlnet_type :
  _get_device cuda_is_available mps_is_available ∈ ["cuda"; "mps"; "cpu"] ∧
  (cuda_is_available = true → _get_device cuda_is_available mps_is_available = "cuda") ∧
  (∃ id, controlnet_id controlnet_type = Ok id ∧
         (∃ known, controlnet_models !! known = Some id) ∧
         (controlnet_models !! controlnet_type = None →
          id = "lllyasviel/sd-controlnet-canny")) ∧
  (controlnet_type ∉ ["canny"; "depth"; "pose"; "scribble"] →
   controlnet_id controlnet_type = Ok "lllyasviel/sd-controlnet-canny").
Proof.
  split; [destruct cuda_is_available, mps_is_available; set_solver|].
  split; [by intros ->|].
  unfold controlnet_id.
  change (controlnet_models !! "canny") with (Some "lllyasviel/sd-controlnet-canny").
  cbn [mbind result_bind].
  split.
  - destruct (controlnet_models !! controlnet_type) as [id|] eqn:Hid.
    + exists id. split; [done|]. split; [by exists controlnet_type|done].
    + eexists. split; [done|]. split; [by exists "canny"|done].
  - rewrite !not_elem_of_cons. intros (H1 & H2 & H3 & H4 & _).
    unfold controlnet_models.
    rewrite !lookup_insert_ne by done. by rewrite lookup_singleton_ne.
Qed.

(** ** The whole pipeline *)

Lemma bind_never_returns {A B} (m : io A) (k : A → io B) :
  (∀ a, never_returns (k a)) → never_returns (m ≫= k).
Proof.
  intros Hk w. unfold mbind, io_bind.
  destruct (m w) as [[a|e] w']; [apply Hk|by exists e].
Qed.

Lemma raise_never_returns {A B} (e : exn) (k : A → io B) :
  never_returns (lift (Raise e) ≫= k).
Proof. intros w. by exists e. Qed.

Lemma io_bind_ok {A B} (m : io A) (k : A → io B) w a w' :
  m w = (Ok a, w') → (m ≫= k) w = k a w'.
Proof. intros H. unfold mbind, io_bind. by rewrite H. Qed.

Lemma Image_save_ok w l im path :
  images w !! l = Some im →
  0 < im_width im → 0 < im_height im →
  Image_save l path w = (Ok (), World (images w) (<[path := PngFile im]> (files w))).
Proof.
  intros Him Hw Hh. unfold Image_save, Image_get, mbind, io_bind. rewrite Him.
  destruct (Z.eqb_spec (im_width im) 0); [lia|].
  destruct (Z.eqb_spec (im_height im) 0); [lia|]. done.
Qed.

Section CreateBannerFacts.
Context (strict_coords : bool)
        (path_exists : string → bool) (truetype : string → Z → result font)
        (getbbox : font → string → box) (valid_color : string → bool)
        (shade_of : Z → Z → Z) (json_loads : string → result pyval)
        (svg_validate_size : Z * Z → result unit)
        (svg_validate : svg_element → result unit)
        (svg_tostring : drawing → string)
        (getenv : string → option string) (Agent_new : string → result unit)
        (agent_run : string → result string) (exn_str : exn → string)
        (generate_banner : pyval → loc → io loc) (joinpath : string → string).

Local Abbreviation create_banner :=
  (create_banner strict_coords path_exists truetype getbbox valid_color shade_of
     json_loads svg_validate_size svg_validate svg_tostring getenv Agent_new
     agent_run exn_str generate_banner joinpath).
Local Abbreviation main :=
  (main strict_coords path_exists truetype getbbox valid_color shade_of
     json_loads svg_validate_size svg_validate svg_tostring getenv Agent_new
     agent_run exn_str generate_banner joinpath).
Local Abbreviation call_passes := (call_passes path_exists truetype getbbox).

(** [create_banner] ends by reading [metadata_path.name], and
    [metadata_path] is a string. *)
Lemma create_banner_raises api_key user_prompt text width height text_position
    font_size text_color use_controlnet output_name :
  never_returns (create_banner api_key user_prompt text width height text_position
                   font_size text_color use_controlnet output_name).
Proof.
  unfold create_banner.
  do 9 (apply bind_never_returns; intros ?).
  destruct a7 as [bg_path metadata_path].
  do 2 (apply bind_never_returns; intros ?).
  apply raise_never_returns.
Qed.

(** X27: [create_banner] never returns its result.  For every argument,
    every installation and every state of the heap and the files, with or
    without ControlNet, the call ends in an exception: when nothing fails
    before, the closing messages read [metadata_path.name] on the string
    that [export_with_metadata] returned, which raises [AttributeError]. *)
Theorem create_banner_never_returns api_key user_prompt text width height
    text_position font_size text_color use_controlnet output_name w :
  ∃ e, (create_banner api_key user_prompt text width height text_position
          font_size text_color use_controlnet output_name w).1 = Raise e.
Proof. apply create_banner_raises. Qed.

(** X28: so the command line never reports success: once the arguments are
    parsed, the exit code of [main] is 1 on every run. *)
Theorem main_exit_code_is_one api_key prompt text width height position font_size
    color no_controlnet output w :
  (main api_key prompt text width height position font_size color no_controlnet
     output w).1 = 1.
Proof.
  unfold main.
  destruct (create_banner_raises api_key prompt text width height position font_size
              color (negb no_controlnet) output w) as [e He].
  destruct (create_banner _ _ _ _ _ _ _ _ _ _ w) as [[p|e'] w']; [done|done].
Qed.

(** One element on a live background: the background is copied, and the
    copy is copied again by the rendering, which draws on the second copy. *)
Lemma create_composite_banner_single w background bg c :
  images w !! background = Some bg →
  call_colors_valid valid_color c →
  create_composite_banner path_exists truetype getbbox valid_color background [c] None w
  = (Ok (fresh (dom (<[fresh (dom (images w)) := bg]> (images w)))),
     World (<[fresh (dom (<[fresh (dom (images w)) := bg]> (images w))) :=
                im_draw_all bg (call_passes bg c)]>
              (<[fresh (dom (images w)) := bg]> (images w)))
           (files w)).
Proof.
  intros Hbg Hc. unfold create_composite_banner.
  rewrite (io_bind_ok _ _ _ _ _ (Image_copy_allocated _ _ _ Hbg)).
  set (l1 := fresh (dom (images w))).
  set (w1 := World (<[l1 := bg]> (images w)) (files w)).
  cbn [composite_loop].
  erewrite io_bind_ok; [|erewrite io_bind_ok; [reflexivity|]].
  2: { apply (add_text_call_ok path_exists truetype getbbox valid_color w1 l1 bg c);
       [apply lookup_insert_eq|done]. }
  reflexivity.
Qed.

(** X29: the run without ControlNet, from end to end.  With a key and an
    agent, colors the library can parse, a canvas of positive size and at
    most 3880 rows, and an SVG library that accepts the values, [create_banner]
    makes the background, a copy of it and the banner of that copy with the
    shadow pass and the main pass of the text, writes the background, the
    banner, the background again, the metadata and the SVG drawing, in that
    order, and then raises [AttributeError]: every output is on disk, and
    the path of the banner is not returned. *)
Theorem create_banner_writes_then_raises w api_key user_prompt text width height
    text_position font_size text_color output_name key response design color :
  agent_api_key getenv api_key = Ok key →
  Agent_new key = Ok () →
  design_banner agent_run exn_str user_prompt = Ok response →
  parse_design_response json_loads response = Ok design →
  design_text_color design text_color = Ok color →
  hex_colors valid_color → shade_is_byte shade_of height →
  valid_color "#00000080" = true → valid_color color = true →
  valid_color "#000000" = true →
  0 < width → 0 < height ≤ 3880 →
  svg_validate_size (width, height) = Ok () →
  svg_validate (SvgImage (joinpath output_name +:+ "_background.png") (0, 0)
                         (width, height)) = Ok () →
  Forall (λ layer, svg_validate (svg_text_element width height layer) = Ok ())
    (banner_svg_layers width height
       (banner_text_layers text font_size color text_position)) →
  let text_layers := banner_text_layers text font_size color text_position in
  let bg := Image "RGB" width height "#2c3e50"
                  (gradient_row shade_of width height <$> seqZ 0 height) in
  let banner :=
    im_draw_all bg
      (call_passes bg (TextCall text None font_size "Sans" color text_position 3
                                "#000000" true)) in
  let background := fresh (dom (images w)) in
  let copy := fresh (dom (<[background := bg]> (images w))) in
  let final_banner :=
    fresh (dom (<[copy := bg]> (<[background := bg]> (images w)))) in
  create_banner api_key user_prompt text width height text_position font_size
    text_color false output_name w
  = (Raise (AttributeError "'str' object has no attribute 'name'"),
     World (<[final_banner := banner]>
              (<[copy := bg]> (<[background := bg]> (images w))))
           (banner_files joinpath svg_tostring output_name width height bg banner
              text_layers (files w))).
Proof.
  intros Hkey Hagent Hresponse Hdesign Hcolor Hhex Hshade Hshadow Hvalid Hblack
    Hw Hh Hsize Hsvgimage Hsvgtext text_layers bg banner background copy final_banner.
  unfold create_banner, lift.
  rewrite (io_bind_ok _ _ w key w) by (by rewrite Hkey).
  rewrite (io_bind_ok _ _ w () w) by (by rewrite Hagent).
  rewrite (io_bind_ok _ _ w response w) by (by rewrite Hresponse).
  rewrite (io_bind_ok _ _ w design w) by (by rewrite Hdesign).
  (* Step 2 *)
  erewrite io_bind_ok.
  2: { erewrite io_bind_ok;
         [|apply (simple_background_ok valid_color shade_of w width height);
           [done|done|lia|lia]].
       erewrite io_bind_ok; [reflexivity|].
       apply Image_save_ok with (im := bg); [apply lookup_insert_eq|done|simpl; lia]. }
  set (l0 := fresh (dom (images w))).
  set (w1 := World _ _).
  (* Step 3 *)
  rewrite (io_bind_ok _ _ w1 color w1) by (by rewrite Hcolor).
  change (mapM element_call (banner_text_layers text font_size color text_position))
    with (Some [TextCall text None font_size "Sans" color text_position 3
                         "#000000" true]).
  cbv iota.
  erewrite io_bind_ok.
  2: { apply (create_composite_banner_single w1 l0 bg); [apply lookup_insert_eq|].
       by repeat split. }
  set (l1 := fresh (dom (images w1))).
  set (l2 := fresh (dom (<[l1 := bg]> (images w1)))).
  set (w2 := World _ _).
  (* Step 4 *)
  erewrite io_bind_ok.
  2: { apply Image_save_ok with (im := banner);
         [apply lookup_insert_eq|done|simpl; lia]. }
  set (w3 := World _ _).
  assert (Hl0 : images w3 !! l0 = Some bg).
  { assert (images w !! l0 = None) by apply fresh_image_unused.
    assert (images w1 !! l1 = None) by apply fresh_image_unused.
    assert (images w2 !! l2 = Some banner) by apply lookup_insert_eq.
    subst w3 w2. cbn [images].
    assert (l0 ≠ l1) by (intros Heq; rewrite <- Heq in *; subst w1; cbn [images] in *;
                          by rewrite lookup_insert_eq in *).
    assert (l0 ≠ l2).
    { intros Heq. pose proof (fresh_image_unused (World (<[l1:=bg]> (images w1)) (files w1))) as Hf.
      cbn [images] in Hf. fold l2 in Hf. rewrite <- Heq in Hf.
      rewrite lookup_insert_ne in Hf by done. subst w1. cbn [images] in Hf.
      by rewrite lookup_insert_eq in Hf. }
    rewrite !lookup_insert_ne by done. subst w1. cbn [images]. apply lookup_insert_eq. }
  erewrite io_bind_ok.
  2: { apply (export_with_metadata_run w3 (joinpath output_name) l0 bg); [done|].
       apply orb_false_iff. split; apply Z.eqb_neq; simpl; lia. }
  set (w4 := World _ _).
  cbv beta iota.
  erewrite io_bind_ok.
  2: { by apply (export_as_svg_ok svg_validate_size svg_validate svg_tostring w4). }
  set (w5 := World _ _).
  unfold mbind, io_bind, attr_name. cbn [fst snd].
  reflexivity.
Qed.

(** [parse_design_response] returns for every reader and every response. *)
Lemma parse_design_response_total response :
  ∃ design, parse_design_response json_loads response = Ok design.
Proof.
  unfold parse_design_response.
  destruct (parse_design_try json_loads response) as [[v|]|e]; simpl; by eexists.
Qed.

(** X30: without ControlNet, a canvas of more than 3880 rows stops
    [create_banner] before anything is written: with a key and an agent, the
    call raises the [ValueError] of the gradient loop and the files are as
    they were, whatever the agent answered. *)
Theorem create_banner_tall_canvas_writes_nothing w api_key user_prompt text
    width height text_position font_size text_color output_name key :
  agent_api_key getenv api_key = Ok key →
  Agent_new key = Ok () →
  hex_colors valid_color → shade_is_byte shade_of height →
  0 ≤ width → 3880 < height →
  (create_banner api_key user_prompt text width height text_position font_size
     text_color false output_name w).1
  = Raise (ValueError "unknown color specifier") ∧
  files (create_banner api_key user_prompt text width height text_position font_size
           text_color false output_name w).2 = files w.
Proof.
  intros Hkey Hagent Hhex Hshade Hw Hh.
  assert (∃ response, design_banner agent_run exn_str user_prompt = Ok response)
    as [response Hresponse].
  { unfold design_banner. destruct (agent_run _); by eexists. }
  destruct (parse_design_response_total response) as [design Hdesign].
  assert (Hrun : ∃ w', files w' = files w ∧
            create_banner api_key user_prompt text width height text_position
              font_size text_color false output_name w
            = (Raise (ValueError "unknown color specifier"), w')).
  { eexists. split; last first.
    - unfold create_banner, lift.
      rewrite (io_bind_ok _ _ w key w) by (by rewrite Hkey).
      rewrite (io_bind_ok _ _ w () w) by (by rewrite Hagent).
      rewrite (io_bind_ok _ _ w response w) by (by rewrite Hresponse).
      rewrite (io_bind_ok _ _ w design w) by (by rewrite Hdesign).
      unfold mbind at 1, io_bind at 1. unfold mbind at 1, io_bind at 1.
      rewrite (simple_background_fails valid_color shade_of w width height) by done.
      reflexivity.
    - done. }
  destruct Hrun as (w' & Hfiles & ->). by split.
Qed.
End CreateBannerFacts.

Lemma create_banner_writes_then_raises_witness :
  let bg := Image "RGB" 1024 512 "#2c3e50"
                  (gradient_row ref_shade_of 1024 512 <$> seqZ 0 512) in
  let banner :=
    im_draw_all bg
      (call_passes ref_path_exists ref_truetype ref_getbbox bg
         (TextCall "INNOVATE" None 72 "Sans" "#3498db" "center" 3 "#000000" true)) in
  let background := fresh (dom (images test_world)) in
  let copy := fresh (dom (<[background := bg]> (images test_world))) in
  let final_banner :=
    fresh (dom (<[copy := bg]> (<[background := bg]> (images test_world)))) in
  ref_create_banner None "modern tech startup" "INNOVATE" 1024 512 "center" 72
    "#FFFFFF" false "banner" test_world
  = (Raise (AttributeError "'str' object has no attribute 'name'"),
     World (<[final_banner := banner]>
              (<[copy := bg]> (<[background := bg]> (images test_world))))
           (banner_files ref_joinpath ref_svg_tostring "banner" 1024 512 bg banner
              (banner_text_layers "INNOVATE" 72 "#3498db" "center")
              (files test_world))).
Proof.
  apply (create_banner_writes_then_raises true ref_path_exists ref_truetype
           ref_getbbox ref_valid_color ref_shade_of json_loads_ref
           ref_svg_validate_size ref_svg_validate ref_svg_tostring ref_getenv
           ref_Agent_new ref_agent_run ref_exn_str ref_generate_banner ref_joinpath
           test_world None "modern tech startup" "INNOVATE" 1024 512 "center" 72
           "#FFFFFF" "banner" "sk-test" "A bold, modern banner in blue tones."
           (default_design "A bold, modern banner in blue tones.") "#3498db");
    [reflexivity|reflexivity|reflexivity|reflexivity|reflexivity|
     apply ref_hex_colors|apply ref_shade_is_byte|reflexivity|reflexivity|
     reflexivity|lia|lia|reflexivity|reflexivity|repeat constructor].
Defined.

Lemma create_banner_tall_canvas_writes_nothing_witness :
  (ref_create_banner None "poster" "TALL" 1024 4000 "center" 72 "#FFFFFF" false
     "banner" test_world).1
  = Raise (ValueError "unknown color specifier") ∧
  files (ref_create_banner None "poster" "TALL" 1024 4000 "center" 72 "#FFFFFF" false
           "banner" test_world).2 = files test_world.
Proof.
  apply (create_banner_tall_canvas_writes_nothing true ref_path_exists ref_truetype
           ref_getbbox ref_valid_color ref_shade_of json_loads_ref
           ref_svg_validate_size ref_svg_validate ref_svg_tostring ref_getenv
           ref_Agent_new ref_agent_run ref_exn_str ref_generate_banner ref_joinpath
           test_world None "poster" "TALL" 1024 4000 "center" 72 "#FFFFFF" "banner"
           "sk-test");
    [reflexivity|reflexivity|apply ref_hex_colors|apply ref_shade_is_byte|lia|lia].
Defined.
